(** * DelayKiller: capture / apply / restore engine and network probes

    A shallow embedding of the two programs of the repository,
    [DelayKillerLite.py] (module [Lite]) and [delaykiller.py] (module
    [Premium]), and the properties of their command runner, state probe,
    snapshot store, tweak applier, restore engine and network probes.

    Modelling conventions.
    - A Python [str] is a [string] of code points below 128; the character
      classes of [re], [str.strip], [str.splitlines] and [str.lower] are the
      ASCII ones.
    - The operating system is a [World]: the shell is an oracle from the
      history of commands, the command line and the timeout to what the
      child process does; every command handed to [subprocess] is appended
      to [issued].
    - Python exceptions are the [Raise] outcome of the monad [M];
      [try_except] is a [try: ... except ...:] block.
    - A JSON document written by [json.dump] and read back by [json.load]
      is the value that was written. *)

From Stdlib Require Import ZArith Ascii String List Lia Bool.
From stdpp Require Import base option list gmap strings pretty.

Local Open Scope string_scope.
Local Open Scope list_scope.
Local Open Scope Z_scope.

(** ** Python string primitives *)

Module Py.

(** [c.isspace()] on ASCII: TAB, LF, VT, FF, CR, FS, GS, RS, US, SPACE. *)
Definition isspace (c : ascii) : bool :=
  match c with
  | "009" | "010" | "011" | "012" | "013"
  | "028" | "029" | "030" | "031" | " " => true
  | _ => false
  end%char.

Definition isdigit (c : ascii) : bool :=
  let n := nat_of_ascii c in (48 <=? n)%nat && (n <=? 57)%nat.

Definition isupper (c : ascii) : bool :=
  let n := nat_of_ascii c in (65 <=? n)%nat && (n <=? 90)%nat.

Definition islower (c : ascii) : bool :=
  let n := nat_of_ascii c in (97 <=? n)%nat && (n <=? 122)%nat.

Definition ishex (c : ascii) : bool :=
  let n := nat_of_ascii c in
  isdigit c || ((65 <=? n)%nat && (n <=? 70)%nat)
            || ((97 <=? n)%nat && (n <=? 102)%nat).

(** A word character of [re]: [[a-zA-Z0-9_]]. *)
Definition isword (c : ascii) : bool :=
  isdigit c || isupper c || islower c || Ascii.eqb c "_".

Definition lower_char (c : ascii) : ascii :=
  if isupper c then ascii_of_nat (nat_of_ascii c + 32) else c.

(** [s.lower()] *)
Fixpoint lower (s : string) : string :=
  match s with
  | EmptyString => EmptyString
  | String c s' => String (lower_char c) (lower s')
  end.

(** [s.lstrip()] *)
Fixpoint lstrip (s : string) : string :=
  match s with
  | EmptyString => EmptyString
  | String c s' => if isspace c then lstrip s' else s
  end.

(** [s.rstrip()] *)
Fixpoint rstrip (s : string) : string :=
  match s with
  | EmptyString => EmptyString
  | String c s' =>
      match rstrip s' with
      | EmptyString => if isspace c then EmptyString else String c EmptyString
      | r => String c r
      end
  end.

(** [s.strip()] *)
Definition strip (s : string) : string := rstrip (lstrip s).

(** Truth value of a [str]: non-empty. *)
Definition truthy (s : string) : bool :=
  match s with EmptyString => false | _ => true end.

(** Truth value of an optional [str] ([None] is false). *)
Definition otruthy (o : option string) : bool :=
  match o with Some s => truthy s | None => false end.

(** [s.startswith(p)] *)
Fixpoint startswith (p s : string) : bool :=
  match p, s with
  | EmptyString, _ => true
  | String a p', String b s' => Ascii.eqb a b && startswith p' s'
  | String _ _, EmptyString => false
  end.

(** [p in s] for strings. *)
Fixpoint contains (p s : string) : bool :=
  startswith p s ||
  match s with
  | EmptyString => false
  | String _ s' => contains p s'
  end.

(** The text left after a prefix of the length of [p] is dropped. *)
Fixpoint drop_len (p s : string) : string :=
  match p, s with
  | String _ p', String _ s' => drop_len p' s'
  | _, _ => s
  end.

(** [s.replace(old, "")] for a non-empty [old]: every occurrence of [old],
    scanning from the left, is removed.  [skip] counts the characters of the
    occurrence being dropped. *)
Fixpoint remove_go (old : string) (skip : nat) (s : string) : string :=
  match s with
  | EmptyString => EmptyString
  | String c s' =>
      match skip with
      | S k => remove_go old k s'
      | O =>
          if startswith old s
          then remove_go old (String.length old - 1)%nat s'
          else String c (remove_go old 0 s')
      end
  end.

Definition remove (old s : string) : string := remove_go old 0 s.

(** [s.split(sep)[-1]] for a one-character separator: the text after the
    last separator, the whole string when there is none. *)
Fixpoint last_field (sep : ascii) (s : string) : string :=
  match s with
  | EmptyString => EmptyString
  | String c s' =>
      if Ascii.eqb c sep then last_field sep s'
      else if contains (String sep EmptyString) s' then last_field sep s'
      else s
  end.

(** A line boundary of [str.splitlines]: LF, VT, FF, CR, FS, GS, RS. *)
Definition islinebreak (c : ascii) : bool :=
  match c with
  | "010" | "011" | "012" | "013" | "028" | "029" | "030" => true
  | _ => false
  end%char.

(** [s.splitlines()]: CR LF counts as one boundary and a final boundary
    opens no empty line.  [cur] is the current line, reversed. *)
Fixpoint splitlines_go (cur : option string) (s : string) : list string :=
  match s with
  | EmptyString => option_list (String.rev <$> cur)
  | String c s' =>
      if islinebreak c then
        String.rev (default EmptyString cur) ::
          match c, s' with
          | "013"%char, String "010"%char s'' => splitlines_go None s''
          | _, _ => splitlines_go None s'
          end
      else splitlines_go (Some (String c (default EmptyString cur))) s'
  end.

Definition splitlines (s : string) : list string := splitlines_go None s.

(** ["\n".join(lines)] *)
Fixpoint join_lines (ls : list string) : string :=
  match ls with
  | [] => EmptyString
  | [l] => l
  | l :: ls' => l +:+ String "010"%char (join_lines ls')
  end.

End Py.

(** ** A backtracking matcher for the [re] patterns of the programs

    The matcher returns every way a pattern can match at a position, in the
    order in which the backtracking engine of [re] tries them (greedy
    repetitions longest first, alternatives left to right): the head of the
    list is the match [re] reports. *)

Module Re.

Inductive cclass : Type :=
| Dot      (** [.]: any character but a line feed *)
| Space    (** [\s] *)
| Digit    (** [\d] *)
| Hex.     (** [[0-9a-fA-F]] *)

Definition in_class (k : cclass) (c : ascii) : bool :=
  match k with
  | Dot => negb (Ascii.eqb c "010")
  | Space => Py.isspace c
  | Digit => Py.isdigit c
  | Hex => Py.ishex c
  end.

Inductive regex : Type :=
| Lit (l : string)                          (** literal text *)
| Rep (k : cclass) (lo : nat) (hi : option nat)
                                            (** greedy [k{lo,hi}] *)
| WordB                                     (** [\b] *)
| Seq (r1 r2 : regex)
| Alt (r1 r2 : regex)                       (** [r1|r2] *)
| Group (n : nat) (r : regex).              (** capturing group number [n] *)

Definition Star (k : cclass) : regex := Rep k 0 None.      (** [k*] *)
Definition Plus (k : cclass) : regex := Rep k 1 None.      (** [k+] *)
Definition Exactly (k : cclass) (n : nat) : regex := Rep k n (Some n).

(** The number of capturing groups of a pattern. *)
Fixpoint ngroups (r : regex) : nat :=
  match r with
  | Lit _ | Rep _ _ _ | WordB => 0
  | Seq r1 r2 | Alt r1 r2 => Nat.max (ngroups r1) (ngroups r2)
  | Group n r => Nat.max n (ngroups r)
  end.

(** The position of the matcher in the subject: the character before the
    cursor, the text from the cursor on, and the groups captured so far
    (latest first). *)
Record mstate : Type := MState {
  prev : option ascii;
  rest : string;
  caps : list (nat * string)
}.

(** Two characters are equal, up to case under [re.IGNORECASE]. *)
Definition char_eq (ic : bool) (a b : ascii) : bool :=
  if ic then Ascii.eqb (Py.lower_char a) (Py.lower_char b) else Ascii.eqb a b.

(** The literal [l] at the cursor: the cursor after it. *)
Fixpoint lit (ic : bool) (l : string) (p : option ascii) (s : string)
  : option (option ascii * string) :=
  match l with
  | EmptyString => Some (p, s)
  | String a l' =>
      match s with
      | String b s' => if char_eq ic a b then lit ic l' (Some b) s' else None
      | EmptyString => None
      end
  end.

(** The cursors after a greedy [k{lo,hi}], the longest repetition first. *)
Fixpoint reps (k : cclass) (lo : nat) (hi : option nat)
    (p : option ascii) (s : string) : list (option ascii * string) :=
  let stop := match lo with O => [(p, s)] | S _ => [] end in
  match s with
  | String c s' =>
      if in_class k c && negb (bool_decide (hi = Some O))
      then reps k (Nat.pred lo) (Nat.pred <$> hi) (Some c) s' ++ stop
      else stop
  | EmptyString => stop
  end.

Definition oword (p : option ascii) : bool :=
  match p with Some c => Py.isword c | None => false end.

Definition next_char (s : string) : option ascii :=
  match s with String c _ => Some c | EmptyString => None end.

(** [\b]: exactly one of the characters around the cursor is a word
    character (the ends of the subject count as non-word). *)
Definition at_boundary (p : option ascii) (s : string) : bool :=
  xorb (oword p) (oword (next_char s)).

Fixpoint take (n : nat) (s : string) : string :=
  match n, s with
  | S n', String c s' => String c (take n' s')
  | _, _ => EmptyString
  end.

(** The text between a cursor at [s] and a later cursor at [s']. *)
Definition consumed (s s' : string) : string :=
  take (String.length s - String.length s') s.

Fixpoint run (ic : bool) (r : regex) (st : mstate) : list mstate :=
  match r with
  | Lit l =>
      match lit ic l (prev st) (rest st) with
      | Some (p, s) => [MState p s (caps st)]
      | None => []
      end
  | Rep k lo hi =>
      (fun '(p, s) => MState p s (caps st)) <$> reps k lo hi (prev st) (rest st)
  | WordB => if at_boundary (prev st) (rest st) then [st] else []
  | Seq r1 r2 => run ic r1 st ≫= run ic r2
  | Alt r1 r2 => run ic r1 st ++ run ic r2 st
  | Group n r1 =>
      (fun st' => MState (prev st') (rest st')
                    ((n, consumed (rest st) (rest st')) :: caps st'))
        <$> run ic r1 st
  end.

(** The match reported at a position, if the pattern matches there. *)
Definition match_at (ic : bool) (r : regex) (p : option ascii) (s : string)
  : option mstate :=
  head (run ic r (MState p s [])).

(** [re.search]: the match at the leftmost position that has one. *)
Fixpoint search_from (ic : bool) (r : regex) (p : option ascii) (s : string)
  : option mstate :=
  match match_at ic r p s with
  | Some m => Some m
  | None =>
      match s with
      | String c s' => search_from ic r (Some c) s'
      | EmptyString => None
      end
  end.

Definition group (m : mstate) (n : nat) : option string :=
  snd <$> List.find (fun c => Nat.eqb (fst c) n) (caps m).

(** [m.groups()]: groups 1 to [ngroups r], [None] for a group that took no
    part in the match. *)
Definition groups (r : regex) (m : mstate) : list (option string) :=
  group m <$> seq 1 (ngroups r).

(** [re.search(r, s)] (with [re.IGNORECASE] when [ic]), as [m.groups()]. *)
Definition search (ic : bool) (r : regex) (s : string)
  : option (list (option string)) :=
  groups r <$> search_from ic r None s.

(** [re.findall(r, s)] for a pattern without groups that matches no empty
    text: the texts of the successive matches, each search resuming where
    the match before ended.  [skip] counts the characters still inside the
    last match. *)
Fixpoint findall_go (ic : bool) (r : regex) (skip : nat)
    (p : option ascii) (s : string) : list string :=
  match skip, s with
  | S k, String c s' => findall_go ic r k (Some c) s'
  | S _, EmptyString => []
  | O, _ =>
      match match_at ic r p s with
      | Some m =>
          let w := consumed s (rest m) in
          w :: match s with
               | String c s' =>
                   findall_go ic r (String.length w - 1)%nat (Some c) s'
               | EmptyString => []
               end
      | None =>
          match s with
          | String c s' => findall_go ic r 0 (Some c) s'
          | EmptyString => []
          end
      end
  end.

Definition findall (ic : bool) (r : regex) (s : string) : list string :=
  findall_go ic r 0 None s.

(** Sequencing of several patterns, and a pattern repeated [n] times. *)
Fixpoint cat (rs : list regex) : regex :=
  match rs with
  | [] => Lit EmptyString
  | [r] => r
  | r :: rs' => Seq r (cat rs')
  end.

Definition times (n : nat) (r : regex) : regex := cat (replicate n r).

End Re.

(** ** The world and the effect monad *)

(** The double quote of the command lines, [chr(34)]. *)
Definition dq : string := String (ascii_of_nat 34) EmptyString.

(** [{dhcp: bool, servers: [ips]}] *)
Record DnsConfig : Type := mkDns {
  dhcp : bool;
  servers : list string
}.

(** A settings record of the TCP scope: a [dict] from parameter name to an
    optional value, in insertion order. *)
Definition TcpGlobals : Type := list (string * option string).

(** The document kept in [BACKUP_FILE]. *)
Record Snapshot : Type := mkSnapshot {
  tcp_globals : TcpGlobals;
  dns : list (string * DnsConfig);
  power : option string;
  timestamp : option Z
}.

(** What a child process handed to [subprocess] does. *)
Inductive proc_result : Type :=
| Exited (returncode : Z) (stdout stderr : string)
| TimedOut
| SpawnError (msg : string).

(** What the next access to a file does. *)
Inductive io_fault : Type :=
| IoOk
| IoOpenFails (msg : string)     (** [open] raises, the file is untouched *)
| IoWriteFails (msg : string).   (** the transfer raises after [open] *)

Inductive file_state : Type :=
| Missing
| Holds (d : Snapshot)
| Corrupt.

Inductive log_event : Type :=
| LogBackupSaved (tcp : TcpGlobals) (d : list (string * DnsConfig))
                 (p : option string)
| LogBackupFailed (msg : string)
| LogNoBackup
| LogRestored
| LogRestoreFailed (msg : string).

Record World : Type := mkWorld {
  windows : bool;                 (** [sys.platform.startswith("win")] *)
  shell : list string → string → Z → proc_result;
  issued : list string;           (** the commands run so far, oldest first *)
  backup_file : file_state;       (** [BACKUP_FILE] *)
  io_script : list io_fault;      (** the faults of the coming file accesses *)
  iface_var : option string;      (** the global [iface_var], when defined *)
  log_mtime : option Z;           (** [st_mtime] of [LOG_FILE], when it exists *)
  logged : list log_event         (** the lines of [LOG_FILE], oldest first *)
}.

Inductive exn : Type :=
| TimeoutExpired (cmd : string) (timeout : Z)
                                  (** [subprocess.TimeoutExpired] *)
| Exception (msg : string).       (** any other [Exception], with [str(e)] *)

(** [str(e)] *)
Definition exn_str (e : exn) : string :=
  match e with
  | TimeoutExpired cmd timeout =>
      "Command '" +:+ cmd +:+ "' timed out after " +:+ pretty timeout
        +:+ " seconds"
  | Exception msg => msg
  end.

Inductive result (A : Type) : Type :=
| Ret (a : A)
| Raise (e : exn).
Arguments Ret {A} a.
Arguments Raise {A} e.

Definition M (A : Type) : Type := World → result A * World.

Definition ret {A} (a : A) : M A := fun w => (Ret a, w).

Definition raise {A} (e : exn) : M A := fun w => (Raise e, w).

Definition bind {A B} (m : M A) (k : A → M B) : M B :=
  fun w =>
    match m w with
    | (Ret a, w') => k a w'
    | (Raise e, w') => (Raise e, w')
    end.

Global Instance M_ret : MRet M := @ret.
Global Instance M_bind : MBind M := fun A B k m => bind m k.

(** [try: body except Exception as e: handler(e)] *)
Definition try_except {A} (body : M A) (handler : exn → M A) : M A :=
  fun w =>
    match body w with
    | (Ret a, w') => (Ret a, w')
    | (Raise e, w') => handler e w'
    end.

(** [for x in l: body(x)] *)
Fixpoint for_each {A} (l : list A) (body : A → M unit) : M unit :=
  match l with
  | [] => mret tt
  | x :: l' => body x;; for_each l' body
  end.

(** [for idx, x in enumerate(l, start): body(idx, x)] *)
Fixpoint for_enumerate {A} (start : Z) (l : list A) (body : Z → A → M unit)
  : M unit :=
  match l with
  | [] => mret tt
  | x :: l' => body start x;; for_enumerate (start + 1) l' body
  end.

Definition get_world : M World := fun w => (Ret w, w).

(** The child process of [subprocess.run] / [Popen.communicate]: the command
    is recorded, then the shell decides. *)
Definition record_cmd (cmd : string) (w : World) : World :=
  mkWorld (windows w) (shell w) (issued w ++ [cmd]) (backup_file w)
    (io_script w) (iface_var w) (log_mtime w) (logged w).

Definition spawn (cmd : string) (timeout : Z) : M (Z * string * string) :=
  fun w =>
    let w' := record_cmd cmd w in
    match shell w (issued w) cmd timeout with
    | Exited code out err => (Ret (code, out, err), w')
    | TimedOut => (Raise (TimeoutExpired cmd timeout), w')
    | SpawnError msg => (Raise (Exception msg), w')
    end.

Definition set_file (f : file_state) (script : list io_fault) (w : World)
  : World :=
  mkWorld (windows w) (shell w) (issued w) f script (iface_var w)
    (log_mtime w) (logged w).

(** [with open(BACKUP_FILE, "w") as f: json.dump(d, f)] *)
Definition write_backup (d : Snapshot) : M unit :=
  fun w =>
    match io_script w with
    | [] => (Ret tt, set_file (Holds d) [] w)
    | IoOk :: sc => (Ret tt, set_file (Holds d) sc w)
    | IoOpenFails msg :: sc =>
        (Raise (Exception msg), set_file (backup_file w) sc w)
    | IoWriteFails msg :: sc => (Raise (Exception msg), set_file Corrupt sc w)
    end.

(** [with open(BACKUP_FILE, "r") as f: data = json.load(f)] *)
Definition read_backup : M Snapshot :=
  fun w =>
    let sc := tail (io_script w) in
    let w' := set_file (backup_file w) sc w in
    match head (io_script w) with
    | Some (IoOpenFails msg) | Some (IoWriteFails msg) =>
        (Raise (Exception msg), w')
    | Some IoOk | None =>
        match backup_file w with
        | Holds d => (Ret d, w')
        | Missing => (Raise (Exception "No such file or directory"), w')
        | Corrupt => (Raise (Exception "Expecting value"), w')
        end
    end.

(** [BACKUP_FILE.exists()] *)
Definition backup_exists : M bool :=
  fun w =>
    (Ret (match backup_file w with Missing => false | _ => true end), w).

(** [log(msg)]: appends a line; a failure to write is swallowed. *)
Definition add_log (ev : log_event) (w : World) : World :=
  mkWorld (windows w) (shell w) (issued w) (backup_file w) (io_script w)
    (iface_var w) (log_mtime w) (logged w ++ [ev]).

Definition log (ev : log_event) : M unit := fun w => (Ret tt, add_log ev w).

(** [d[k] = v] on a [dict] kept in insertion order. *)
Fixpoint dict_set {V} (k : string) (v : V) (d : list (string * V))
  : list (string * V) :=
  match d with
  | [] => [(k, v)]
  | (k', v') :: d' =>
      if String.eqb k k' then (k, v) :: d' else (k', v') :: dict_set k v d'
  end.

(** [d.get(k)] *)
Fixpoint dict_get {V} (k : string) (d : list (string * V)) : option V :=
  match d with
  | [] => None
  | (k', v) :: d' => if String.eqb k k' then Some v else dict_get k d'
  end.

(** ** DelayKillerLite.py *)

Module Lite.

(** [is_windows()] *)
Definition is_windows : M bool := fun w => (Ret (windows w), w).

(** [run_cmd(cmd, timeout=10)] *)
Definition run_cmd (cmd : string) (timeout : Z) : M (Z * string) :=
  try_except
    ('(code, stdout, stderr) ← spawn cmd timeout;
     let out := Py.strip stdout in
     let out :=
       if negb (Py.truthy out) && Py.truthy stderr
       then Py.strip stderr else out in
     mret (code, out))
    (fun e =>
       match e with
       | TimeoutExpired _ _ => mret (124, EmptyString)
       | Exception msg => mret (1, msg)
       end).

(** [run_netsh(cmd)] *)
Definition run_netsh (cmd : string) : M (Z * string) :=
  let full :=
    if Py.startswith "netsh" (Py.lower (Py.strip cmd))
    then cmd else "netsh " +:+ cmd in
  run_cmd full 8.

(** A labelled line: group 1 is the label, [\s*], a colon and [\s*];
    group 2 is [.+], the rest of the line. *)
Definition labelled (label : string) : Re.regex :=
  Re.Seq
    (Re.Group 1 (Re.cat [Re.Lit label; Re.Star Re.Space; Re.Lit ":";
                         Re.Star Re.Space]))
    (Re.Group 2 (Re.Plus Re.Dot)).

(** The short phrasing, all of it group 3: [\b], the word, [\b], [\s*], a
    colon, [\s*] and group 4, [.+]. *)
Definition short (word : string) : Re.regex :=
  Re.Group 3 (Re.cat [Re.WordB; Re.Lit word; Re.WordB; Re.Star Re.Space;
                      Re.Lit ":"; Re.Star Re.Space;
                      Re.Group 4 (Re.Plus Re.Dot)]).

(** The [patterns] of [get_tcp_globals], in the order of the [dict]. *)
Definition patterns : list (string * Re.regex) :=
  [ ("autotuninglevel", labelled "Receive Window Auto-Tuning Level");
    ("ecncapability", labelled "ECN Capability");
    ("rss", Re.Alt (labelled "Receive-Side Scaling State") (short "rss"));
    ("chimney", Re.Alt (labelled "Chimney Offload State") (short "chimney"));
    ("congestionprovider", labelled "Add-On Congestion Control Provider");
    ("timestamps",
      Re.Alt (labelled "RFC 1323 Timestamps") (short "timestamps")) ].

(** The inner loop of [get_tcp_globals]:
    [for g in gs: if g and g.strip(): return g.strip()]. *)
Fixpoint first_value (gs : list (option string)) : option string :=
  match gs with
  | [] => None
  | g :: gs' =>
      if Py.otruthy g && Py.truthy (Py.strip (default EmptyString g))
      then Some (Py.strip (default EmptyString g))
      else first_value gs'
  end.

(** One turn of the loop over [patterns]. *)
Definition probe_field (text : string) (vals : TcpGlobals)
    (kp : string * Re.regex) : TcpGlobals :=
  match Re.search true (snd kp) text with
  | Some gs =>
      match first_value (tail gs) with
      | Some v => dict_set (fst kp) (Some v) vals
      | None => vals
      end
  | None => dict_set (fst kp) None vals
  end.

(** The parse of the output of [netsh interface tcp show global]. *)
Definition parse_tcp_globals (out : string) : TcpGlobals :=
  let text := Py.join_lines (Py.splitlines out) in
  fold_left (probe_field text) patterns [].

(** [get_tcp_globals()] *)
Definition get_tcp_globals : M TcpGlobals :=
  win ← is_windows;
  if negb win then mret []
  else
    '(code, out) ← run_netsh "netsh interface tcp show global";
    if negb (code =? 0) || negb (Py.truthy out) then mret []
    else mret (parse_tcp_globals out).

(** The pattern "\b\d{1,3}(?:\.\d{1,3}){3}\b". *)
Definition ipv4_re : Re.regex :=
  Re.cat [Re.WordB; Re.Rep Re.Digit 1 (Some 3%nat);
          Re.times 3 (Re.Seq (Re.Lit ".") (Re.Rep Re.Digit 1 (Some 3%nat)));
          Re.WordB].

(** The pattern "\b(DHCP|dhcp)\b". *)
Definition dhcp_re : Re.regex :=
  Re.cat [Re.WordB; Re.Group 1 (Re.Alt (Re.Lit "DHCP") (Re.Lit "dhcp"));
          Re.WordB].

Definition show_dns_cmd (iface : string) : string :=
  "netsh interface ipv4 show dns name=" +:+ dq +:+ iface +:+ dq.

(** [get_dns_info(iface)] *)
Definition get_dns_info (iface : string) : M DnsConfig :=
  win ← is_windows;
  if negb win then mret (mkDns false [])
  else
    '(code, out) ← run_netsh (show_dns_cmd iface);
    if negb (code =? 0) || negb (Py.truthy out) then mret (mkDns false [])
    else
      let servers := Re.findall false ipv4_re out in
      let dhcp := bool_decide (is_Some (Re.search false dhcp_re out)) in
      mret (mkDns dhcp servers).

(** The pattern of a power scheme GUID: 8-4-4-4-12 hexadecimal digits. *)
Definition guid_re : Re.regex :=
  Re.Group 1
    (Re.cat [Re.Exactly Re.Hex 8; Re.Lit "-"; Re.Exactly Re.Hex 4; Re.Lit "-";
             Re.Exactly Re.Hex 4; Re.Lit "-"; Re.Exactly Re.Hex 4; Re.Lit "-";
             Re.Exactly Re.Hex 12]).

(** [get_active_power_guid()] *)
Definition get_active_power_guid : M (option string) :=
  '(code, out) ← run_cmd "powercfg /getactivescheme" 4;
  if negb (code =? 0) || negb (Py.truthy out) then mret None
  else
    match Re.search false guid_re out with
    | Some gs => mret (mjoin (head gs))
    | None => mret None
    end.

(** [backup_settings(iface=None)] *)
Definition backup_settings (iface : option string) : M bool :=
  try_except
    (tcp ← get_tcp_globals;
     w ← get_world;
     let iface :=
       if Py.otruthy iface then default EmptyString iface
       else match iface_var w with Some v => v | None => "Ethernet" end in
     info ← get_dns_info iface;
     let dns := [(iface, info)] in
     power ← get_active_power_guid;
     w ← get_world;
     let data := mkSnapshot tcp dns power (log_mtime w) in
     write_backup data;;
     log (LogBackupSaved tcp dns power);;
     mret true)
    (fun e => log (LogBackupFailed (exn_str e));; mret false).

Definition set_global (k v : string) : string :=
  "netsh interface tcp set global " +:+ k +:+ "=" +:+ v.

(** The [mapping] of [restore_from_backup]: the command of a key, given the
    value to restore. *)
Definition mapping (k : string) : option (string → string) :=
  if String.eqb k "autotuninglevel" then Some (set_global "autotuninglevel")
  else if String.eqb k "ecncapability" then Some (set_global "ecncapability")
  else if String.eqb k "rss" then Some (set_global "rss")
  else if String.eqb k "chimney" then Some (set_global "chimney")
  else if String.eqb k "congestionprovider"
    then Some (set_global "congestionprovider")
  else if String.eqb k "timestamps"
    then Some (fun v => set_global "timestamps"
                          (if Py.truthy v then v else "enabled"))
  else None.

Definition dns_dhcp_cmd (iface : string) : string :=
  "netsh interface ipv4 set dns name=" +:+ dq +:+ iface +:+ dq
    +:+ " source=dhcp".

Definition dns_static_cmd (iface server : string) : string :=
  "netsh interface ipv4 set dns name=" +:+ dq +:+ iface +:+ dq
    +:+ " static " +:+ server +:+ " primary".

Definition dns_add_cmd (iface server : string) (idx : Z) : string :=
  "netsh interface ipv4 add dns name=" +:+ dq +:+ iface +:+ dq
    +:+ " " +:+ server +:+ " index=" +:+ pretty idx.

(** The restore of one DNS entry, shared by [restore_from_backup] and
    [apply_dns_mode]. *)
Definition restore_dns_entry (iface : string) (info : DnsConfig) : M unit :=
  if dhcp info then run_netsh (dns_dhcp_cmd iface);; mret tt
  else
    match servers info with
    | [] => mret tt
    | s0 :: others =>
        run_netsh (dns_static_cmd iface s0);;
        for_enumerate 2 others
          (fun idx s => run_netsh (dns_add_cmd iface s idx);; mret tt)
    end.

(** [restore_from_backup()] *)
Definition restore_from_backup : M bool :=
  ex ← backup_exists;
  if negb ex then log LogNoBackup;; mret false
  else
    try_except
      (data ← read_backup;
       for_each (tcp_globals data)
         (fun kv =>
            if Py.otruthy (snd kv) then
              match mapping (fst kv) with
              | Some cmd =>
                  run_netsh (cmd (default EmptyString (snd kv)));; mret tt
              | None => mret tt
              end
            else mret tt);;
       for_each (dns data)
         (fun e =>
            if negb (Py.truthy (fst e)) then mret tt
            else restore_dns_entry (fst e) (snd e));;
       (if Py.otruthy (power data)
        then run_cmd ("powercfg /setactive "
                        +:+ default EmptyString (power data)) 6;;
             mret tt
        else mret tt);;
       log LogRestored;;
       mret true)
      (fun e => log (LogRestoreFailed (exn_str e));; mret false).

(** The fixed profile of [apply_tcp_tweaks(True)]. *)
Definition tcp_on_cmds : list string :=
  [ "netsh interface tcp set global autotuninglevel=normal";
    "netsh interface tcp set global ecncapability=enabled";
    "netsh interface tcp set global rss=enabled";
    "netsh interface tcp set global chimney=disabled" ].

(** The hardcoded defaults of [apply_tcp_tweaks(False)]. *)
Definition tcp_off_cmds : list string :=
  [ "netsh interface tcp set global autotuninglevel=normal";
    "netsh interface tcp set global ecncapability=default";
    "netsh interface tcp set global rss=default";
    "netsh interface tcp set global chimney=disabled" ].

Definition run_all (cmds : list string) : M unit :=
  for_each cmds (fun c => run_netsh c;; mret tt).

(** [apply_tcp_tweaks(enable, backup=True)] *)
Definition apply_tcp_tweaks (enable backup : bool) : M (Z * string) :=
  win ← is_windows;
  if negb win then mret (1, "Unsupported")
  else
    try_except
      ((if backup then backup_settings None;; mret tt else mret tt);;
       if enable then
         run_all tcp_on_cmds;;
         mret (0, "TCP tweaks applied")
       else
         ex ← backup_exists;
         restored ← (if ex : bool then restore_from_backup else mret false : M bool);
         if restored : bool then mret (0, "TCP tweaks restored from backup")
         else
           run_all tcp_off_cmds;;
           mret (0, "TCP tweaks applied"))
      (fun e => mret (1, exn_str e)).

(** [apply_dns_mode(enable, iface)] *)
Definition apply_dns_mode (enable : bool) (iface : string)
  : M (Z * string) :=
  win ← is_windows;
  if negb win then mret (1, "Unsupported")
  else
    try_except
      (let name := if Py.truthy iface then iface else "Ethernet" in
       backup_settings (Some name);;
       if enable then
         run_netsh (dns_static_cmd name "8.8.8.8");;
         run_netsh (dns_add_cmd name "8.8.4.4" 2);;
         run_netsh "ipconfig /flushdns";;
         mret (0, "DNS mode applied")
       else
         ex ← backup_exists;
         entry ← (if ex : bool
                  then data ← read_backup; mret (dict_get name (dns data))
                  else mret None : M (option DnsConfig));
         match entry with
         | Some info =>
             restore_dns_entry name info;;
             run_netsh "ipconfig /flushdns";;
             mret (0, "DNS restored from backup")
         | None =>
             run_netsh (dns_dhcp_cmd name);;
             run_netsh "ipconfig /flushdns";;
             mret (0, "DNS mode applied")
         end)
      (fun e => mret (1, exn_str e)).

(** [set_low_latency_mode(enable, backup=True)] *)
Definition set_low_latency_mode (enable backup : bool) : M (Z * string) :=
  win ← is_windows;
  if negb win then mret (1, "Unsupported")
  else
    try_except
      ((if backup then backup_settings None;; mret tt else mret tt);;
       if enable then
         run_netsh "netsh interface tcp set global congestionprovider=ctcp";;
         run_netsh "netsh interface tcp set global timestamps=disabled";;
         mret (0, "Low latency applied")
       else
         ex ← backup_exists;
         if ex : bool then
           data ← read_backup;
           let tcp := tcp_globals data in
           let cp := mjoin (dict_get "congestionprovider" tcp) in
           let ts := mjoin (dict_get "timestamps" tcp) in
           (if Py.otruthy cp
            then run_netsh (set_global "congestionprovider"
                              (default EmptyString cp));;
                 mret tt
            else mret tt);;
           (if Py.otruthy ts
            then run_netsh (set_global "timestamps" (default EmptyString ts));;
                 mret tt
            else mret tt);;
           mret (0, "Low latency settings restored")
         else
           run_netsh "netsh interface tcp set global congestionprovider=none";;
           run_netsh "netsh interface tcp set global timestamps=enabled";;
           mret (0, "Low latency applied"))
      (fun e => mret (1, exn_str e)).

Definition HIGH_PERF_GUID : string := "8c5e7fda-e8bf-4a96-9a85-a6e23a8c635c".
Definition BALANCED_GUID : string := "381b4222-f694-41f0-9685-ff5bb260df2e".

(** [set_power_plan(high_perf)] *)
Definition set_power_plan (high_perf : bool) : M (Z * string) :=
  win ← is_windows;
  if negb win then mret (1, "Unsupported")
  else
    try_except
      (backup_settings None;;
       let guid := if high_perf then HIGH_PERF_GUID else BALANCED_GUID in
       '(code, out) ← run_cmd ("powercfg /setactive " +:+ guid) 6;
       if code =? 0 then mret (0, "Power plan set") else mret (1, out))
      (fun e => mret (1, exn_str e)).

(** [iface_var.get()] *)
Definition iface_var_get : M string :=
  fun w =>
    match iface_var w with
    | Some v => (Ret v, w)
    | None => (Raise (Exception "name 'iface_var' is not defined"), w)
    end.

(** The calls of the handler [apply_all] to the engine, in its order, for
    the values of the switches [low_latency_var], [dns_var] and
    [power_var]; the value is the list of the four results the handler
    shows, or the message of the exception it reports.  The configuration
    file, the log lines of the handler itself and its dialogs are not part
    of the world. *)
Definition apply_all (low_latency dns_mode power_high : bool)
  : M (string + list (Z * string)) :=
  try_except
    (iface ← iface_var_get;
     backup_settings (Some iface);;
     r1 ← apply_tcp_tweaks true false;
     r2 ← set_low_latency_mode low_latency false;
     iface ← iface_var_get;
     r3 ← apply_dns_mode dns_mode iface;
     r4 ← set_power_plan power_high;
     mret (inr [r1; r2; r3; r4]))
    (fun e => mret (inl (exn_str e))).

(** The calls of the handler [reset_all] to the engine: [true] when the
    settings were restored from the snapshot, [false] when the defaults
    were applied. *)
Definition reset_all : M (string + bool) :=
  try_except
    (ex ← backup_exists;
     ok ← (if ex : bool then restore_from_backup else mret false : M bool);
     if ok : bool then mret (inr true)
     else
       apply_tcp_tweaks false false;;
       set_low_latency_mode false false;;
       iface ← iface_var_get;
       apply_dns_mode false iface;;
       set_power_plan false;;
       mret (inr false))
    (fun e => mret (inl (exn_str e))).

(** The class of the characters other than CR and LF. *)
Definition name_char (c : ascii) : bool :=
  negb (Ascii.eqb c "013") && negb (Ascii.eqb c "010").

(** The cursors after a greedy repetition of [name_char], three times or
    more, the longest repetition first; [n] characters have been taken. *)
Fixpoint name_runs (n : nat) (s : string) : list string :=
  let stop := if (3 <=? n)%nat then [s] else [] in
  match s with
  | String c s' => if name_char c then name_runs (S n) s' ++ stop else stop
  | EmptyString => stop
  end.

(** The anchor of the end: the end of the text, or the line feed that ends
    it. *)
Definition at_end (s : string) : bool :=
  match s with
  | EmptyString | String "010" EmptyString => true
  | _ => false
  end.

(** The pattern of [list_interfaces] at a cursor: a word boundary, group 1
    made of three or more characters other than CR and LF, and the end of
    the text.  The value is group 1 of the match the engine reports. *)
Definition name_at (p : option ascii) (s : string) : option string :=
  if Re.at_boundary p s
  then Re.consumed s <$> List.find at_end (name_runs 0 s)
  else None.

(** [re.search] of that pattern: group 1 of the leftmost match. *)
Fixpoint name_search (p : option ascii) (s : string) : option string :=
  match name_at p s with
  | Some g => Some g
  | None =>
      match s with
      | String c s' => name_search (Some c) s'
      | EmptyString => None
      end
  end.

(** The header words [list_interfaces] filters out. *)
Definition headers : list string :=
  [ "admin state"; "state"; "name"; "idx"; "interface" ].

(** One turn of the loop of [list_interfaces] over the lines. *)
Definition scan_interface (names : list string) (line : string)
  : list string :=
  let line := Py.strip line in
  if negb (Py.truthy line) then names
  else
    match name_search None line with
    | Some g =>
        let candidate := Py.strip g in
        if bool_decide (Py.lower candidate ∈ headers) then names
        else if bool_decide (candidate ∈ names) then names
        else names ++ [candidate]
    | None => names
    end.

Definition parse_interfaces (out : string) : list string :=
  fold_left scan_interface (Py.splitlines out) [].

(** [list_interfaces()] *)
Definition list_interfaces : M (list string) :=
  win ← is_windows;
  if negb win then mret []
  else
    '(code, out) ← run_netsh "interface show interface";
    if negb (code =? 0) || negb (Py.truthy out) then
      '(code, out) ← run_netsh "interface ipv4 show interfaces";
      if negb (code =? 0) || negb (Py.truthy out) then mret []
      else mret (parse_interfaces out)
    else mret (parse_interfaces out).

End Lite.

(** ** delaykiller.py *)

Module Premium.

(** [run_cmd(cmd, timeout=20)].  The child writes its error stream into
    the pipe of its output ([stderr=subprocess.STDOUT]); the merged text is
    taken to be the output followed by the errors. *)
Definition run_cmd (cmd : string) (timeout : Z) : M (Z * string) :=
  try_except
    ('(code, stdout, stderr) ← spawn cmd timeout;
     mret (code, Py.strip (stdout +:+ stderr)))
    (fun e =>
       match e with
       | TimeoutExpired _ _ => mret (1, "Timed out")
       | Exception msg => mret (1, msg)
       end).

(** The white space [int()] skips around an ASCII numeral. *)
Definition int_space (c : ascii) : bool :=
  match c with
  | "009" | "010" | "011" | "012" | "013" | " " => true
  | _ => false
  end%char.

Fixpoint int_lstrip (s : string) : string :=
  match s with
  | EmptyString => EmptyString
  | String c s' => if int_space c then int_lstrip s' else s
  end.

Fixpoint int_rstrip (s : string) : string :=
  match s with
  | EmptyString => EmptyString
  | String c s' =>
      match int_rstrip s' with
      | EmptyString => if int_space c then EmptyString else String c EmptyString
      | r => String c r
      end
  end.

Definition digit_value (c : ascii) : Z := Z.of_nat (nat_of_ascii c - 48).

(** The digits of a numeral, single underscores allowed between digits.
    [sep] holds at the start and after an underscore, where a digit must
    follow. *)
Fixpoint digits (acc : Z) (sep : bool) (s : string) : option Z :=
  match s with
  | EmptyString => if sep then None else Some acc
  | String c s' =>
      if Py.isdigit c then digits (acc * 10 + digit_value c) false s'
      else if Ascii.eqb c "_" && negb sep then digits acc true s'
      else None
  end.

(** [int(s)] in base ten; [None] when it raises [ValueError]. *)
Definition py_int (s : string) : option Z :=
  match int_rstrip (int_lstrip s) with
  | String "+" s' => digits 0 true s'
  | String "-" s' => Z.opp <$> digits 0 true s'
  | s' => digits 0 true s'
  end.

(** The body of the loop over the lines of a ping report. *)
Definition scan_line (avg : option Z) (line : string) : option Z :=
  if Py.contains "Average =" line || Py.contains "Average" line then
    let parts_last := Py.last_field "=" (Py.remove " " line) in
    py_int (Py.remove "ms" parts_last)
  else avg.

(** The average round trip of a ping report ([avg] after the loop). *)
Definition parse_average (out : string) : option Z :=
  fold_left scan_line (Py.splitlines out) None.

Definition bench_cmd (count timeout : Z) (s : string) : string :=
  "ping -n " +:+ pretty count +:+ " -w " +:+ pretty (timeout * 1000)
    +:+ " " +:+ s.

(** The loop of [dns_benchmark] over the servers. *)
Fixpoint bench_loop (count timeout : Z) (servers : list string)
    (results : gmap string (option Z)) : M (gmap string (option Z)) :=
  match servers with
  | [] => mret results
  | s :: servers' =>
      avg ← try_except
               ('(code, out) ← run_cmd (bench_cmd count timeout s) 10;
                mret (parse_average out))
               (fun _ => mret None);
      bench_loop count timeout servers' (<[s := avg]> results)
  end.

(** [dns_benchmark(servers, timeout=2, count=3)] *)
Definition dns_benchmark (servers : list string) (timeout count : Z)
  : M (gmap string (option Z)) :=
  fun w =>
    if negb (windows w)
    then (Ret (foldl (fun r s => <[s := None]> r) ∅ servers), w)
    else bench_loop count timeout servers ∅ w.

Definition mtu_cmd (payload : Z) (target : string) : string :=
  "ping -f -l " +:+ pretty payload +:+ " -n 1 " +:+ target.

(** The [while mtu >= min_mtu] loop of [probe_mtu], unfolded at most [fuel]
    times; the value is [last_good] when the loop is left. *)
Fixpoint probe_loop (fuel : nat) (target : string) (mtu min_mtu : Z)
  : M (option Z) :=
  match fuel with
  | O => mret None
  | S fuel' =>
      if mtu >=? min_mtu then
        let payload := mtu - 28 in
        '(code, out) ← run_cmd (mtu_cmd payload target) 4;
        if (code =? 0) && Py.contains "Reply" out then mret (Some mtu)
        else probe_loop fuel' target (mtu - 10) min_mtu
      else mret None
  end.

(** The number of turns after which [mtu >= min_mtu] is sure to fail. *)
Definition probe_turns (start min_mtu : Z) : nat :=
  Z.to_nat ((start - min_mtu) / 10 + 1).

(** [probe_mtu(target="8.8.8.8", start=1500, min_mtu=1200)] *)
Definition probe_mtu (target : string) (start min_mtu : Z) : M (option Z) :=
  fun w =>
    if negb (windows w) then (Ret None, w)
    else probe_loop (S (probe_turns start min_mtu)) target start min_mtu w.

(** The constant [IS_WINDOWS]. *)
Definition IS_WINDOWS : M bool := fun w => (Ret (windows w), w).

(** [is_admin()].  [token] is the answer of the system call
    [IsUserAnAdmin()], [None] when the call raises. *)
Definition is_admin (token : option Z) : M bool :=
  win ← IS_WINDOWS;
  if negb win then mret false
  else
    match token with
    | Some v => mret (negb (v =? 0))
    | None => mret false
    end.

(** [dns_flush()] *)
Definition dns_flush : M (Z * string) :=
  win ← IS_WINDOWS;
  if negb win then mret (1, "Unsupported")
  else run_cmd "ipconfig /flushdns" 10.

Definition set_dns_cmd (adapter_name primary : string) : string :=
  "netsh interface ip set dns name=" +:+ dq +:+ adapter_name +:+ dq
    +:+ " static " +:+ primary +:+ " validate=no".

Definition add_dns_cmd (adapter_name secondary : string) : string :=
  "netsh interface ip add dns name=" +:+ dq +:+ adapter_name +:+ dq
    +:+ " " +:+ secondary +:+ " index=2".

(** [set_dns_interface(adapter_name, primary, secondary=None)] *)
Definition set_dns_interface (token : option Z)
    (adapter_name primary : string) (secondary : option string)
  : M (Z * string) :=
  win ← IS_WINDOWS;
  if negb win then mret (1, "Unsupported")
  else
    adm ← is_admin token;
    if negb adm then mret (2, "Admin required")
    else
      '(code, out) ← run_cmd (set_dns_cmd adapter_name primary) 20;
      if Py.otruthy secondary then
        '(c2, o2) ← run_cmd
                      (add_dns_cmd adapter_name (default EmptyString secondary))
                      20;
        mret (if code =? 0 then c2 else code, out +:+ String "010" o2)
      else mret (code, out).

Definition set_mtu_cmd (adapter_name : string) (mtu : Z) : string :=
  "netsh interface ipv4 set subinterface " +:+ dq +:+ adapter_name +:+ dq
    +:+ " mtu=" +:+ pretty mtu +:+ " store=persistent".

(** [apply_mtu(adapter_name, mtu)] *)
Definition apply_mtu (token : option Z) (adapter_name : string) (mtu : Z)
  : M (Z * string) :=
  win ← IS_WINDOWS;
  if negb win then mret (1, "Unsupported")
  else
    adm ← is_admin token;
    if negb adm then mret (2, "Admin required")
    else run_cmd (set_mtu_cmd adapter_name mtu) 20.

(** The [cmds] of [repair_network_stack]. *)
Definition repair_cmds : list string :=
  [ "netsh int ip reset"; "netsh winsock reset"; "ipconfig /release";
    "ipconfig /renew" ].

(** One entry of the [results] of [repair_network_stack]: [cmd], [code]
    and [out]. *)
Definition RepairResult : Type := string * Z * string.

(** The loop of [repair_network_stack] over [cmds]. *)
Fixpoint repair_loop (cmds : list string) (results : list RepairResult)
  : M (list RepairResult) :=
  match cmds with
  | [] => mret results
  | c :: cmds' =>
      '(code, out) ← run_cmd c 20;
      repair_loop cmds' (results ++ [(c, code, out)])
  end.

(** [repair_network_stack()]: the code, and the message or the results. *)
Definition repair_network_stack (token : option Z)
  : M (Z * (string + list RepairResult)) :=
  win ← IS_WINDOWS;
  if negb win then mret (1, inl "Unsupported")
  else
    adm ← is_admin token;
    if negb adm then mret (2, inl "Admin required")
    else
      results ← repair_loop repair_cmds [];
      mret (0, inr results).

(** [set_power_plan_high()] *)
Definition set_power_plan_high : M (Z * string) :=
  win ← IS_WINDOWS;
  if negb win then mret (1, "Unsupported")
  else run_cmd "powercfg /setactive SCHEME_MIN" 20.

Definition COMMON_GAMES : list (string * list string) :=
  [ ("valorant", [ "valheim.exe"; "VALORANT.exe";
                   "VALORANT-Win64-Shipping.exe"; "Valorant.exe" ]);
    ("cs2", [ "cs2.exe"; "csgo.exe"; "hl2.exe" ]);
    ("minecraft", [ "javaw.exe"; "java.exe" ]);
    ("fortnite", [ "FortniteClient-Win64-Shipping.exe";
                   "FortniteLauncher.exe" ]) ].

(** [found.setdefault(game, []).append(pid)] *)
Definition setdefault_append (game : string) (pid : Z)
    (found : list (string * list Z)) : list (string * list Z) :=
  dict_set game (default [] (dict_get game found) ++ [pid]) found.

(** The body of the loop of [detect_games] over the processes: [proc] is
    the [info] of a process, its name (if it has one) and its pid. *)
Definition scan_process (found : list (string * list Z))
    (proc : option string * Z) : list (string * list Z) :=
  let name := Py.lower (default EmptyString (fst proc)) in
  fold_left
    (fun found gp =>
       fold_left
         (fun found p =>
            if String.eqb (Py.lower p) name
            then setdefault_append (fst gp) (snd proc) found
            else found)
         (snd gp) found)
    COMMON_GAMES found.

(** [detect_games()], for the processes [psutil.process_iter] yields. *)
Definition detect_games (procs : list (option string * Z))
  : list (string * list Z) :=
  fold_left scan_process procs [].

(** A run of characters opens a field when it is not empty. *)
Definition cons_field (f : string) (fs : list string) : list string :=
  if Py.truthy f then f :: fs else fs.

(** [line.split()]: the maximal runs of characters that are not blank,
    in order.  [split_go s] is the run that starts at the head of [s], empty
    when [s] starts with a blank, and the runs after it. *)
Fixpoint split_go (s : string) : string * list string :=
  match s with
  | EmptyString => (EmptyString, [])
  | String c s' =>
      let '(f, fs) := split_go s' in
      if Py.isspace c then (EmptyString, cons_field f fs)
      else (String c f, fs)
  end.

Definition split (s : string) : list string :=
  let '(f, fs) := split_go s in cons_field f fs.

(** [' '.join(parts)] *)
Fixpoint join_sp (parts : list string) : string :=
  match parts with
  | [] => EmptyString
  | [p] => p
  | p :: ps => p +:+ String " "%char (join_sp ps)
  end.

(** The body of the loop of [suggest_adapters_local] over the lines of the
    report. *)
Definition scan_adapter (names : list string) (line : string) : list string :=
  let line := Py.strip line in
  if negb (Py.truthy line) || Py.startswith "Admin" line then names
  else
    let parts := split line in
    if (4 <=? length parts)%nat then names ++ [join_sp (drop 3 parts)]
    else names.

(** [suggest_adapters_local()] *)
Definition suggest_adapters_local : M (list string) :=
  win ← IS_WINDOWS;
  if negb win then mret []
  else
    '(code, out) ← run_cmd "netsh interface show interface" 20;
    mret (if code =? 0 then fold_left scan_adapter (Py.splitlines out) []
          else []).

End Premium.

(** * Specification vocabulary

    The pure descriptions of what the programs do in a world, the shapes
    the properties speak of, and the hosts on which they are tried. *)

(** ** The monad *)


(** The world after a list of commands has been run, one after the other. *)
Definition record_all (cmds : list string) (w : World) : World :=
  fold_left (fun w c => record_cmd c w) cmds w.

(** ** The command runners *)

(** What [Lite.run_cmd] returns for each behaviour of the child. *)
Definition lite_outcome (r : proc_result) : Z * string :=
  match r with
  | Exited code out err =>
      (code, if Py.truthy (Py.strip out) then Py.strip out else Py.strip err)
  | TimedOut => (124, EmptyString)
  | SpawnError msg => (1, msg)
  end.

(** What [Premium.run_cmd] returns for each behaviour of the child. *)
Definition premium_outcome (r : proc_result) : Z * string :=
  match r with
  | Exited code out err => (code, Py.strip (out +:+ err))
  | TimedOut => (1, "Timed out")
  | SpawnError msg => (1, msg)
  end.

(** A world whose shell never answers in time. *)
Definition hung_world : World :=
  mkWorld true (fun _ _ _ => TimedOut) [] Missing [] None None [].

(** A world whose shell cannot start a child. *)
Definition broken_world : World :=
  mkWorld true (fun _ _ _ => SpawnError "[WinError 2]") [] Missing [] None
    None [].

(** ** MTU discovery *)

(** Whether [probe_mtu] counts the behaviour of a ping as a reply. *)
Definition reply_ok (r : proc_result) : bool :=
  (fst (premium_outcome r) =? 0) && Py.contains "Reply" (snd (premium_outcome r)).

(** The [i]-th candidate of the descent from [start], and its probe. *)
Definition candidate (start : Z) (i : nat) : Z := start - 10 * Z.of_nat i.

Definition probe_cmd (target : string) (start : Z) (i : nat) : string :=
  Premium.mtu_cmd (candidate start i - 28) target.

Definition probes (target : string) (start : Z) (n : nat) : list string :=
  probe_cmd target start <$> seq 0 n.

(** The answer of the world [w] to the [i]-th probe, the earlier probes
    having been sent. *)
Definition answer (w : World) (target : string) (start : Z) (i : nat) : bool :=
  reply_ok (shell w (issued w ++ probes target start i)
              (probe_cmd target start i) 4).

(** A scripted responder: a ping whose payload is at most [limit] bytes
    is answered, a larger one is refused for its size. *)
Fixpoint until_space (s : string) : string :=
  match s with
  | EmptyString => EmptyString
  | String c s' => if Ascii.eqb c " " then EmptyString else String c (until_space s')
  end.

Definition payload_of (cmd : string) : option Z :=
  if Py.startswith "ping -f -l " cmd
  then Premium.py_int (until_space (Py.drop_len "ping -f -l " cmd))
  else None.

Definition responder (limit : Z) : list string → string → Z → proc_result :=
  fun _ cmd _ =>
    match payload_of cmd with
    | Some p =>
        if p <=? limit
        then Exited 0 "Reply from 8.8.8.8: bytes=32 time=23ms TTL=117"
               EmptyString
        else Exited 1 "Packet needs to be fragmented but DF set." EmptyString
    | None => SpawnError "unexpected command"
    end.

Definition responder_world : World :=
  mkWorld true (responder 1452) [] Missing [] None None [].

(** ** The commands of the Lite program *)

(** The command line [run_netsh] hands to [run_cmd]. *)
Definition netsh_full (cmd : string) : string :=
  if Py.startswith "netsh" (Py.lower (Py.strip cmd))
  then cmd else "netsh " +:+ cmd.

(** The commands that restore one DNS entry: the DHCP source alone, or the
    static primary followed by one addition for each further server, at
    index 2, 3, 4 and so on. *)
Definition dns_entry_cmds (iface : string) (info : DnsConfig) : list string :=
  if dhcp info then [Lite.dns_dhcp_cmd iface]
  else
    match servers info with
    | [] => []
    | s0 :: others =>
        Lite.dns_static_cmd iface s0
          :: imap (fun i s => Lite.dns_add_cmd iface s (2 + Z.of_nat i)) others
    end.

(** The command that restores one TCP field, if any: none for an absent or
    empty value, none for a key outside the mapping. *)
Definition tcp_restore_cmd (kv : string * option string) : option string :=
  if Py.otruthy (snd kv)
  then (fun cmd => cmd (default EmptyString (snd kv))) <$> Lite.mapping (fst kv)
  else None.

Definition tcp_restore_cmds (tcp : TcpGlobals) : list string :=
  omap tcp_restore_cmd tcp.

Definition dns_restore_cmds (d : list (string * DnsConfig)) : list string :=
  d ≫= fun e => if Py.truthy (fst e) then dns_entry_cmds (fst e) (snd e) else [].

Definition power_restore_cmds (p : option string) : list string :=
  if Py.otruthy p then ["powercfg /setactive " +:+ default EmptyString p]
  else [].

(** Every command [restore_from_backup] issues for a snapshot, in order. *)
Definition restore_cmds (d : Snapshot) : list string :=
  tcp_restore_cmds (tcp_globals d) ++ dns_restore_cmds (dns d)
    ++ power_restore_cmds (power d).

(** ** The state probe *)

Definition show_global_cmd : string := "netsh interface tcp show global".

(** Whether a query is usable: [not (code != 0 or not out)]. *)
Definition usable (r : Z * string) : bool :=
  negb (negb (fst r =? 0) || negb (Py.truthy (snd r))).

(** The record [get_tcp_globals] returns in a world. *)
Definition tcp_of (w : World) : TcpGlobals :=
  if windows w then
    let r := lite_outcome (shell w (issued w) show_global_cmd 8) in
    if usable r then Lite.parse_tcp_globals (snd r) else []
  else [].

(** The queries a probe runs: one on Windows, none elsewhere. *)
Definition query (cmd : string) (w : World) : list string :=
  if windows w then [cmd] else [].

(** The entry [get_dns_info iface] returns in a world. *)
Definition dns_of (iface : string) (w : World) : DnsConfig :=
  if windows w then
    let r := lite_outcome (shell w (issued w) (Lite.show_dns_cmd iface) 8) in
    if usable r then
      mkDns (bool_decide (is_Some (Re.search false Lite.dhcp_re (snd r))))
        (Re.findall false Lite.ipv4_re (snd r))
    else mkDns false []
  else mkDns false [].

Definition get_scheme_cmd : string := "powercfg /getactivescheme".

(** The GUID [get_active_power_guid] returns in a world. *)
Definition guid_of (w : World) : option string :=
  let r := lite_outcome (shell w (issued w) get_scheme_cmd 4) in
  if usable r then
    match Re.search false Lite.guid_re (snd r) with
    | Some gs => mjoin (head gs)
    | None => None
    end
  else None.

(** ** The snapshot store *)

(** The interface [backup_settings] probes. *)
Definition backup_iface (iface : option string) (w : World) : string :=
  if Py.otruthy iface then default EmptyString iface
  else match iface_var w with Some v => v | None => "Ethernet" end.

(** The queries of a capture, in order. *)
Definition backup_queries (iface : option string) (w : World) : list string :=
  query show_global_cmd w
    ++ query (Lite.show_dns_cmd (backup_iface iface w)) w ++ [get_scheme_cmd].

(** The snapshot a capture composes. *)
Definition backup_data (iface : option string) (w : World) : Snapshot :=
  let w1 := record_all (query show_global_cmd w) w in
  let w2 := record_all (query (Lite.show_dns_cmd (backup_iface iface w)) w1) w1 in
  mkSnapshot (tcp_of w)
    [(backup_iface iface w, dns_of (backup_iface iface w) w1)]
    (guid_of w2) (log_mtime w).

(** The result of a capture and the file it leaves, by the fault of the
    write. *)
Definition backup_outcome (d : Snapshot) (w : World)
  : bool * file_state * log_event :=
  match head (io_script w) with
  | None | Some IoOk =>
      (true, Holds d, LogBackupSaved (tcp_globals d) (dns d) (power d))
  | Some (IoOpenFails msg) => (false, backup_file w, LogBackupFailed msg)
  | Some (IoWriteFails msg) => (false, Corrupt, LogBackupFailed msg)
  end.

(** The world after a capture. *)
Definition after_backup (iface : option string) (w : World) : World :=
  let out := backup_outcome (backup_data iface w) w in
  add_log (snd out)
    (set_file (snd (fst out)) (tail (io_script w))
       (record_all (backup_queries iface w) w)).

(** ** The restore engine *)

(** What reading the snapshot file gives: the snapshot, or the message of
    the exception. *)
Definition read_outcome (w : World) : string + Snapshot :=
  match head (io_script w) with
  | Some (IoOpenFails msg) | Some (IoWriteFails msg) => inl msg
  | Some IoOk | None =>
      match backup_file w with
      | Holds d => inr d
      | Missing => inl "No such file or directory"
      | Corrupt => inl "Expecting value"
      end
  end.

(** The world after [restore_from_backup]. *)
Definition after_restore (w : World) : World :=
  match backup_file w with
  | Missing => add_log LogNoBackup w
  | _ =>
      let w0 := set_file (backup_file w) (tail (io_script w)) w in
      match read_outcome w with
      | inr d => add_log LogRestored (record_all (restore_cmds d) w0)
      | inl msg => add_log (LogRestoreFailed msg) w0
      end
  end.

(** Whether [restore_from_backup] succeeds: the file is there and is read. *)
Definition restorable (w : World) : bool :=
  match backup_file w, read_outcome w with
  | Missing, _ => false
  | _, inr _ => true
  | _, inl _ => false
  end.

(** ** The tweak applier *)

Definition file_exists (w : World) : bool :=
  match backup_file w with Missing => false | _ => true end.

(** The world in which [apply_tcp_tweaks] issues its commands: the one the
    capture leaves, when a capture is asked for. *)
Definition after_capture (backup : bool) (w : World) : World :=
  if backup then after_backup None w else w.

(** The world after the attempt of [apply_tcp_tweaks(False)] to restore:
    no attempt is made when the file is missing. *)
Definition after_attempt (w : World) : World :=
  if file_exists w then after_restore w else w.



(** What the utilities of a healthy Windows host print. *)
Definition show_global_text : string :=
  "Querying active state...

TCP Global Parameters
----------------------------------------------
Receive-Side Scaling State          : enabled
Chimney Offload State               : disabled
Receive Window Auto-Tuning Level    : normal
Add-On Congestion Control Provider  : none
ECN Capability                      : disabled
RFC 1323 Timestamps                 : disabled
Initial RTO                         : 3000".

Definition show_dns_text : string :=
  "Configuration for interface Ethernet
    DNS servers configured through DHCP:  192.168.1.1
    Register with which suffix:           Primary only".

Definition get_scheme_text : string :=
  "Power Scheme GUID: 381b4222-f694-41f0-9685-ff5bb260df2e  (Balanced)".

Definition host_shell : list string → string → Z → proc_result :=
  fun _ cmd _ =>
    if String.eqb cmd show_global_cmd then Exited 0 show_global_text EmptyString
    else if Py.startswith "netsh interface ipv4 show dns" cmd
      then Exited 0 show_dns_text EmptyString
    else if String.eqb cmd get_scheme_cmd
      then Exited 0 get_scheme_text EmptyString
    else Exited 0 "Ok." EmptyString.

(** A Windows host on which no snapshot has been taken yet. *)
Definition fresh_host : World :=
  mkWorld true host_shell [] Missing [] (Some "Ethernet") None [].

(** ** The shape of the TCP record *)

(** The six parameters of the TCP scope, in the order of the probe. *)
Definition tcp_keys : list string :=
  [ "autotuninglevel"; "ecncapability"; "rss"; "chimney";
    "congestionprovider"; "timestamps" ].

(** A command that sets a TCP global. *)
Definition is_tcp_cmd (c : string) : bool :=
  Py.startswith "netsh interface tcp" c.

(** A readable snapshot: the file holds it and the next access is sound. *)
Definition readable (w : World) (d : Snapshot) : Prop :=
  backup_file w = Holds d ∧
  (head (io_script w) = None ∨ head (io_script w) = Some IoOk).

Definition all_absent : TcpGlobals := (fun k => (k, None)) <$> tcp_keys.

(** A world in which the query of the TCP globals is refused. *)
Definition denied_host : World :=
  mkWorld true
    (fun _ cmd _ =>
       if String.eqb cmd show_global_cmd
       then Exited 1 "The requested operation requires elevation." EmptyString
       else host_shell [] cmd 0)
    [] Missing [] None None [].

(** ** The DNS mode *)

(** The interface [apply_dns_mode] works on: [iface or "Ethernet"]. *)
Definition dns_name (iface : string) : string :=
  if Py.truthy iface then iface else "Ethernet".

(** A host whose interface list is empty, so that [iface_var] holds the
    empty name, and whose DNS servers are set by hand. *)
Definition unnamed_host : World :=
  mkWorld true
    (fun _ cmd _ =>
       if Py.startswith "netsh interface ipv4 show dns" cmd
       then Exited 0 "Statically Configured DNS Servers:    8.8.8.8
                                      8.8.4.4" EmptyString
       else host_shell [] cmd 0)
    [] Missing [] (Some EmptyString) None [].

(** A host that holds a snapshot with three static servers. *)
Definition static_host : World :=
  mkWorld true host_shell []
    (Holds (mkSnapshot []
              [("Ethernet", mkDns false ["8.8.8.8"; "8.8.4.4"; "1.1.1.1"])]
              None None))
    [] None None [].

(** ** The records the probe produces *)

(** What one turn of the loop of [get_tcp_globals] finds for a pattern:
    [None] when the key is left out of the record, [Some None] when the
    field is absent, [Some (Some v)] when it is present with value [v]. *)
Definition field_of (text : string) (pat : Re.regex)
  : option (option string) :=
  match Re.search true pat text with
  | Some gs => Some <$> Lite.first_value (tail gs)
  | None => Some None
  end.

Definition entry_of (text : string) (kp : string * Re.regex)
  : option (string * option string) :=
  (fun o => (fst kp, o)) <$> field_of text (snd kp).

(** A record as the probe produces them: its keys are among the six
    parameters, none twice, and a value that is present is not empty. *)
Definition probed (r : TcpGlobals) : Prop :=
  NoDup (fst <$> r) ∧
  Forall (fun kv => fst kv ∈ tcp_keys ∧
                    ∀ v, snd kv = Some v → Py.truthy v = true) r.

(** The command that replays a field: the captured value, verbatim. *)
Definition replay (kv : string * option string) : option string :=
  Lite.set_global (fst kv) <$> snd kv.

(** The value captured for a key ([""] when there is none). *)
Definition captured (r : TcpGlobals) (k : string) : string :=
  default EmptyString (mjoin (dict_get k r)).

(** The fields present in a record, with every key. *)
Definition all_present (r : TcpGlobals) : Prop :=
  ∀ k, k ∈ tcp_keys → ∃ v, dict_get k r = Some (Some v).

(** ** Partial records *)

(** The output of a utility that prints no ECN line and names the
    receive-side scaling state by its short name. *)
Definition short_phrasing_text : string :=
  "Receive Window Auto-Tuning Level    : normal
RSS                                 : enabled
Chimney Offload State               : disabled
Add-On Congestion Control Provider  : none
RFC 1323 Timestamps                 : disabled".

Definition short_phrasing_host : World :=
  mkWorld true
    (fun _ cmd _ =>
       if String.eqb cmd show_global_cmd
       then Exited 0 short_phrasing_text EmptyString
       else host_shell [] cmd 0)
    [] Missing [] None None [].

(** ** The DNS benchmark *)

(** The number [dns_benchmark] reads on a line that mentions an average. *)
Definition line_value (line : string) : option Z :=
  Premium.py_int (Py.remove "ms" (Py.last_field "=" (Py.remove " " line))).

(** A ping report without a parseable average: no line that mentions
    [Average] carries a number [int] accepts. *)
Definition unparseable (out : string) : Prop :=
  ∀ line, line ∈ Py.splitlines out →
    Py.contains "Average" line = true → line_value line = None.

(** The report [dns_benchmark] gets for a server, the commands in [hist]
    having been run. *)
Definition report (w : World) (hist : list string) (count timeout : Z)
    (s : string) : string :=
  snd (premium_outcome (shell w hist (Premium.bench_cmd count timeout s) 10)).

(** ** Strings *)

(** The last character of a text. *)
Fixpoint last_char (s : string) : option ascii :=
  match s with
  | EmptyString => None
  | String c EmptyString => Some c
  | String _ s' => last_char s'
  end.

(** The character before the cursor once [pre] has been read from a
    cursor that had [p] before it. *)
Definition prev_after (p : option ascii) (pre : string) : option ascii :=
  match last_char pre with Some c => Some c | None => p end.

(** ** The matcher *)

(** Every character of a text is in a class. *)
Fixpoint all_in (k : Re.cclass) (s : string) : bool :=
  match s with
  | EmptyString => true
  | String c s' => Re.in_class k c && all_in k s'
  end.

(** A word stands in a text: it occurs there with no word character
    right before it and none right after it. *)
Definition has_word (word s : string) : Prop :=
  ∃ pre post, s = pre +:+ word +:+ post ∧
              Re.oword (last_char pre) = false ∧
              Re.oword (Re.next_char post) = false.

(** ** Dotted quads *)

(** One to three decimal digits. *)
Definition octet (x : string) : Prop :=
  all_in Re.Digit x = true ∧ (1 ≤ String.length x ≤ 3)%nat.

(** Four groups of one to three digits, separated by dots. *)
Definition dotted_quad (w : string) : Prop :=
  ∃ a b c d, w = a +:+ "." +:+ b +:+ "." +:+ c +:+ "." +:+ d ∧
             octet a ∧ octet b ∧ octet c ∧ octet d.

(** The repeated part of the pattern: a dot and an octet. *)
Definition dot_octet : Re.regex :=
  Re.Seq (Re.Lit ".") (Re.Rep Re.Digit 1 (Some 3%nat)).

(** A dotted quad stands at the cursor: the text from the cursor on is the
    quad [w] followed by [post], with no word character before the quad
    and none after it. *)
Definition token_at (p : option ascii) (s w post : string) : Prop :=
  s = w +:+ post ∧ dotted_quad w ∧
  Re.oword p = false ∧ Re.oword (Re.next_char post) = false.

(** Whether some dotted quad stands at the cursor. *)
Definition quad_here (p : option ascii) (s : string) : Prop :=
  ∃ w post, token_at p s w post.

(** The dotted quads of a text, read from the left: the first one that
    stands anywhere, then the first one that stands after its end, and so
    on until none is left. *)
Inductive quads_of : option ascii → string → list string → Prop :=
| quads_none p s :
    (∀ pre post, s = pre +:+ post → ¬ quad_here (prev_after p pre) post) →
    quads_of p s []
| quads_next p pre w post ws :
    token_at (prev_after p pre) (w +:+ post) w post →
    (∀ pre1 pre2, pre = pre1 +:+ pre2 → pre2 ≠ EmptyString →
       ¬ quad_here (prev_after p pre1) (pre2 +:+ w +:+ post)) →
    quads_of (prev_after p (pre +:+ w)) post ws →
    quads_of p (pre +:+ w +:+ post) (w :: ws).

(** A text from which [n] characters are dropped. *)
Fixpoint sdrop (n : nat) (s : string) : string :=
  match n, s with
  | S n', String _ s' => sdrop n' s'
  | _, _ => s
  end.

(** A host whose utility prints the source of the servers in lower case. *)
Definition lowercase_host : World :=
  mkWorld true
    (fun _ cmd _ =>
       if Py.startswith "netsh interface ipv4 show dns" cmd
       then Exited 0 "DNS servers configured through dhcp:  192.168.1.1"
              EmptyString
       else host_shell [] cmd 0)
    [] Missing [] None None [].

(** ** The wrapper of netsh and the DNS mode *)

(** The command line by which [apply_dns_mode] flushes the resolver
    cache, as [run_netsh] runs it. *)
Definition flush_cmd : string := "netsh ipconfig /flushdns".

(** The test of [run_netsh]: the text, stripped and in lower case, starts
    with the five letters of netsh. *)
Definition is_netsh (c : string) : bool :=
  Py.startswith "netsh" (Py.lower (Py.strip c)).

(** A text without blanks. *)
Fixpoint no_blank (s : string) : bool :=
  match s with
  | EmptyString => true
  | String c s' => negb (Py.isspace c) && no_blank s'
  end.

(** A run of blanks. *)
Fixpoint all_blank (s : string) : bool :=
  match s with
  | EmptyString => true
  | String c s' => Py.isspace c && all_blank s'
  end.

(** The shape of the texts that pass the test of [run_netsh]: blanks, then
    the five letters of netsh in any case, then anything. *)
Definition netsh_prefixed (c : string) : Prop :=
  ∃ sp n rest,
    c = sp +:+ n +:+ rest ∧ all_blank sp = true ∧ Py.lower n = "netsh".

(** The world in which the off path of an operation issues its commands,
    [wb] being the one its capture leaves: the off path reads the snapshot
    file when it exists. *)
Definition dns_mode_world (enable : bool) (wb : World) : World :=
  if enable then wb
  else if file_exists wb
       then set_file (backup_file wb) (tail (io_script wb)) wb
       else wb.

(** The result of [apply_dns_mode] and the commands it issues after its
    capture. *)
Definition dns_mode_outcome (enable : bool) (name : string) (wb : World)
  : (Z * string) * list string :=
  let fallback :=
    ((0, "DNS mode applied"), [Lite.dns_dhcp_cmd name; flush_cmd]) in
  if enable then
    ((0, "DNS mode applied"),
     [Lite.dns_static_cmd name "8.8.8.8"; Lite.dns_add_cmd name "8.8.4.4" 2;
      flush_cmd])
  else if file_exists wb then
    match read_outcome wb with
    | inr d =>
        match dict_get name (dns d) with
        | Some info =>
            ((0, "DNS restored from backup"),
             dns_entry_cmds name info ++ [flush_cmd])
        | None => fallback
        end
    | inl msg => ((1, msg), [])
    end
  else fallback.

(** ** The low latency mode *)

(** The commands of [set_low_latency_mode(True)]. *)
Definition latency_on_cmds : list string :=
  [ "netsh interface tcp set global congestionprovider=ctcp";
    "netsh interface tcp set global timestamps=disabled" ].

(** The defaults of [set_low_latency_mode(False)]. *)
Definition latency_off_cmds : list string :=
  [ "netsh interface tcp set global congestionprovider=none";
    "netsh interface tcp set global timestamps=enabled" ].

(** The command that sets a key of the TCP record back to the value a
    snapshot holds for it, if it holds one. *)
Definition key_restore_cmd (d : Snapshot) (k : string) : option string :=
  let v := mjoin (dict_get k (tcp_globals d)) in
  if Py.otruthy v then Some (Lite.set_global k (default EmptyString v))
  else None.

(** The commands by which [set_low_latency_mode(False)] restores a
    snapshot. *)
Definition latency_restore_cmds (d : Snapshot) : list string :=
  omap (key_restore_cmd d) ["congestionprovider"; "timestamps"].

(** The result of [set_low_latency_mode] and the commands it issues after
    its capture. *)
Definition latency_outcome (enable : bool) (wb : World)
  : (Z * string) * list string :=
  if enable then ((0, "Low latency applied"), latency_on_cmds)
  else if file_exists wb then
    match read_outcome wb with
    | inr d => ((0, "Low latency settings restored"), latency_restore_cmds d)
    | inl msg => ((1, msg), [])
    end
  else ((0, "Low latency applied"), latency_off_cmds).

(** A host whose snapshot file is damaged. *)
Definition damaged_host : World :=
  mkWorld true host_shell [] Corrupt [] (Some "Ethernet") None [].

(** ** The power plan *)

(** The command by which [set_power_plan] activates a plan. *)
Definition power_cmd (high_perf : bool) : string :=
  "powercfg /setactive "
    +:+ (if high_perf then Lite.HIGH_PERF_GUID else Lite.BALANCED_GUID).

(** What [set_power_plan] returns for the outcome of its command. *)
Definition power_result (r : Z * string) : Z * string :=
  if fst r =? 0 then (0, "Power plan set") else (1, snd r).

(** A block of [n] hexadecimal digits. *)
Definition hex_block (n : nat) (x : string) : Prop :=
  all_in Re.Hex x = true ∧ String.length x = n.

(** The text of a GUID: blocks of 8, 4, 4, 4 and 12 hexadecimal digits,
    separated by hyphens. *)
Definition well_formed_guid (g : string) : Prop :=
  ∃ a b c d e,
    g = a +:+ "-" +:+ b +:+ "-" +:+ c +:+ "-" +:+ d +:+ "-" +:+ e ∧
    hex_block 8 a ∧ hex_block 4 b ∧ hex_block 4 c ∧ hex_block 4 d ∧
    hex_block 12 e.

(** ** The verdict of the restore *)

(** A world in which the shell is replaced. *)
Definition with_shell (sh : list string → string → Z → proc_result)
    (w : World) : World :=
  mkWorld (windows w) sh (issued w) (backup_file w) (io_script w)
    (iface_var w) (log_mtime w) (logged w).

(** ** The round trip *)

(** The snapshot on file when the restore of the round trip starts: the one
    of the capture, or, when [apply_tcp_tweaks] captures again, the one of
    that second capture, which has overwritten the first. *)
Definition last_capture (iface : option string) (bk : bool) (w : World)
  : Snapshot :=
  if bk then backup_data None (after_backup iface w) else backup_data iface w.

(** A host whose TCP query answers once: the first query of the session
    prints the settings, every later one times out. *)
Definition flaky_host : World :=
  mkWorld true
    (fun hist cmd t =>
       if String.eqb cmd show_global_cmd
       then match hist with
            | [] => Exited 0 show_global_text EmptyString
            | _ :: _ => TimedOut
            end
       else host_shell hist cmd t)
    [] Missing [] (Some "Ethernet") None [].

(** ** The handlers *)

(** Two worlds of the same host: the platform, the shell and the chosen
    interface are the same, and no fault awaits the files. *)
Definition same_host (w w' : World) : Prop :=
  windows w' = windows w ∧ shell w' = shell w ∧
  iface_var w' = iface_var w ∧ log_mtime w' = log_mtime w.

(** The value the commands of a history last gave to a TCP global. *)
Definition last_set (k init : string) (hist : list string) : string :=
  fold_left
    (fun v c =>
       if Py.startswith (Lite.set_global k EmptyString) c
       then Py.drop_len (Lite.set_global k EmptyString) c
       else v)
    hist init.

Definition nl : string := String "010" EmptyString.

(** The report of a netsh that shows what was last set; before any change
    the auto-tuning, ECN and receive-side scaling are disabled and the
    chimney offload is enabled. *)
Definition tracking_text (hist : list string) : string :=
  "Receive-Side Scaling State          : "
    +:+ last_set "rss" "disabled" hist +:+ nl
    +:+ "Chimney Offload State               : "
    +:+ last_set "chimney" "enabled" hist +:+ nl
    +:+ "Receive Window Auto-Tuning Level    : "
    +:+ last_set "autotuninglevel" "disabled" hist +:+ nl
    +:+ "Add-On Congestion Control Provider  : "
    +:+ last_set "congestionprovider" "none" hist +:+ nl
    +:+ "ECN Capability                      : "
    +:+ last_set "ecncapability" "disabled" hist +:+ nl
    +:+ "RFC 1323 Timestamps                 : "
    +:+ last_set "timestamps" "enabled" hist.

(** A host whose netsh keeps what it is told. *)
Definition tracking_host : World :=
  mkWorld true
    (fun hist cmd t =>
       if String.eqb cmd show_global_cmd
       then Exited 0 (tracking_text hist) EmptyString
       else host_shell hist cmd t)
    [] Missing [] (Some "Ethernet") None [].

(** ** The list of interfaces *)

(** A text without CR and LF. *)
Fixpoint one_line (s : string) : bool :=
  match s with
  | EmptyString => true
  | String c s' => Lite.name_char c && one_line s'
  end.

(** A text made of characters that are not word characters. *)
Fixpoint no_word (s : string) : bool :=
  match s with
  | EmptyString => true
  | String c s' => negb (Py.isword c) && no_word s'
  end.

Definition show_interface_cmd : string := "netsh interface show interface".

Definition show_interfaces_cmd : string :=
  "netsh interface ipv4 show interfaces".

(** What [netsh interface show interface] prints on a host with one
    adapter. *)
Definition show_interface_text : string :=
  "
Admin State    State          Type             Interface Name
-------------------------------------------------------------------------
Enabled        Connected      Dedicated        Ethernet
".

Definition adapter_host : World :=
  mkWorld true
    (fun hist cmd t =>
       if String.eqb cmd show_interface_cmd
       then Exited 0 show_interface_text EmptyString
       else host_shell hist cmd t)
    [] Missing [] None None [].

(** The names collected so far: none twice, none a header word. *)
Definition clean_names (names : list string) : Prop :=
  NoDup names ∧ ∀ n, n ∈ names → Py.lower n ∉ Lite.headers.

(** ** Off Windows *)

(** A host that is not a Windows host: its shell knows none of the
    utilities. *)
Definition linux_host : World :=
  mkWorld false
    (fun _ _ _ => Exited 127 EmptyString "/bin/sh: 1: powercfg: not found")
    [] Missing [] None None [].

(** ** The operations of the Premium program *)

(** Whether the answer of [IsUserAnAdmin()] makes [is_admin()] true. *)
Definition elevated (token : option Z) : bool :=
  match token with Some v => negb (v =? 0) | None => false end.

(** The entries of the [results] of [repair_network_stack] for the commands
    [cmds], the commands of [hist] having been run. *)
Fixpoint repair_entries (sh : list string → string → Z → proc_result)
    (hist : list string) (cmds : list string) : list Premium.RepairResult :=
  match cmds with
  | [] => []
  | c :: cmds' =>
      let o := premium_outcome (sh hist c 20) in
      (c, fst o, snd o) :: repair_entries sh (hist ++ [c]) cmds'
  end.

(** A host on which every netsh command is refused. *)
Definition refusing_host : World :=
  mkWorld true
    (fun _ _ _ => Exited 1 "The requested operation requires elevation."
                    EmptyString)
    [] Missing [] None None [].

(** ** The averages of the benchmark *)

(** The lines of a report that mention an average. *)
Definition mentions (out : string) : list string :=
  filter (fun l => Py.contains "Average" l = true) (Py.splitlines out).

(** The table [dns_benchmark] builds on Windows for the servers [servers],
    the commands of [hist] having been run and [results] being the table
    so far. *)
Fixpoint bench_results (sh : list string → string → Z → proc_result)
    (count timeout : Z) (hist : list string) (servers : list string)
    (results : gmap string (option Z)) : gmap string (option Z) :=
  match servers with
  | [] => results
  | s :: servers' =>
      let cmd := Premium.bench_cmd count timeout s in
      bench_results sh count timeout (hist ++ [cmd]) servers'
        (<[s := Premium.parse_average (snd (premium_outcome (sh hist cmd 10)))]>
           results)
  end.

(** ** The games *)

(** How many entries of a list of executable names equal a name, case
    aside ([name] is in lower case). *)
Definition hits (name : string) (names : list string) : nat :=
  length (filter (fun p => Py.lower p = name) names).

(** The pids [detect_games] lists for a game with the executables [names]:
    the pid of each process, once for every entry of [names] that equals
    the name of the process. *)
Definition game_pids (names : list string) (procs : list (option string * Z))
  : list Z :=
  procs ≫= fun proc =>
    replicate (hits (Py.lower (default EmptyString (fst proc))) names)
      (snd proc).

(** The pids a table lists for a game. *)
Definition pids_of (game : string) (found : list (string * list Z)) : list Z :=
  default [] (dict_get game found).

(** A table without empty entries. *)
Definition no_empty_entry (found : list (string * list Z)) : Prop :=
  ∀ g, dict_get g found ≠ Some [].

(** The pids one process adds for a game, over a list of games. *)
Definition proc_pids (games : list (string * list string)) (g : string)
    (proc : option string * Z) : list Z :=
  games ≫= fun gp =>
    if decide (g = fst gp)
    then replicate (hits (Py.lower (default EmptyString (fst proc))) (snd gp))
           (snd proc)
    else [].

(** ** The suggested adapters *)

(** A field: a text that is not empty and holds no blank. *)
Definition field (s : string) : bool := Py.truthy s && no_blank s.

(** A run of blanks that is not empty. *)
Definition blanks (s : string) : bool := Py.truthy s && all_blank s.

(** Words separated by single spaces: no blank at either end, no blank
    other than the space, no two blanks in a row.  [after_blank] tells
    whether the text follows a blank or starts the name. *)
Fixpoint single_spaced_go (after_blank : bool) (s : string) : bool :=
  match s with
  | EmptyString => negb after_blank
  | String c s' =>
      if Py.isspace c
      then negb after_blank && Ascii.eqb c " " && single_spaced_go true s'
      else single_spaced_go false s'
  end.

Definition single_spaced (s : string) : bool := single_spaced_go true s.

(** The fields of a list, each after one space. *)
Fixpoint sep_join (fs : list string) : string :=
  match fs with
  | [] => EmptyString
  | f :: fs' => String " " (f +:+ sep_join fs')
  end.

(** The name [suggest_adapters_local] reads off a line, if any. *)
Definition adapter_name (line : string) : option string :=
  let line := Py.strip line in
  if negb (Py.truthy line) || Py.startswith "Admin" line then None
  else
    let parts := Premium.split line in
    if (4 <=? length parts)%nat then Some (Premium.join_sp (drop 3 parts))
    else None.

(** * Properties *)

(** ** The primitives, checked against CPython *)

Example splitlines_ex :
  Py.splitlines ("a" +:+ String "013" (String "010" "b")
                   +:+ String "010" (String "010" "c") +:+ String "010" "")
    = ["a"; "b"; ""; "c"].
Proof. reflexivity. Qed.

Example strip_ex : Py.strip (String "028" " a b " +:+ String "031" "") = "a b".
Proof. reflexivity. Qed.

Example remove_ex : Py.remove "ms" "12msms3m" = "123m".
Proof. reflexivity. Qed.

Example last_field_ex :
  Py.last_field "=" "a=b=c" = "c" ∧ Py.last_field "=" "abc" = "abc" ∧
  Py.last_field "=" "abc=" = "".
Proof. by split_and!. Qed.

Example py_int_ex :
  Premium.py_int " +1_000 " = Some 1000 ∧ Premium.py_int "-5" = Some (-5) ∧
  Premium.py_int "0123" = Some 123 ∧ Premium.py_int "1__0" = None ∧
  Premium.py_int "_1" = None ∧ Premium.py_int "2 3" = None ∧
  Premium.py_int "" = None ∧ Premium.py_int (String "028" "5") = None.
Proof. by split_and!. Qed.

Example findall_ex :
  Re.findall false Lite.ipv4_re
    "DNS 8.8.8.8, 1.2.3.4.5 and 1234.1.1.1 x9.9.9.9 10.0.0.1"
    = ["8.8.8.8"; "1.2.3.4"; "10.0.0.1"].
Proof. reflexivity. Qed.

Example search_dhcp_ex :
  Re.search false Lite.dhcp_re "configured through DHCP: 1.1.1.1"
    = Some [Some "DHCP"] ∧
  Re.search false Lite.dhcp_re "configured through Dhcp: 1.1.1.1" = None ∧
  Re.search false Lite.dhcp_re "nodhcp dhcp_x" = None.
Proof. by split_and!. Qed.

Example search_blank_value_ex :
  Re.search true (Lite.labelled "ECN Capability") "ECN Capability: "
    = Some [Some "ECN Capability:"; Some " "].
Proof. reflexivity. Qed.

Example search_guid_ex :
  Re.search false Lite.guid_re
    "Power Scheme GUID: 381b4222-f694-41f0-9685-ff5bb260df2e  (Balanced)"
    = Some [Some "381b4222-f694-41f0-9685-ff5bb260df2e"].
Proof. reflexivity. Qed.

Example parse_average_ex :
  Premium.parse_average
    "Approximate round trip times in milli-seconds:
    Minimum = 22ms, Maximum = 25ms, Average = 23ms" = Some 23 ∧
  Premium.parse_average "Request timed out." = None ∧
  Premium.parse_average "Average = fast" = None.
Proof. by split_and!. Qed.

(** ** The monad *)

Ltac munfold :=
  unfold mbind, M_bind, bind, mret, M_ret, ret, try_except, get_world,
    Lite.is_windows in *.

Lemma record_all_app cmds1 cmds2 w :
  record_all (cmds1 ++ cmds2) w = record_all cmds2 (record_all cmds1 w).
Proof. unfold record_all. apply fold_left_app. Qed.

Lemma record_all_fields cmds w :
  record_all cmds w =
    mkWorld (windows w) (shell w) (issued w ++ cmds) (backup_file w)
      (io_script w) (iface_var w) (log_mtime w) (logged w).
Proof.
  revert w. induction cmds as [|c cmds IH]; intros w; simpl.
  - rewrite app_nil_r. by destruct w.
  - rewrite IH. unfold record_cmd; simpl. by rewrite <- app_assoc.
Qed.

Lemma issued_record_all cmds w : issued (record_all cmds w) = issued w ++ cmds.
Proof. by rewrite record_all_fields. Qed.

(** ** The command runners *)

Lemma lite_run_cmd_eq cmd timeout w :
  Lite.run_cmd cmd timeout w =
    (Ret (lite_outcome (shell w (issued w) cmd timeout)), record_cmd cmd w).
Proof.
  unfold Lite.run_cmd, spawn. munfold.
  destruct (shell w (issued w) cmd timeout) as [code out err| |msg]; simpl;
    try reflexivity.
  destruct (Py.strip out) eqn:Hout; simpl; [|reflexivity].
  destruct err; reflexivity.
Qed.

Lemma premium_run_cmd_eq cmd timeout w :
  Premium.run_cmd cmd timeout w =
    (Ret (premium_outcome (shell w (issued w) cmd timeout)), record_cmd cmd w).
Proof.
  unfold Premium.run_cmd, spawn. munfold.
  by destruct (shell w (issued w) cmd timeout).
Qed.

(** C3, the two command runners.  Both always return a pair of a code and
    a text and never raise, and both run the command once.
    [DelayKillerLite.run_cmd] answers a timeout with code 124 and an empty
    text, any other failure of the invocation with code 1 and the message
    of the exception, and a child that ends with its code and its stripped
    output, or its stripped error text when the output is empty.
    [delaykiller.run_cmd] answers a timeout with code 1 and the text
    [Timed out], any other failure with code 1 and the message, and a child
    that ends with its code and the stripped merged stream. *)
Theorem run_cmd_contract (cmd : string) (timeout : Z) (w : World) :
  (∃ code out,
     Lite.run_cmd cmd timeout w = (Ret (code, out), record_cmd cmd w) ∧
     match shell w (issued w) cmd timeout with
     | TimedOut => code = 124 ∧ out = EmptyString
     | SpawnError msg => code = 1 ∧ out = msg
     | Exited c so se =>
         code = c ∧
         out = if Py.truthy (Py.strip so) then Py.strip so else Py.strip se
     end) ∧
  (∃ code out,
     Premium.run_cmd cmd timeout w = (Ret (code, out), record_cmd cmd w) ∧
     match shell w (issued w) cmd timeout with
     | TimedOut => code = 1 ∧ out = "Timed out"
     | SpawnError msg => code = 1 ∧ out = msg
     | Exited c so se => code = c ∧ out = Py.strip (so +:+ se)
     end).
Proof.
  split.
  - exists (fst (lite_outcome (shell w (issued w) cmd timeout))),
      (snd (lite_outcome (shell w (issued w) cmd timeout))).
    rewrite lite_run_cmd_eq, <- surjective_pairing. split; [done|].
    by destruct (shell w (issued w) cmd timeout).
  - exists (fst (premium_outcome (shell w (issued w) cmd timeout))),
      (snd (premium_outcome (shell w (issued w) cmd timeout))).
    rewrite premium_run_cmd_eq, <- surjective_pairing. split; [done|].
    by destruct (shell w (issued w) cmd timeout).
Qed.

(** C3 as stated fails for [delaykiller.run_cmd]: on a timeout its text is
    not empty and its code is the code of every other failure. *)
Lemma premium_timeout_not_distinguished :
  fst (Premium.run_cmd "ping -n 3 -w 2000 8.8.8.8" 10 hung_world)
    = Ret (1, "Timed out") ∧
  fst (Premium.run_cmd "ping -n 3 -w 2000 8.8.8.8" 10 broken_world)
    = Ret (1, "[WinError 2]") ∧
  ¬ (∃ code, fst (Premium.run_cmd "ping -n 3 -w 2000 8.8.8.8" 10 hung_world)
               = Ret (code, EmptyString)).
Proof.
  split; [reflexivity|]. split; [reflexivity|].
  intros [code H]. rewrite premium_run_cmd_eq in H. simpl in H. congruence.
Qed.

(** ** MTU discovery *)

Lemma probe_turns_S mtu min_mtu :
  mtu >= min_mtu →
  Premium.probe_turns mtu min_mtu = S (Premium.probe_turns (mtu - 10) min_mtu).
Proof.
  intros H. unfold Premium.probe_turns.
  replace ((mtu - 10 - min_mtu) / 10 + 1) with ((mtu - min_mtu) / 10).
  - rewrite Z2Nat.inj_add; [|apply Z.div_pos; lia|lia].
    change (Z.to_nat 1) with 1%nat. lia.
  - replace (mtu - 10 - min_mtu) with ((mtu - min_mtu) + (-1) * 10) by lia.
    rewrite Z.div_add by lia. lia.
Qed.

Lemma probe_turns_0 mtu min_mtu :
  mtu < min_mtu → Premium.probe_turns mtu min_mtu = 0%nat.
Proof.
  intros H. unfold Premium.probe_turns.
  assert ((mtu - min_mtu) / 10 < 0) by (apply Z.div_lt_upper_bound; lia).
  lia.
Qed.

Lemma probes_S target mtu n :
  probes target mtu (S n) = probe_cmd target mtu 0 :: probes target (mtu - 10) n.
Proof.
  unfold probes. simpl. f_equal. rewrite <- seq_shift, <- list_fmap_compose.
  apply list_fmap_ext. intros _ i _. unfold probe_cmd, candidate; simpl.
  do 2 f_equal. lia.
Qed.

Lemma answer_S w target mtu i :
  answer (record_cmd (probe_cmd target mtu 0) w) target (mtu - 10) i
    = answer w target mtu (S i).
Proof.
  unfold answer. simpl. rewrite probes_S, <- app_assoc. simpl.
  replace (probe_cmd target (mtu - 10) i) with (probe_cmd target mtu (S i));
    [done|].
  unfold probe_cmd, candidate. do 2 f_equal. lia.
Qed.

Lemma probe_cmd_0 target mtu :
  probe_cmd target mtu 0 = Premium.mtu_cmd (mtu - 28) target.
Proof. unfold probe_cmd, candidate. do 2 f_equal. lia. Qed.

Lemma probe_loop_step fuel target mtu min_mtu w :
  Premium.probe_loop (S fuel) target mtu min_mtu w =
    if mtu >=? min_mtu then
      if answer w target mtu 0 then
        (Ret (Some mtu), record_cmd (probe_cmd target mtu 0) w)
      else Premium.probe_loop fuel target (mtu - 10) min_mtu
             (record_cmd (probe_cmd target mtu 0) w)
    else (Ret None, w).
Proof.
  simpl. destruct (mtu >=? min_mtu); [|reflexivity].
  munfold. unfold answer, probes, reply_ok. simpl.
  rewrite app_nil_r, probe_cmd_0, premium_run_cmd_eq.
  destruct (premium_outcome _) as [code out]; simpl.
  by destruct ((code =? 0) && Py.contains "Reply" out).
Qed.

(** The loop of [probe_mtu]: it returns, after [n] probes down the
    schedule, all of which but the last failed; it stops at the first
    reply, or when the candidates or the fuel are used up. *)
Lemma probe_loop_spec fuel target mtu min_mtu w :
  ∃ (n : nat) (r : option Z),
    Premium.probe_loop fuel target mtu min_mtu w
      = (Ret r, record_all (probes target mtu n) w) ∧
    (n ≤ fuel)%nat ∧ (n ≤ Premium.probe_turns mtu min_mtu)%nat ∧
    (∀ i, (i < n - 1)%nat → answer w target mtu i = false) ∧
    match r with
    | Some c =>
        (1 ≤ n)%nat ∧ c = candidate mtu (n - 1) ∧
        answer w target mtu (n - 1) = true
    | None =>
        (∀ i, (i < n)%nat → answer w target mtu i = false) ∧
        n = Nat.min fuel (Premium.probe_turns mtu min_mtu)
    end.
Proof.
  revert mtu w. induction fuel as [|fuel IH]; intros mtu w.
  { exists 0%nat, None. split_and!; try done; try lia; intros; lia. }
  rewrite probe_loop_step. destruct (mtu >=? min_mtu) eqn:Hge.
  - apply Z.geb_le in Hge.
    rewrite (probe_turns_S mtu min_mtu) by lia.
    destruct (answer w target mtu 0) eqn:Ha.
    + exists 1%nat, (Some mtu). split_and!; try done; try lia.
      unfold candidate; simpl; lia.
    + destruct (IH (mtu - 10) (record_cmd (probe_cmd target mtu 0) w))
        as (n & r & Heq & Hf & Ht & Hprev & Hr).
      exists (S n), r. rewrite Heq, probes_S. split; [done|].
      split; [lia|]. split; [lia|]. split.
      * intros [|i] Hi; [done|]. rewrite <- answer_S. apply Hprev. lia.
      * destruct r as [c|].
        -- destruct Hr as (Hn & Hc & Hans). split; [lia|].
           replace (S n - 1)%nat with (S (n - 1)) by lia.
           rewrite <- answer_S. split; [|done].
           rewrite Hc. unfold candidate. lia.
        -- destruct Hr as (Hall & Hn). split; [|lia].
           intros [|i] Hi; [done|]. rewrite <- answer_S. apply Hall. lia.
  - rewrite Z.geb_leb in Hge. apply Z.leb_gt in Hge.
    rewrite probe_turns_0 by lia.
    exists 0%nat, None. split_and!; try done; try lia; intros; lia.
Qed.

(** More fuel than the descent has candidates changes nothing: the loop is
    left through its test, not for want of fuel. *)
Lemma probe_loop_fuel fuel target mtu min_mtu w :
  (Premium.probe_turns mtu min_mtu ≤ fuel)%nat →
  Premium.probe_loop fuel target mtu min_mtu w =
    Premium.probe_loop (Premium.probe_turns mtu min_mtu) target mtu min_mtu w.
Proof.
  revert mtu w. induction fuel as [|fuel IH]; intros mtu w Hle.
  { by replace (Premium.probe_turns mtu min_mtu) with 0%nat by lia. }
  destruct (Z_lt_ge_dec mtu min_mtu) as [Hlt|Hge].
  - rewrite probe_turns_0 by done. rewrite probe_loop_step.
    destruct (mtu >=? min_mtu) eqn:E; [|done].
    apply Z.geb_le in E. lia.
  - rewrite (probe_turns_S mtu min_mtu) in * by done.
    rewrite !probe_loop_step. destruct (mtu >=? min_mtu); [|done].
    destruct (answer w target mtu 0); [done|]. apply IH. lia.
Qed.

(** C5, MTU discovery.  Off Windows [probe_mtu] returns undetermined and
    sends nothing.  On Windows [probe_mtu] returns after [n] probes,
    between 1 and 31; the [i]-th probe is the ping of payload
    [1500 - 10 i - 28], and they are sent in that order; every probe but
    the last failed; the result is the candidate of the last probe when
    that probe was answered, and undetermined when all 31 probes, down to
    the floor 1200, failed.  Against a responder that answers a probe of
    the schedule exactly when its payload is at most 1452, the result is
    1480 and exactly three probes are sent (1500 and 1490 fail, 1480
    succeeds). *)
Theorem probe_mtu_linear_descent (target : string) (w : World) :
  (windows w = false →
   Premium.probe_mtu target 1500 1200 w = (Ret None, w)) ∧
  (windows w = true →
   (∃ (n : nat) (r : option Z),
      Premium.probe_mtu target 1500 1200 w
        = (Ret r, record_all (probes target 1500 n) w) ∧
      (1 ≤ n ≤ 31)%nat ∧
      (∀ i, (i < n - 1)%nat → answer w target 1500 i = false) ∧
      match r with
      | Some c =>
          c = 1500 - 10 * Z.of_nat (n - 1) ∧
          answer w target 1500 (n - 1) = true
      | None => n = 31%nat ∧ answer w target 1500 30 = false
      end) ∧
   ((∀ i, (i < 31)%nat →
       answer w target 1500 i = (candidate 1500 i - 28 <=? 1452)) →
    Premium.probe_mtu target 1500 1200 w
      = (Ret (Some 1480), record_all (probes target 1500 3) w))).
Proof.
  split.
  { intros Hwin. unfold Premium.probe_mtu. by rewrite Hwin. }
  intros Hwin.
  assert (Hturns : Premium.probe_turns 1500 1200 = 31%nat) by reflexivity.
  assert (Hgen : ∃ (n : nat) (r : option Z),
     Premium.probe_mtu target 1500 1200 w
       = (Ret r, record_all (probes target 1500 n) w) ∧
     (1 ≤ n ≤ 31)%nat ∧
     (∀ i, (i < n - 1)%nat → answer w target 1500 i = false) ∧
     match r with
     | Some c =>
         c = 1500 - 10 * Z.of_nat (n - 1) ∧
         answer w target 1500 (n - 1) = true
     | None => n = 31%nat ∧ answer w target 1500 30 = false
     end).
  { unfold Premium.probe_mtu. rewrite Hwin; simpl negb; cbv iota.
    destruct (probe_loop_spec (S (Premium.probe_turns 1500 1200)) target
                1500 1200 w) as (n & r & Heq & Hf & Ht & Hprev & Hr).
    rewrite Hturns in *. exists n, r. split; [done|].
    destruct r as [c|].
    - destruct Hr as (Hn & Hc & Ha). split_and!; try done; lia.
    - destruct Hr as (Hall & Hn). assert (n = 31%nat) by lia. subst n.
      split_and!; try done; try lia. apply Hall. lia. }
  split; [exact Hgen|].
  intros Hscript. destruct Hgen as (n & r & Heq & Hn & Hprev & Hr).
  assert (H0 : answer w target 1500 0 = false) by (rewrite Hscript; [done|lia]).
  assert (H1 : answer w target 1500 1 = false) by (rewrite Hscript; [done|lia]).
  assert (H2 : answer w target 1500 2 = true) by (rewrite Hscript; [done|lia]).
  assert (n = 3%nat) as ->.
  { destruct (decide (n < 3)%nat) as [Hlt|Hge].
    - destruct r as [c|].
      + destruct Hr as [_ Ha].
        assert (n = 1 ∨ n = 2)%nat as [-> | ->] by lia; simpl in Ha; congruence.
      + lia.
    - destruct (decide (n = 3%nat)) as [|Hne]; [done|].
      rewrite Hprev in H2 by lia. done. }
  rewrite Heq. destruct r as [c|].
  - destruct Hr as [-> _]. done.
  - lia.
Qed.

Lemma probe_mtu_linear_descent_witness :
  windows responder_world = true ∧
  Premium.probe_mtu "8.8.8.8" 1500 1200 responder_world
    = (Ret (Some 1480),
       record_all (probes "8.8.8.8" 1500 3) responder_world).
Proof.
  split; [reflexivity|].
  destruct (probe_mtu_linear_descent "8.8.8.8" responder_world) as [_ H].
  apply H; [reflexivity|].
  intros i Hi.
  assert (Hall : forallb (fun i =>
                   Bool.eqb (answer responder_world "8.8.8.8" 1500 i)
                     (candidate 1500 i - 28 <=? 1452)) (seq 0 31) = true)
    by (vm_compute; reflexivity).
  rewrite forallb_forall in Hall. apply Bool.eqb_prop, Hall, in_seq. lia.
Defined.

(** C5 as stated fails: against the responder that answers a payload of
    at most 1452 bytes, 1480 is found by the third probe, not the second. *)
Lemma probe_mtu_takes_three_probes :
  fst (Premium.probe_mtu "8.8.8.8" 1500 1200 responder_world)
    = Ret (Some 1480) ∧
  issued (snd (Premium.probe_mtu "8.8.8.8" 1500 1200 responder_world))
    = [ "ping -f -l 1472 -n 1 8.8.8.8";
        "ping -f -l 1462 -n 1 8.8.8.8";
        "ping -f -l 1452 -n 1 8.8.8.8" ] ∧
  length (issued (snd (Premium.probe_mtu "8.8.8.8" 1500 1200 responder_world)))
    ≠ 2%nat.
Proof. vm_compute. split_and!; try reflexivity. discriminate. Qed.

(** ** Running the monad *)

Lemma bind_eq {A B} (m : M A) (k : A → M B) w a w' :
  m w = (Ret a, w') → (m ≫= k) w = k a w'.
Proof. intros H. unfold mbind, M_bind, bind. by rewrite H. Qed.

Lemma bind_raise {A B} (m : M A) (k : A → M B) w e w' :
  m w = (Raise e, w') → (m ≫= k) w = (Raise e, w').
Proof. intros H. unfold mbind, M_bind, bind. by rewrite H. Qed.

Lemma mret_eq {A} (a : A) w : (mret a : M A) w = (Ret a, w).
Proof. reflexivity. Qed.

Lemma try_ret {A} (body : M A) handler w a w' :
  body w = (Ret a, w') → try_except body handler w = (Ret a, w').
Proof. intros H. unfold try_except. by rewrite H. Qed.

Lemma try_raise {A} (body : M A) handler w e w' :
  body w = (Raise e, w') → try_except body handler w = handler e w'.
Proof. intros H. unfold try_except. by rewrite H. Qed.

(** ** The commands of the Lite program *)

Lemma run_netsh_eq cmd w :
  Lite.run_netsh cmd w =
    (Ret (lite_outcome (shell w (issued w) (netsh_full cmd) 8)),
     record_cmd (netsh_full cmd) w).
Proof. unfold Lite.run_netsh. by rewrite lite_run_cmd_eq. Qed.

Lemma rstrip_cons_nonspace c s :
  Py.isspace c = false → Py.rstrip (String c s) = String c (Py.rstrip s).
Proof. intros H. simpl. rewrite H. by destruct (Py.rstrip s). Qed.

Lemma startswith_cons a p s :
  Py.startswith (String a p) s = true →
  ∃ s', s = String a s' ∧ Py.startswith p s' = true.
Proof.
  destruct s as [|b s']; [done|]. cbn [Py.startswith].
  intros [->%Ascii.eqb_eq H]%andb_prop. eauto.
Qed.

(** A command line that starts with [netsh] and a space is run as it is. *)
Lemma netsh_full_id cmd :
  Py.startswith "netsh " cmd = true → netsh_full cmd = cmd.
Proof.
  intros H. unfold netsh_full.
  do 6 (apply startswith_cons in H as (? & -> & H)).
  unfold Py.strip.
  change (Py.lstrip (String "n" ?s)) with (String "n"%char s).
  rewrite !rstrip_cons_nonspace by reflexivity. reflexivity.
Qed.

Lemma run_netsh_id cmd w :
  Py.startswith "netsh " cmd = true →
  Lite.run_netsh cmd w =
    (Ret (lite_outcome (shell w (issued w) cmd 8)), record_cmd cmd w).
Proof. intros H. by rewrite run_netsh_eq, netsh_full_id. Qed.

Lemma run_all_eq cmds w :
  Forall (fun c => Py.startswith "netsh " c = true) cmds →
  Lite.run_all cmds w = (Ret tt, record_all cmds w).
Proof.
  unfold Lite.run_all. revert w.
  induction cmds as [|c cmds IH]; intros w Hall; [done|].
  apply Forall_cons in Hall as [Hc Hall]. cbn [for_each].
  erewrite bind_eq by (erewrite bind_eq by (by apply run_netsh_id); apply mret_eq).
  by rewrite IH.
Qed.

Lemma for_enumerate_add iface others start w :
  for_enumerate start others
    (fun idx s => Lite.run_netsh (Lite.dns_add_cmd iface s idx);; mret tt) w
  = (Ret tt,
     record_all
       (imap (fun i s => Lite.dns_add_cmd iface s (start + Z.of_nat i)) others)
       w).
Proof.
  revert start w. induction others as [|s others IH]; intros start w; [done|].
  cbn [for_enumerate imap].
  erewrite bind_eq
    by (erewrite bind_eq by (by apply run_netsh_id); apply mret_eq).
  rewrite IH, Z.add_0_r. cbn [record_all fold_left]. do 2 f_equal.
  apply imap_ext. intros i x _. simpl. f_equal. lia.
Qed.

Lemma restore_dns_entry_eq iface info w :
  Lite.restore_dns_entry iface info w
    = (Ret tt, record_all (dns_entry_cmds iface info) w).
Proof.
  unfold Lite.restore_dns_entry, dns_entry_cmds.
  destruct (dhcp info).
  - by erewrite bind_eq by (by apply run_netsh_id).
  - destruct (servers info) as [|s0 others]; [done|].
    erewrite bind_eq by (by apply run_netsh_id).
    by rewrite for_enumerate_add.
Qed.

Lemma mapping_netsh k cmd v :
  Lite.mapping k = Some cmd → Py.startswith "netsh " (cmd v) = true.
Proof.
  unfold Lite.mapping.
  repeat (case_match; [intros [= <-]; reflexivity|]). done.
Qed.

Lemma restore_tcp_loop tcp w :
  for_each tcp
    (fun kv =>
       if Py.otruthy (snd kv) then
         match Lite.mapping (fst kv) with
         | Some cmd =>
             Lite.run_netsh (cmd (default EmptyString (snd kv)));; mret tt
         | None => mret tt
         end
       else mret tt) w
  = (Ret tt, record_all (tcp_restore_cmds tcp) w).
Proof.
  revert w. induction tcp as [|[k v] tcp IH]; intros w; [done|].
  cbn [for_each]. unfold tcp_restore_cmds in *. cbn [omap list_omap].
  unfold tcp_restore_cmd at 1. cbn [fst snd].
  destruct (Py.otruthy v).
  - destruct (Lite.mapping k) as [cmd|] eqn:Hk; cbn [fmap option_fmap option_map].
    + erewrite bind_eq
        by (erewrite bind_eq by (apply run_netsh_id; by eapply mapping_netsh);
            apply mret_eq).
      apply IH.
    + erewrite bind_eq by apply mret_eq. apply IH.
  - erewrite bind_eq by apply mret_eq. apply IH.
Qed.

Lemma restore_dns_loop d w :
  for_each d
    (fun e =>
       if negb (Py.truthy (fst e)) then mret tt
       else Lite.restore_dns_entry (fst e) (snd e)) w
  = (Ret tt, record_all (dns_restore_cmds d) w).
Proof.
  revert w. induction d as [|[iface info] d IH]; intros w; [done|].
  cbn [for_each]. unfold dns_restore_cmds in *. cbn [mbind list_bind fst snd].
  destruct (Py.truthy iface); cbn [negb].
  - erewrite bind_eq by apply restore_dns_entry_eq.
    rewrite IH. by rewrite record_all_app.
  - erewrite bind_eq by apply mret_eq. apply IH.
Qed.

(** ** The state probe *)

Lemma get_tcp_globals_eq w :
  Lite.get_tcp_globals w
    = (Ret (tcp_of w), record_all (query show_global_cmd w) w).
Proof.
  unfold Lite.get_tcp_globals, tcp_of, query.
  erewrite bind_eq by reflexivity. destruct (windows w); [|done].
  cbn [negb]. erewrite bind_eq by (by apply run_netsh_id).
  fold show_global_cmd. unfold usable.
  destruct (lite_outcome _) as [code out]. cbn [fst snd].
  by destruct (negb (code =? 0) || negb (Py.truthy out)).
Qed.

Lemma get_dns_info_eq iface w :
  Lite.get_dns_info iface w
    = (Ret (dns_of iface w), record_all (query (Lite.show_dns_cmd iface) w) w).
Proof.
  unfold Lite.get_dns_info, dns_of, query.
  erewrite bind_eq by reflexivity. destruct (windows w); [|done].
  cbn [negb]. erewrite bind_eq by (by apply run_netsh_id).
  unfold usable. destruct (lite_outcome _) as [code out]. cbn [fst snd].
  by destruct (negb (code =? 0) || negb (Py.truthy out)).
Qed.

Lemma get_active_power_guid_eq w :
  Lite.get_active_power_guid w = (Ret (guid_of w), record_cmd get_scheme_cmd w).
Proof.
  unfold Lite.get_active_power_guid, guid_of.
  erewrite bind_eq by apply lite_run_cmd_eq. fold get_scheme_cmd.
  unfold usable. destruct (lite_outcome _) as [code out]. cbn [fst snd].
  destruct (negb (code =? 0) || negb (Py.truthy out)); [done|].
  by destruct (Re.search false Lite.guid_re out).
Qed.

(** ** The snapshot store *)

Lemma backup_settings_eq iface w :
  Lite.backup_settings iface w
    = (Ret (fst (fst (backup_outcome (backup_data iface w) w))),
       after_backup iface w).
Proof.
  unfold Lite.backup_settings, after_backup, backup_outcome, backup_data,
    backup_queries, backup_iface.
  set (w1 := record_all (query show_global_cmd w) w).
  set (ifc := if Py.otruthy iface then default EmptyString iface
              else match iface_var w with Some v => v | None => "Ethernet" end).
  set (w2 := record_all (query (Lite.show_dns_cmd ifc) w1) w1).
  assert (Hw2 : record_cmd get_scheme_cmd w2
                = record_all (query show_global_cmd w
                    ++ query (Lite.show_dns_cmd ifc) w ++ [get_scheme_cmd]) w).
  { rewrite !record_all_app. subst w2 w1. unfold query.
    rewrite !record_all_fields. by destruct (windows w). }
  assert (Hio : io_script (record_cmd get_scheme_cmd w2) = io_script w).
  { rewrite Hw2. by rewrite record_all_fields. }
  assert (Hfile : backup_file (record_cmd get_scheme_cmd w2) = backup_file w).
  { rewrite Hw2. by rewrite record_all_fields. }
  assert (Hmt : log_mtime (record_cmd get_scheme_cmd w2) = log_mtime w).
  { rewrite Hw2. by rewrite record_all_fields. }
  assert (Hiv : iface_var w1 = iface_var w).
  { subst w1. by rewrite record_all_fields. }
  set (d := mkSnapshot (tcp_of w) [(ifc, dns_of ifc w1)] (guid_of w2)
              (log_mtime w)).
  assert (Hbody :
    (tcp ← Lite.get_tcp_globals;
     w' ← get_world;
     let iface :=
       if Py.otruthy iface then default EmptyString iface
       else match iface_var w' with Some v => v | None => "Ethernet" end in
     info ← Lite.get_dns_info iface;
     let dns := [(iface, info)] in
     power ← Lite.get_active_power_guid;
     w' ← get_world;
     let data := mkSnapshot tcp dns power (log_mtime w') in
     write_backup data;; log (LogBackupSaved tcp dns power);; mret true) w
    = (write_backup d;;
       log (LogBackupSaved (tcp_of w) [(ifc, dns_of ifc w1)] (guid_of w2));;
       mret true) (record_cmd get_scheme_cmd w2)).
  { erewrite bind_eq by apply get_tcp_globals_eq.
    erewrite bind_eq by reflexivity. fold w1. rewrite Hiv. fold ifc.
    erewrite bind_eq by apply get_dns_info_eq. fold w2.
    erewrite bind_eq by apply get_active_power_guid_eq.
    erewrite bind_eq by reflexivity. by rewrite Hmt. }
  unfold write_backup in Hbody at 2.
  destruct (io_script w) as [|[|msg|msg] sc] eqn:Hsc; cbn [head tail].
  - eapply try_ret. rewrite Hbody.
    erewrite bind_eq by (rewrite Hio; reflexivity).
    erewrite bind_eq by reflexivity. rewrite mret_eq. do 2 f_equal.
    unfold set_file. rewrite Hw2. by rewrite !record_all_fields.
  - eapply try_ret. rewrite Hbody.
    erewrite bind_eq by (rewrite Hio; reflexivity).
    erewrite bind_eq by reflexivity. rewrite mret_eq. do 2 f_equal.
    unfold set_file. rewrite Hw2. by rewrite !record_all_fields.
  - erewrite try_raise
      by (rewrite Hbody; erewrite bind_raise by (rewrite Hio; reflexivity);
          reflexivity).
    erewrite bind_eq by reflexivity. rewrite mret_eq. do 2 f_equal.
    unfold set_file. rewrite Hfile, Hw2. by rewrite !record_all_fields.
  - erewrite try_raise
      by (rewrite Hbody; erewrite bind_raise by (rewrite Hio; reflexivity);
          reflexivity).
    erewrite bind_eq by reflexivity. rewrite mret_eq. do 2 f_equal.
    unfold set_file. rewrite Hw2. by rewrite !record_all_fields.
Qed.

(** ** The restore engine *)

Lemma read_backup_eq w :
  read_backup w =
    (match read_outcome w with
     | inr d => Ret d
     | inl msg => Raise (Exception msg)
     end,
     set_file (backup_file w) (tail (io_script w)) w).
Proof.
  unfold read_backup, read_outcome.
  destruct (head (io_script w)) as [[| |]|]; try done;
    by destruct (backup_file w).
Qed.

Lemma restore_body_eq d w :
  (for_each (tcp_globals d)
     (fun kv =>
        if Py.otruthy (snd kv) then
          match Lite.mapping (fst kv) with
          | Some cmd =>
              Lite.run_netsh (cmd (default EmptyString (snd kv)));; mret tt
          | None => mret tt
          end
        else mret tt);;
   for_each (dns d)
     (fun e =>
        if negb (Py.truthy (fst e)) then mret tt
        else Lite.restore_dns_entry (fst e) (snd e));;
   (if Py.otruthy (power d)
    then Lite.run_cmd ("powercfg /setactive "
                         +:+ default EmptyString (power d)) 6;;
         mret tt
    else mret tt);;
   log LogRestored;;
   mret true) w
  = (Ret true, add_log LogRestored (record_all (restore_cmds d) w)).
Proof.
  erewrite bind_eq by apply restore_tcp_loop.
  erewrite bind_eq by apply restore_dns_loop.
  unfold restore_cmds, power_restore_cmds. rewrite !record_all_app.
  destruct (Py.otruthy (power d)).
  - erewrite bind_eq
      by (erewrite bind_eq by apply lite_run_cmd_eq; apply mret_eq).
    by erewrite bind_eq by reflexivity.
  - erewrite bind_eq by apply mret_eq. by erewrite bind_eq by reflexivity.
Qed.

Lemma restore_from_backup_eq w :
  Lite.restore_from_backup w = (Ret (restorable w), after_restore w).
Proof.
  unfold Lite.restore_from_backup, restorable, after_restore.
  erewrite bind_eq by reflexivity.
  destruct (backup_file w) eqn:Hfile; cbn [negb].
  - by erewrite bind_eq by reflexivity.
  - destruct (read_outcome w) as [msg|d'] eqn:Hread.
    + erewrite try_raise
        by (erewrite bind_raise; [reflexivity|];
            rewrite read_backup_eq, Hread, Hfile; reflexivity).
      by erewrite bind_eq by reflexivity.
    + eapply try_ret.
      erewrite bind_eq by (rewrite read_backup_eq, Hread, Hfile; reflexivity).
      apply restore_body_eq.
  - destruct (read_outcome w) as [msg|d'] eqn:Hread.
    + erewrite try_raise
        by (erewrite bind_raise; [reflexivity|];
            rewrite read_backup_eq, Hread, Hfile; reflexivity).
      by erewrite bind_eq by reflexivity.
    + eapply try_ret.
      erewrite bind_eq by (rewrite read_backup_eq, Hread, Hfile; reflexivity).
      apply restore_body_eq.
Qed.

(** ** The tweak applier *)

Lemma tcp_on_netsh :
  Forall (fun c => Py.startswith "netsh " c = true) Lite.tcp_on_cmds.
Proof. repeat constructor. Qed.

Lemma tcp_off_netsh :
  Forall (fun c => Py.startswith "netsh " c = true) Lite.tcp_off_cmds.
Proof. repeat constructor. Qed.

Lemma apply_tcp_tweaks_eq enable backup w :
  windows w = true →
  Lite.apply_tcp_tweaks enable backup w =
    let wb := after_capture backup w in
    if enable then
      (Ret (0, "TCP tweaks applied"), record_all Lite.tcp_on_cmds wb)
    else if restorable wb then
      (Ret (0, "TCP tweaks restored from backup"), after_restore wb)
    else
      (Ret (0, "TCP tweaks applied"),
       record_all Lite.tcp_off_cmds (after_attempt wb)).
Proof.
  intros Hwin. unfold Lite.apply_tcp_tweaks.
  erewrite bind_eq by reflexivity. rewrite Hwin. cbn [negb].
  cbv zeta.
  assert (Hcap : (if backup then Lite.backup_settings None;; mret tt
                  else mret tt) w = (Ret tt, after_capture backup w)).
  { destruct backup; [|done].
    by erewrite bind_eq by apply backup_settings_eq. }
  set (wb := after_capture backup w) in *.
  destruct enable.
  { eapply try_ret. erewrite bind_eq by apply Hcap.
    by erewrite bind_eq by (apply run_all_eq, tcp_on_netsh). }
  assert (Hatt : (if file_exists wb then Lite.restore_from_backup
                  else mret false : M bool) wb
                 = (Ret (restorable wb), after_attempt wb)).
  { unfold after_attempt, file_exists, restorable.
    destruct (backup_file wb) eqn:Hfile; [done| |];
      by rewrite restore_from_backup_eq; unfold restorable; rewrite Hfile. }
  assert (Hbody :
    ((if backup then Lite.backup_settings None;; mret tt else mret tt);;
     ex ← backup_exists;
     restored ← (if ex : bool then Lite.restore_from_backup
                 else mret false : M bool);
     if restored : bool then mret (0, "TCP tweaks restored from backup")
     else Lite.run_all Lite.tcp_off_cmds;; mret (0, "TCP tweaks applied")) w
    = if restorable wb then
        (Ret (0, "TCP tweaks restored from backup"), after_restore wb)
      else
        (Ret (0, "TCP tweaks applied"),
         record_all Lite.tcp_off_cmds (after_attempt wb))).
  { erewrite bind_eq by apply Hcap.
    erewrite bind_eq by reflexivity.
    erewrite bind_eq by apply Hatt.
    destruct (restorable wb) eqn:Hres.
    - rewrite mret_eq. f_equal. unfold after_attempt, file_exists.
      unfold restorable in Hres. by destruct (backup_file wb).
    - by erewrite bind_eq by (apply run_all_eq, tcp_off_netsh). }
  destruct (restorable wb); by eapply try_ret.
Qed.

Lemma issued_add_log ev w : issued (add_log ev w) = issued w.
Proof. done. Qed.

Lemma issued_set_file f sc w : issued (set_file f sc w) = issued w.
Proof. done. Qed.

Lemma issued_after_restore w :
  issued (after_restore w) =
    issued w ++ match restorable w, read_outcome w with
                | true, inr d => restore_cmds d
                | _, _ => []
                end.
Proof.
  unfold after_restore, restorable.
  destruct (backup_file w); [by rewrite app_nil_r| |];
    (destruct (read_outcome w); [by rewrite app_nil_r|]);
    by rewrite issued_add_log, issued_record_all.
Qed.

Lemma issued_after_attempt w :
  restorable w = false → issued (after_attempt w) = issued w.
Proof.
  intros H. unfold after_attempt. destruct (file_exists w); [|done].
  rewrite issued_after_restore, H. apply app_nil_r.
Qed.



Lemma restorable_exists w : restorable w = true → file_exists w = true.
Proof. unfold restorable, file_exists. by destruct (backup_file w). Qed.

(** C6, the fallback without a snapshot.  On Windows, while no snapshot
    file exists, [apply_tcp_tweaks(False, backup=False)] issues the four
    hardcoded defaults and nothing else and returns status 0 with the
    message [TCP tweaks applied]; so does [backup=True] when the capture
    cannot open the file.  With [backup=True] and a capture that writes
    the file, the call restores from the snapshot it has just taken.  The
    restore path is taken only when the file exists once the capture is
    over. *)
Theorem tcp_off_fallback (w : World) :
  windows w = true → backup_file w = Missing →
  Lite.apply_tcp_tweaks false false w
    = (Ret (0, "TCP tweaks applied"), record_all Lite.tcp_off_cmds w) ∧
  (∀ msg, head (io_script w) = Some (IoOpenFails msg) →
     Lite.apply_tcp_tweaks false true w
       = (Ret (0, "TCP tweaks applied"),
          record_all Lite.tcp_off_cmds (after_backup None w))) ∧
  (head (io_script w) = None ∨ head (io_script w) = Some IoOk →
   head (tail (io_script w)) = None ∨ head (tail (io_script w)) = Some IoOk →
   ∃ w', Lite.apply_tcp_tweaks false true w
           = (Ret (0, "TCP tweaks restored from backup"), w') ∧
         issued w' = issued w ++ backup_queries None w
                       ++ restore_cmds (backup_data None w)) ∧
  (∀ backup w',
     Lite.apply_tcp_tweaks false backup w
       = (Ret (0, "TCP tweaks restored from backup"), w') →
     backup = true ∧ file_exists (after_backup None w) = true).
Proof.
  intros Hwin Hmiss.
  assert (Hwb : windows (after_backup None w) = true).
  { unfold after_backup, add_log, set_file; simpl.
    by rewrite record_all_fields. }
  split_and!.
  - rewrite apply_tcp_tweaks_eq by done. cbv zeta.
    unfold after_capture, restorable, after_attempt, file_exists.
    by rewrite Hmiss.
  - intros msg Hhead. rewrite apply_tcp_tweaks_eq by done. cbv zeta.
    unfold after_capture.
    assert (Hfile : backup_file (after_backup None w) = Missing).
    { unfold after_backup, backup_outcome. by rewrite Hhead. }
    unfold restorable, after_attempt, file_exists. by rewrite Hfile.
  - intros Hio1 Hio2. rewrite apply_tcp_tweaks_eq by done. cbv zeta.
    unfold after_capture.
    assert (Hfile : backup_file (after_backup None w)
                    = Holds (backup_data None w)).
    { unfold after_backup, backup_outcome. by destruct Hio1 as [-> | ->]. }
    assert (Hsc : io_script (after_backup None w) = tail (io_script w)).
    { done. }
    assert (Hread : read_outcome (after_backup None w)
                    = inr (backup_data None w)).
    { unfold read_outcome. rewrite Hsc, Hfile. by destruct Hio2 as [-> | ->]. }
    assert (Hres : restorable (after_backup None w) = true).
    { unfold restorable. by rewrite Hfile, Hread. }
    rewrite Hres. eexists. split; [reflexivity|].
    rewrite issued_after_restore, Hres, Hread.
    unfold after_backup. rewrite issued_add_log, issued_set_file.
    by rewrite issued_record_all, <- app_assoc.
  - intros backup w' Happ. rewrite apply_tcp_tweaks_eq in Happ by done.
    cbv zeta in Happ. destruct backup.
    + split; [done|]. unfold after_capture in Happ.
      destruct (restorable (after_backup None w)) eqn:Hres; [|done].
      by apply restorable_exists.
    + unfold after_capture, restorable in Happ. by rewrite Hmiss in Happ.
Qed.

Lemma tcp_off_fallback_witness :
  windows fresh_host = true ∧ backup_file fresh_host = Missing ∧
  Lite.apply_tcp_tweaks false false fresh_host
    = (Ret (0, "TCP tweaks applied"),
       record_all Lite.tcp_off_cmds fresh_host).
Proof.
  split; [reflexivity|]. split; [reflexivity|].
  apply (tcp_off_fallback fresh_host); reflexivity.
Defined.

(** C6 as stated fails for the default [backup=True]: on a host without a
    snapshot the call takes one, restores from it and issues none of the
    hardcoded defaults that differ from the captured state. *)
Lemma tcp_off_default_call_restores :
  backup_file fresh_host = Missing ∧
  fst (Lite.apply_tcp_tweaks false true fresh_host)
    = Ret (0, "TCP tweaks restored from backup") ∧
  issued (snd (Lite.apply_tcp_tweaks false true fresh_host))
    = [ "netsh interface tcp show global";
        "netsh interface ipv4 show dns name=" +:+ dq +:+ "Ethernet" +:+ dq;
        "powercfg /getactivescheme";
        "netsh interface tcp set global autotuninglevel=normal";
        "netsh interface tcp set global ecncapability=disabled";
        "netsh interface tcp set global rss=enabled";
        "netsh interface tcp set global chimney=disabled";
        "netsh interface tcp set global congestionprovider=none";
        "netsh interface tcp set global timestamps=disabled";
        "netsh interface ipv4 set dns name=" +:+ dq +:+ "Ethernet" +:+ dq
          +:+ " source=dhcp";
        "powercfg /setactive 381b4222-f694-41f0-9685-ff5bb260df2e" ] ∧
  "netsh interface tcp set global ecncapability=default"
    ∉ issued (snd (Lite.apply_tcp_tweaks false true fresh_host)).
Proof.
  vm_compute.
  split_and!; try reflexivity.
  intros Hin. repeat (apply elem_of_cons in Hin as [Hin|Hin]; [discriminate|]).
  by apply elem_of_nil in Hin.
Qed.

(** ** The shape of the TCP record *)

Lemma dns_entry_cmds_not_tcp iface info :
  Forall (fun c => is_tcp_cmd c = false) (dns_entry_cmds iface info).
Proof.
  unfold dns_entry_cmds. destruct (dhcp info); [by repeat constructor|].
  destruct (servers info) as [|s0 others]; [constructor|].
  constructor; [done|]. apply Forall_forall. intros c Hc.
  apply elem_of_lookup_imap in Hc as (i & s & -> & _). done.
Qed.

Lemma dns_restore_cmds_not_tcp d :
  Forall (fun c => is_tcp_cmd c = false) (dns_restore_cmds d).
Proof.
  unfold dns_restore_cmds. induction d as [|[iface info] d IH]; [constructor|].
  cbn [mbind list_bind fst snd]. apply Forall_app. split; [|exact IH].
  destruct (Py.truthy iface); [apply dns_entry_cmds_not_tcp|constructor].
Qed.

Lemma power_restore_cmds_not_tcp p :
  Forall (fun c => is_tcp_cmd c = false) (power_restore_cmds p).
Proof.
  unfold power_restore_cmds. destruct (Py.otruthy p); by repeat constructor.
Qed.

Lemma readable_outcome w d :
  readable w d → read_outcome w = inr d ∧ restorable w = true.
Proof.
  intros [Hfile Hio]. unfold restorable, read_outcome. rewrite Hfile.
  by destruct Hio as [-> | ->].
Qed.

(** The restore engine on a readable snapshot: it succeeds and issues the
    commands of the snapshot, the TCP fields first, then the DNS entries,
    then the power scheme. *)
Lemma restore_readable w d :
  readable w d →
  ∃ w', Lite.restore_from_backup w = (Ret true, w') ∧
        issued w' = issued w ++ tcp_restore_cmds (tcp_globals d)
                      ++ dns_restore_cmds (dns d)
                      ++ power_restore_cmds (power d) ∧
        backup_file w' = backup_file w ∧
        io_script w' = tail (io_script w) ∧
        windows w' = windows w ∧ shell w' = shell w.
Proof.
  intros Hr. pose proof Hr as [Hfile _].
  apply readable_outcome in Hr as [Hread Hres].
  rewrite restore_from_backup_eq, Hres. eexists. split; [reflexivity|].
  split; [by rewrite issued_after_restore, Hres, Hread|].
  unfold after_restore. rewrite Hfile, Hread. unfold add_log; simpl.
  by rewrite record_all_fields.
Qed.

(** C10, the failed query.  On Windows, when the query of the TCP globals
    fails (a code other than 0, or no output), [get_tcp_globals] returns
    the empty record, with no key at all; when the query is usable and
    no pattern matches, it returns the six keys, each absent.  The snapshot
    a capture writes after a failed query has an empty TCP record, and the
    restore of a readable snapshot with an empty TCP record succeeds and
    issues DNS and power commands only, no TCP command. *)
Theorem failed_query_empty_record :
  (∀ w,
     windows w = true →
     fst (lite_outcome (shell w (issued w) show_global_cmd 8)) ≠ 0 ∨
     snd (lite_outcome (shell w (issued w) show_global_cmd 8)) = EmptyString →
     Lite.get_tcp_globals w = (Ret [], record_cmd show_global_cmd w) ∧
     ∀ iface, tcp_globals (backup_data iface w) = []) ∧
  (∀ out,
     (∀ kp, kp ∈ Lite.patterns →
        Re.search true (snd kp) (Py.join_lines (Py.splitlines out)) = None) →
     Lite.parse_tcp_globals out = all_absent ∧ all_absent ≠ []) ∧
  (∀ w d,
     readable w d → tcp_globals d = [] →
     ∃ w' cmds,
       Lite.restore_from_backup w = (Ret true, w') ∧
       issued w' = issued w ++ cmds ∧
       cmds = dns_restore_cmds (dns d) ++ power_restore_cmds (power d) ∧
       Forall (fun c => is_tcp_cmd c = false) cmds).
Proof.
  split_and!.
  - intros w Hwin Hfail.
    assert (Hus : usable (lite_outcome (shell w (issued w) show_global_cmd 8))
                  = false).
    { unfold usable. destruct (lite_outcome _) as [code out]; simpl in *.
      destruct Hfail as [Hc | ->].
      - apply Z.eqb_neq in Hc. by rewrite Hc.
      - by rewrite orb_true_r. }
    assert (Htcp : tcp_of w = []).
    { unfold tcp_of. by rewrite Hwin, Hus. }
    split.
    + rewrite get_tcp_globals_eq, Htcp. unfold query. by rewrite Hwin.
    + intros iface. exact Htcp.
  - intros out Hmiss. split; [|done].
    unfold Lite.parse_tcp_globals.
    set (text := Py.join_lines (Py.splitlines out)) in *.
    assert (Hfield : ∀ vals kp, kp ∈ Lite.patterns →
              Lite.probe_field text vals kp = dict_set (fst kp) None vals).
    { intros vals kp Hkp. unfold Lite.probe_field. by rewrite Hmiss. }
    unfold Lite.patterns in *. cbn [fold_left].
    rewrite !Hfield by (repeat constructor). reflexivity.
  - intros w d Hr Htcp.
    destruct (restore_readable w d Hr) as (w' & Heq & Hiss & _).
    exists w', (dns_restore_cmds (dns d) ++ power_restore_cmds (power d)).
    split; [done|]. rewrite Hiss, Htcp. split; [done|]. split; [done|].
    apply Forall_app. split.
    + apply dns_restore_cmds_not_tcp.
    + apply power_restore_cmds_not_tcp.
Qed.

Lemma failed_query_empty_record_witness :
  (windows denied_host = true ∧
   Lite.get_tcp_globals denied_host
     = (Ret [], record_cmd show_global_cmd denied_host)) ∧
  Lite.parse_tcp_globals "The syntax supplied for this command is not valid."
    = all_absent ∧
  ∃ w', Lite.restore_from_backup (after_backup None denied_host)
          = (Ret true, w') ∧
        Forall (fun c => is_tcp_cmd c = false)
          (drop (length (issued (after_backup None denied_host))) (issued w')).
Proof.
  destruct failed_query_empty_record as (Hq & Hp & Hr).
  split_and!.
  - reflexivity.
  - apply (Hq denied_host); [reflexivity|]. left. vm_compute. discriminate.
  - apply Hp. intros kp Hkp.
    repeat (apply elem_of_cons in Hkp as [-> | Hkp]; [vm_compute; reflexivity|]).
    by apply elem_of_nil in Hkp.
  - destruct (Hr (after_backup None denied_host)
                (backup_data None denied_host))
      as (w' & cmds & Heq & Hiss & _ & Hall).
    + split; [reflexivity|]. left. reflexivity.
    + apply (Hq denied_host); [reflexivity|]. left. vm_compute. discriminate.
    + exists w'. split; [exact Heq|].
      rewrite Hiss, drop_app_length. exact Hall.
Defined.

(** ** The DNS mode *)

Lemma dns_name_truthy iface : Py.truthy (dns_name iface) = true.
Proof. unfold dns_name. by destruct iface. Qed.

Lemma dict_get_head {V} k (v : V) d : dict_get k ((k, v) :: d) = Some v.
Proof. simpl. by rewrite String.eqb_refl. Qed.

Lemma windows_after_backup iface w :
  windows (after_backup iface w) = windows w.
Proof.
  unfold after_backup, add_log, set_file; simpl. by rewrite record_all_fields.
Qed.

Lemma shell_after_backup iface w : shell (after_backup iface w) = shell w.
Proof.
  unfold after_backup, add_log, set_file; simpl. by rewrite record_all_fields.
Qed.

Lemma issued_after_backup iface w :
  issued (after_backup iface w) = issued w ++ backup_queries iface w.
Proof.
  unfold after_backup. by rewrite issued_add_log, issued_set_file,
    issued_record_all.
Qed.

(** A capture whose write is sound leaves a snapshot that the next sound
    access reads. *)
Lemma backup_readable iface w :
  head (io_script w) = None ∨ head (io_script w) = Some IoOk →
  head (tail (io_script w)) = None ∨ head (tail (io_script w)) = Some IoOk →
  Lite.backup_settings iface w = (Ret true, after_backup iface w) ∧
  readable (after_backup iface w) (backup_data iface w).
Proof.
  intros Hio1 Hio2. rewrite backup_settings_eq. unfold readable.
  unfold after_backup, backup_outcome. cbn [add_log set_file backup_file io_script].
  by destruct Hio1 as [-> | ->].
Qed.

(** The off path of [apply_dns_mode] after a sound capture: the entry just
    captured for the interface is restored, then the cache is flushed. *)
Lemma apply_dns_mode_off iface w :
  windows w = true →
  head (io_script w) = None ∨ head (io_script w) = Some IoOk →
  head (tail (io_script w)) = None ∨ head (tail (io_script w)) = Some IoOk →
  ∃ w' info,
    Lite.apply_dns_mode false iface w
      = (Ret (0, "DNS restored from backup"), w') ∧
    dns (backup_data (Some (dns_name iface)) w) = [(dns_name iface, info)] ∧
    issued w' = issued w ++ backup_queries (Some (dns_name iface)) w
                  ++ dns_entry_cmds (dns_name iface) info
                  ++ ["netsh ipconfig /flushdns"].
Proof.
  intros Hwin Hio1 Hio2. unfold Lite.apply_dns_mode.
  erewrite bind_eq by reflexivity. rewrite Hwin. cbn [negb]. cbv zeta.
  fold (dns_name iface). set (name := dns_name iface).
  destruct (backup_readable (Some name) w Hio1 Hio2) as [Hb Hr].
  set (wb := after_backup (Some name) w) in *.
  set (d := backup_data (Some name) w) in *.
  pose proof Hr as [Hfile _]. apply readable_outcome in Hr as [Hread _].
  assert (Hname : backup_iface (Some name) w = name).
  { unfold backup_iface. cbn [Py.otruthy]. subst name.
    by rewrite dns_name_truthy. }
  assert (Hdns : dns d = [(name, snd (default (name, mkDns false [])
                                         (head (dns d))))]).
  { subst d. unfold backup_data. cbn [dns]. by rewrite Hname. }
  eexists _, _. split; [|split; [exact Hdns|]].
  - eapply try_ret.
    erewrite bind_eq by apply Hb.
    erewrite bind_eq by (unfold backup_exists; rewrite Hfile; reflexivity).
    erewrite bind_eq
      by (erewrite bind_eq by (rewrite read_backup_eq, Hread; reflexivity);
          rewrite Hdns, dict_get_head; apply mret_eq).
    cbv beta iota.
    erewrite bind_eq by apply restore_dns_entry_eq.
    erewrite bind_eq by apply run_netsh_eq. reflexivity.
  - change (netsh_full "ipconfig /flushdns") with "netsh ipconfig /flushdns".
    cbn [record_cmd issued]. rewrite issued_record_all, issued_set_file.
    subst wb. rewrite issued_after_backup. by rewrite <- !app_assoc.
Qed.

(** C2, the order of the DNS restore.  The restore of a readable snapshot
    succeeds, and for every DNS entry of the snapshot whose interface name
    is not empty it issues, after the commands of what precedes the entry
    and before those of what follows: the single [source=dhcp] command
    when the entry has [dhcp=true], whatever its servers; otherwise, when
    the server list is not empty, the static-primary command of the first
    server and then one add command for each further server, in list
    order, at index 2, 3, 4 and so on.  For the servers 8.8.8.8, 8.8.4.4
    and 1.1.1.1 that is set-primary 8.8.8.8, add 8.8.4.4 at index 2, add
    1.1.1.1 at index 3.  The off path of [apply_dns_mode] issues the same
    commands for the entry it captured. *)
Theorem dns_restore_order :
  (∀ w d pre iface info post,
     readable w d → dns d = pre ++ (iface, info) :: post →
     iface ≠ EmptyString →
     ∃ w' before after,
       Lite.restore_from_backup w = (Ret true, w') ∧
       issued w' = issued w ++ before
         ++ (if dhcp info then [Lite.dns_dhcp_cmd iface]
             else match servers info with
                  | [] => []
                  | s0 :: others =>
                      Lite.dns_static_cmd iface s0
                        :: imap (fun i s =>
                                   Lite.dns_add_cmd iface s (2 + Z.of_nat i))
                             others
                  end)
         ++ after ∧
       before = tcp_restore_cmds (tcp_globals d) ++ dns_restore_cmds pre ∧
       after = dns_restore_cmds post ++ power_restore_cmds (power d)) ∧
  (∃ w', Lite.restore_from_backup static_host = (Ret true, w') ∧
         issued w' =
           [ "netsh interface ipv4 set dns name=" +:+ dq +:+ "Ethernet" +:+ dq
               +:+ " static 8.8.8.8 primary";
             "netsh interface ipv4 add dns name=" +:+ dq +:+ "Ethernet" +:+ dq
               +:+ " 8.8.4.4 index=2";
             "netsh interface ipv4 add dns name=" +:+ dq +:+ "Ethernet" +:+ dq
               +:+ " 1.1.1.1 index=3" ]) ∧
  (∀ w iface,
     windows w = true →
     head (io_script w) = None ∨ head (io_script w) = Some IoOk →
     head (tail (io_script w)) = None ∨ head (tail (io_script w)) = Some IoOk →
     ∃ w' info,
       Lite.apply_dns_mode false iface w
         = (Ret (0, "DNS restored from backup"), w') ∧
       dns (backup_data (Some (dns_name iface)) w) = [(dns_name iface, info)] ∧
       issued w' = issued w ++ backup_queries (Some (dns_name iface)) w
         ++ (if dhcp info then [Lite.dns_dhcp_cmd (dns_name iface)]
             else match servers info with
                  | [] => []
                  | s0 :: others =>
                      Lite.dns_static_cmd (dns_name iface) s0
                        :: imap (fun i s =>
                                   Lite.dns_add_cmd (dns_name iface) s
                                     (2 + Z.of_nat i))
                             others
                  end)
         ++ ["netsh ipconfig /flushdns"]).
Proof.
  split_and!.
  - intros w d pre iface info post Hr Hdns Hne.
    destruct (restore_readable w d Hr) as (w' & Heq & Hiss & _).
    exists w', (tcp_restore_cmds (tcp_globals d) ++ dns_restore_cmds pre),
      (dns_restore_cmds post ++ power_restore_cmds (power d)).
    split; [done|]. split; [|done].
    rewrite Hiss, Hdns. unfold dns_restore_cmds.
    rewrite bind_app, bind_cons. cbn [fst snd].
    assert (Py.truthy iface = true) as -> by (by destruct iface).
    fold (dns_entry_cmds iface info). by rewrite <- !app_assoc.
  - eexists. split; reflexivity.
  - intros w iface Hwin Hio1 Hio2.
    destruct (apply_dns_mode_off iface w Hwin Hio1 Hio2)
      as (w' & info & Heq & Hd & Hiss).
    by exists w', info.
Qed.

Lemma dns_restore_order_witness :
  windows fresh_host = true ∧
  readable static_host
    (mkSnapshot []
       [("Ethernet", mkDns false ["8.8.8.8"; "8.8.4.4"; "1.1.1.1"])]
       None None) ∧
  (∃ w' before after,
     Lite.restore_from_backup static_host = (Ret true, w') ∧
     issued w' = issued static_host ++ before
       ++ Lite.dns_static_cmd "Ethernet" "8.8.8.8"
            :: imap (fun i s => Lite.dns_add_cmd "Ethernet" s (2 + Z.of_nat i))
                 ["8.8.4.4"; "1.1.1.1"]
       ++ after ∧
     before = [] ∧ after = []) ∧
  ∃ w' info,
    Lite.apply_dns_mode false "Wi-Fi" fresh_host
      = (Ret (0, "DNS restored from backup"), w') ∧
    dns (backup_data (Some "Wi-Fi") fresh_host) = [("Wi-Fi", info)] ∧
    dhcp info = true.
Proof.
  destruct dns_restore_order as (Hrestore & _ & Hmode).
  split; [reflexivity|].
  assert (Hr : readable static_host
                 (mkSnapshot []
                    [("Ethernet", mkDns false ["8.8.8.8"; "8.8.4.4"; "1.1.1.1"])]
                    None None)) by (split; [reflexivity|by left]).
  split; [exact Hr|]. split.
  - destruct (Hrestore static_host _ [] "Ethernet"
                (mkDns false ["8.8.8.8"; "8.8.4.4"; "1.1.1.1"]) [] Hr eq_refl)
      as (w' & before & after & Heq & Hiss & -> & ->); [done|].
    by exists w', [], [].
  - destruct (Hmode fresh_host "Wi-Fi" eq_refl) as (w' & info & Heq & Hd & _);
      [by left|by left|].
    exists w', info. split; [done|]. split; [done|].
    vm_compute in Hd. by injection Hd as <-.
Defined.

(** C2 as stated fails for an entry kept under the empty interface name,
    which [backup_settings] writes when [iface_var] is empty: the restore
    skips it and issues no DNS command, although the entry has
    [dhcp=false] and two servers. *)
Lemma dns_entry_without_name_skipped :
  dns (backup_data None unnamed_host)
    = [(EmptyString, mkDns false ["8.8.8.8"; "8.8.4.4"])] ∧
  fst (Lite.restore_from_backup (after_backup None unnamed_host)) = Ret true ∧
  drop (length (issued (after_backup None unnamed_host)))
    (issued (snd (Lite.restore_from_backup (after_backup None unnamed_host))))
    = [ "netsh interface tcp set global autotuninglevel=normal";
        "netsh interface tcp set global ecncapability=disabled";
        "netsh interface tcp set global rss=enabled";
        "netsh interface tcp set global chimney=disabled";
        "netsh interface tcp set global congestionprovider=none";
        "netsh interface tcp set global timestamps=disabled";
        "powercfg /setactive 381b4222-f694-41f0-9685-ff5bb260df2e" ].
Proof. vm_compute. split_and!; reflexivity. Qed.

(** ** The records the probe produces *)

Lemma dict_set_fresh {V} k (v : V) (d : list (string * V)) :
  k ∉ fst <$> d → dict_set k v d = d ++ [(k, v)].
Proof.
  induction d as [|[k' v'] d IH]; intros Hk; [done|].
  cbn [dict_set]. apply not_elem_of_cons in Hk as [Hne Hk].
  destruct (String.eqb k k') eqn:E.
  - apply String.eqb_eq in E. done.
  - cbn [app]. f_equal. by apply IH.
Qed.

Lemma probe_field_entry text vals kp :
  fst kp ∉ fst <$> vals →
  Lite.probe_field text vals kp = vals ++ option_list (entry_of text kp).
Proof.
  intros Hk. unfold Lite.probe_field, entry_of, field_of.
  destruct (Re.search true (snd kp) text) as [gs|]; cbn.
  - destruct (Lite.first_value (tail gs)) as [v|]; cbn.
    + by apply dict_set_fresh.
    + by rewrite app_nil_r.
  - by apply dict_set_fresh.
Qed.

Lemma entry_of_key text kp e : entry_of text kp = Some e → fst e = fst kp.
Proof.
  unfold entry_of. destruct (field_of text (snd kp)); [|done].
  by intros [= <-].
Qed.

Lemma omap_entry_keys text (ps : list (string * Re.regex)) (k : string) :
  k ∈ fst <$> omap (entry_of text) ps → k ∈ fst <$> ps.
Proof.
  induction ps as [|kp ps IH]; [done|]. cbn [omap list_omap].
  destruct (entry_of text kp) as [e|] eqn:He.
  - rewrite !fmap_cons. intros [->|Hin]%elem_of_cons.
    + apply elem_of_cons. left. by eapply entry_of_key.
    + apply elem_of_cons. right. by apply IH.
  - intros Hin. rewrite fmap_cons. apply elem_of_cons. right. by apply IH.
Qed.

Lemma fold_probe_field text (ps : list (string * Re.regex)) acc :
  NoDup (fst <$> ps) →
  (∀ k, k ∈ fst <$> ps → k ∉ fst <$> acc) →
  fold_left (Lite.probe_field text) ps acc = acc ++ omap (entry_of text) ps.
Proof.
  revert acc. induction ps as [|kp ps IH]; intros acc Hnd Hdisj.
  { by rewrite app_nil_r. }
  rewrite fmap_cons in Hnd. apply NoDup_cons in Hnd as [Hkp Hnd].
  cbn [fold_left omap list_omap].
  rewrite probe_field_entry by (apply Hdisj; rewrite fmap_cons; by left).
  rewrite IH; [|done|].
  - rewrite <- app_assoc. f_equal. by destruct (entry_of text kp).
  - intros k Hk. rewrite fmap_app, elem_of_app. intros [Hin|Hin].
    + eapply Hdisj; [|exact Hin]. rewrite fmap_cons. by right.
    + destruct (entry_of text kp) as [e|] eqn:He; cbn in Hin.
      * apply list_elem_of_singleton in Hin.
        apply entry_of_key in He. congruence.
      * by apply elem_of_nil in Hin.
Qed.

(** The record of the probe, pattern by pattern. *)
Lemma parse_tcp_globals_entries out :
  Lite.parse_tcp_globals out
    = omap (entry_of (Py.join_lines (Py.splitlines out))) Lite.patterns.
Proof.
  unfold Lite.parse_tcp_globals. cbv zeta.
  rewrite fold_probe_field; [done| |].
  - apply (bool_decide_unpack _). by vm_compute.
  - intros k _ Hin. by apply elem_of_nil in Hin.
Qed.

Lemma first_value_truthy gs v :
  Lite.first_value gs = Some v → Py.truthy v = true.
Proof.
  induction gs as [|g gs IH]; [done|]. cbn [Lite.first_value].
  destruct (Py.otruthy g && Py.truthy (Py.strip (default EmptyString g)))
    eqn:E; [|done].
  intros [= <-]. by apply andb_prop in E as [_ E].
Qed.

Lemma NoDup_omap_entries text (ps : list (string * Re.regex)) :
  NoDup (fst <$> ps) → NoDup (fst <$> omap (entry_of text) ps).
Proof.
  induction ps as [|kp ps IH]; [done|]. rewrite fmap_cons.
  intros [Hkp Hnd]%NoDup_cons. cbn [omap list_omap].
  destruct (entry_of text kp) as [e|] eqn:He; [|by apply IH].
  rewrite fmap_cons. apply NoDup_cons. split; [|by apply IH].
  intros Hin%omap_entry_keys. apply entry_of_key in He. congruence.
Qed.

Lemma parse_tcp_globals_probed out : probed (Lite.parse_tcp_globals out).
Proof.
  rewrite parse_tcp_globals_entries.
  set (text := Py.join_lines (Py.splitlines out)). split.
  - apply NoDup_omap_entries. apply (bool_decide_unpack _). by vm_compute.
  - apply Forall_forall. intros [k o] Hin.
    apply list_elem_of_omap in Hin as (kp & Hkp & He).
    pose proof (entry_of_key _ _ _ He) as Hk. cbn in Hk. split.
    + cbn. rewrite Hk. unfold Lite.patterns, tcp_keys in *.
      repeat (apply elem_of_cons in Hkp as [-> | Hkp];
              [apply (bool_decide_unpack _); by vm_compute|]).
      by apply elem_of_nil in Hkp.
    + intros v Hv. cbn in Hv. subst o. unfold entry_of, field_of in He.
      destruct (Re.search true (snd kp) text) as [gs|]; [|done].
      destruct (Lite.first_value (tail gs)) as [v'|] eqn:Hfv; [|done].
      cbn in He. injection He as _ <-. by eapply first_value_truthy.
Qed.

Lemma tcp_of_probed w : probed (tcp_of w).
Proof.
  unfold tcp_of. destruct (windows w); [|by split; constructor].
  destruct (usable _); [apply parse_tcp_globals_probed|by split; constructor].
Qed.

Lemma tcp_restore_cmd_replay kv :
  fst kv ∈ tcp_keys → (∀ v, snd kv = Some v → Py.truthy v = true) →
  tcp_restore_cmd kv = replay kv.
Proof.
  destruct kv as [k [v|]]; cbn [fst snd]; intros Hk Hv; [|done].
  unfold tcp_restore_cmd, replay. cbn [fst snd Py.otruthy].
  rewrite (Hv v eq_refl). unfold tcp_keys in Hk.
  repeat (apply elem_of_cons in Hk as [-> | Hk];
          [cbn; by rewrite ?(Hv v eq_refl)|]).
  by apply elem_of_nil in Hk.
Qed.

Lemma tcp_restore_cmds_replay r :
  probed r → tcp_restore_cmds r = omap replay r.
Proof.
  intros [_ Hall]. unfold tcp_restore_cmds.
  induction Hall as [|kv r [Hk Hv] Hall IH]; [done|].
  cbn [omap list_omap]. rewrite tcp_restore_cmd_replay by done.
  by rewrite IH.
Qed.

Lemma dict_get_notin {V} k (d : list (string * V)) :
  k ∉ fst <$> d → dict_get k d = None.
Proof.
  induction d as [|[k' v] d IH]; [done|]. rewrite fmap_cons.
  intros [Hne Hk]%not_elem_of_cons. cbn [dict_get].
  destruct (String.eqb k k') eqn:E; [|by apply IH].
  by apply String.eqb_eq in E.
Qed.

Lemma dict_get_omap_entries text (ps : list (string * Re.regex)) kp :
  NoDup (fst <$> ps) → kp ∈ ps →
  dict_get (fst kp) (omap (entry_of text) ps)
    = match field_of text (snd kp) with Some o => Some o | None => None end.
Proof.
  induction ps as [|kp' ps IH]; [by intros _ ?%elem_of_nil|].
  rewrite fmap_cons. intros [Hfresh Hnd]%NoDup_cons [->|Hin]%elem_of_cons.
  - cbn [omap list_omap]. unfold entry_of at 1.
    destruct (field_of text (snd kp')) as [o|]; cbn.
    + by rewrite String.eqb_refl.
    + apply dict_get_notin. intros Hk%omap_entry_keys. done.
  - cbn [omap list_omap].
    assert (Hne : fst kp ≠ fst kp').
    { intros Heq. apply Hfresh. rewrite <- Heq. by apply list_elem_of_fmap_2. }
    destruct (entry_of text kp') as [e|] eqn:He; [|by apply IH].
    destruct e as [k' o']. apply entry_of_key in He as Hk. cbn in Hk. subst k'.
    cbn [dict_get]. apply String.eqb_neq in Hne. rewrite Hne. by apply IH.
Qed.

(** A record of the probe with every field present lists the six
    parameters in the order of the probe. *)
Lemma parse_all_present out :
  all_present (Lite.parse_tcp_globals out) →
  Lite.parse_tcp_globals out
    = (fun k => (k, Some (captured (Lite.parse_tcp_globals out) k)))
        <$> tcp_keys.
Proof.
  intros Hall. set (r := Lite.parse_tcp_globals out) in *.
  set (text := Py.join_lines (Py.splitlines out)).
  assert (Hr : r = omap (entry_of text) Lite.patterns)
    by apply parse_tcp_globals_entries.
  assert (Hnd : NoDup (fst <$> Lite.patterns))
    by (apply (bool_decide_unpack _); by vm_compute).
  assert (Hfield : ∀ kp, kp ∈ Lite.patterns →
            field_of text (snd kp) = Some (Some (captured r (fst kp)))).
  { intros kp Hkp.
    destruct (Hall (fst kp)) as [v Hv].
    { unfold Lite.patterns, tcp_keys in *.
      repeat (apply elem_of_cons in Hkp as [-> | Hkp];
              [apply (bool_decide_unpack _); by vm_compute|]).
      by apply elem_of_nil in Hkp. }
    unfold captured. rewrite Hv. cbn.
    rewrite Hr, (dict_get_omap_entries text _ kp Hnd Hkp) in Hv.
    by destruct (field_of text (snd kp)) as [o|]; simplify_eq. }
  rewrite Hr at 1. unfold Lite.patterns in *. cbn [omap list_omap].
  unfold entry_of.
  rewrite !Hfield by (repeat constructor).
  reflexivity.
Qed.

Lemma dict_get_elem {V} k (o : V) (d : list (string * V)) :
  NoDup (fst <$> d) → (k, o) ∈ d → dict_get k d = Some o.
Proof.
  induction d as [|[k' o'] d IH]; [by intros _ ?%elem_of_nil|].
  rewrite fmap_cons. intros [Hfresh Hnd]%NoDup_cons [[= -> ->]|Hin]%elem_of_cons.
  - apply dict_get_head.
  - cbn [dict_get]. destruct (String.eqb k k') eqn:E; [|by apply IH].
    apply String.eqb_eq in E as ->. destruct Hfresh.
    by apply (list_elem_of_fmap_2 fst _ (k', o)).
Qed.

(** Two set commands of the six parameters are equal only for the same
    parameter. *)
Lemma set_global_key k k' v v' :
  k ∈ tcp_keys → k' ∈ tcp_keys →
  Lite.set_global k v = Lite.set_global k' v' → k = k'.
Proof.
  unfold tcp_keys. intros Hk Hk'.
  repeat (apply elem_of_cons in Hk as [-> | Hk]);
    try (by apply elem_of_nil in Hk);
    repeat (apply elem_of_cons in Hk' as [-> | Hk']);
    try (by apply elem_of_nil in Hk');
    try reflexivity; intros Heq; exfalso; vm_compute in Heq; congruence.
Qed.

(** No command is replayed for a parameter that is absent from a probed
    record. *)
Lemma absent_not_replayed r k v :
  probed r → k ∈ tcp_keys →
  dict_get k r = Some None ∨ dict_get k r = None →
  Lite.set_global k v ∉ omap replay r.
Proof.
  intros [Hnd Hall] Hk Habs Hin.
  apply list_elem_of_omap in Hin as ([k' o] & Hin & Hrep).
  rewrite Forall_forall in Hall. destruct (Hall _ Hin) as [Hk' _].
  unfold replay in Hrep. cbn in *. destruct o as [v'|]; [|done].
  apply (inj Some) in Hrep. apply set_global_key in Hrep as ->; [|done..].
  rewrite (dict_get_elem _ _ _ Hnd Hin) in Habs. by destruct Habs.
Qed.

(** ** Partial records *)

(** Each field is probed on its own: the entry of a key in the record
    depends on the match of its own pattern only. *)
Lemma fields_probed_independently out kp :
  kp ∈ Lite.patterns →
  dict_get (fst kp) (Lite.parse_tcp_globals out)
    = match field_of (Py.join_lines (Py.splitlines out)) (snd kp) with
      | Some o => Some o
      | None => None
      end.
Proof.
  intros Hkp. rewrite parse_tcp_globals_entries.
  apply dict_get_omap_entries; [|done].
  apply (bool_decide_unpack _). by vm_compute.
Qed.

(** A pattern that does not match leaves its own field absent and no
    other field out. *)
Lemma missing_line_tolerated out kp :
  kp ∈ Lite.patterns →
  Re.search true (snd kp) (Py.join_lines (Py.splitlines out)) = None →
  dict_get (fst kp) (Lite.parse_tcp_globals out) = Some None.
Proof.
  intros Hkp Hmiss. rewrite fields_probed_independently by done.
  unfold field_of. by rewrite Hmiss.
Qed.

(** C4 at its failing input.  The ECN line is missing and the other five
    patterns match, the one of [rss] through its short phrasing.  The
    record has [ecncapability] absent and the other five fields present,
    but the value of [rss] is the whole of group 3, label and colon
    included, not the value in group 4: the loop stops at the first group
    that is not empty, while its comment asks for the last.  The restore
    then replays that text as the value. *)
Theorem short_phrasing_keeps_label :
  Re.search true (Lite.labelled "ECN Capability") short_phrasing_text = None ∧
  Re.search true (Re.Alt (Lite.labelled "Receive-Side Scaling State")
                    (Lite.short "rss")) short_phrasing_text
    = Some [None; None;
            Some "RSS                                 : enabled";
            Some "enabled"] ∧
  fst (Lite.get_tcp_globals short_phrasing_host)
    = Ret [ ("autotuninglevel", Some "normal");
            ("ecncapability", None);
            ("rss", Some "RSS                                 : enabled");
            ("chimney", Some "disabled");
            ("congestionprovider", Some "none");
            ("timestamps", Some "disabled") ] ∧
  tcp_restore_cmds (tcp_of short_phrasing_host)
    = [ "netsh interface tcp set global autotuninglevel=normal";
        "netsh interface tcp set global rss=RSS                                 : enabled";
        "netsh interface tcp set global chimney=disabled";
        "netsh interface tcp set global congestionprovider=none";
        "netsh interface tcp set global timestamps=disabled" ].
Proof. vm_compute. split_and!; reflexivity. Qed.

(** ** The DNS benchmark *)

Lemma startswith_app p q s :
  Py.startswith (p +:+ q) s = true → Py.startswith p s = true.
Proof.
  revert s. induction p as [|a p IH]; intros s; [done|].
  change (String a p +:+ q) with (String a (p +:+ q)).
  destruct s as [|b s]; [done|]. cbn [Py.startswith].
  intros [-> H]%andb_prop. by rewrite (IH _ H).
Qed.

Lemma contains_app p q s :
  Py.contains (p +:+ q) s = true → Py.contains p s = true.
Proof.
  induction s as [|c s IH]; cbn [Py.contains].
  - rewrite !orb_false_r. apply startswith_app.
  - intros [H|H]%orb_prop.
    + by rewrite (startswith_app _ _ _ H).
    + rewrite (IH H). apply orb_true_r.
Qed.

Lemma scan_line_eq avg line :
  Premium.scan_line avg line
    = if Py.contains "Average" line then line_value line else avg.
Proof.
  unfold Premium.scan_line, line_value.
  destruct (Py.contains "Average" line) eqn:E; [by rewrite orb_true_r|].
  rewrite orb_false_r.
  destruct (Py.contains "Average =" line) eqn:E'; [|done].
  apply (contains_app "Average" " =") in E'. congruence.
Qed.

Lemma parse_average_unparseable out :
  unparseable out → Premium.parse_average out = None.
Proof.
  unfold unparseable, Premium.parse_average.
  generalize (Py.splitlines out). intros ls Hls.
  assert (H : ∀ acc, acc = None → fold_left Premium.scan_line ls acc = None);
    [|by apply H].
  induction ls as [|l ls IH]; intros acc ->; [done|]. cbn [fold_left].
  apply IH.
  - intros line Hin. apply Hls. by right.
  - rewrite scan_line_eq. destruct (Py.contains "Average" l) eqn:E; [|done].
    apply Hls; [by left|done].
Qed.

Lemma bench_loop_spec count timeout servers results w :
  ∃ results',
    Premium.bench_loop count timeout servers results w
      = (Ret results',
         record_all (Premium.bench_cmd count timeout <$> servers) w) ∧
    (∀ s, s ∈ servers → is_Some (results' !! s)) ∧
    (∀ s, s ∉ servers → results' !! s = results !! s) ∧
    (∀ s, s ∈ servers →
       (∀ hist, unparseable (report w hist count timeout s)) →
       results' !! s = Some None).
Proof.
  revert results w. induction servers as [|s0 servers IH]; intros results w.
  { exists results. split_and!; try done; by intros s ?%elem_of_nil. }
  cbn [Premium.bench_loop fmap list_fmap record_all fold_left].
  set (out := report w (issued w) count timeout s0).
  assert (Havg :
    try_except
      ('(code, out) ← Premium.run_cmd (Premium.bench_cmd count timeout s0) 10;
       mret (Premium.parse_average out))
      (fun _ => mret None) w
    = (Ret (Premium.parse_average out),
       record_cmd (Premium.bench_cmd count timeout s0) w)).
  { eapply try_ret. erewrite bind_eq by apply premium_run_cmd_eq.
    subst out. unfold report. by destruct (premium_outcome _). }
  erewrite bind_eq by apply Havg.
  destruct (IH (<[s0 := Premium.parse_average out]> results)
              (record_cmd (Premium.bench_cmd count timeout s0) w))
    as (results' & Heq & Hdom & Hout & Hnone).
  exists results'. split; [exact Heq|]. split_and!.
  - intros s [->|Hin]%elem_of_cons.
    + destruct (decide (s0 ∈ servers)) as [Hin|Hnin]; [by apply Hdom|].
      rewrite Hout by done. rewrite lookup_insert_eq. eauto.
    + by apply Hdom.
  - intros s [Hne Hnin]%not_elem_of_cons.
    rewrite Hout by done. by rewrite lookup_insert_ne.
  - intros s Hin Hun.
    destruct (decide (s ∈ servers)) as [Hin'|Hnin].
    + apply Hnone; [done|]. intros hist. apply Hun.
    + apply elem_of_cons in Hin as [->|Hin]; [|done].
      rewrite Hout by done. rewrite lookup_insert_eq. f_equal.
      apply parse_average_unparseable. apply Hun.
Qed.

(** The recording half of C9.  [dns_benchmark] returns a mapping that has
    an entry for every candidate server, and the entry of a server whose
    reports carry no parseable average is the undetermined latency
    [None]: the server is recorded, not left out. *)
Lemma dns_benchmark_records_undetermined servers timeout count w :
  ∃ results w',
    Premium.dns_benchmark servers timeout count w = (Ret results, w') ∧
    (∀ s, s ∈ servers → is_Some (results !! s)) ∧
    (∀ s, s ∈ servers →
       (∀ hist, unparseable (report w hist count timeout s)) →
       results !! s = Some None).
Proof.
  unfold Premium.dns_benchmark. destruct (windows w); cbn [negb].
  - destruct (bench_loop_spec count timeout servers ∅ w)
      as (results & Heq & Hdom & _ & Hnone).
    by exists results, (record_all (Premium.bench_cmd count timeout <$> servers) w).
  - eexists _, _. split; [reflexivity|].
    assert (H : ∀ (acc : gmap string (option Z)) s, s ∈ servers →
              foldl (fun r s => <[s := None]> r) acc servers !! s = Some None).
    { induction servers as [|s0 servers IH]; intros acc s Hin;
        [by apply elem_of_nil in Hin|].
      cbn [foldl]. destruct (decide (s ∈ servers)) as [Hin'|Hnin];
        [by apply IH|].
      apply elem_of_cons in Hin as [->|Hin]; [|done].
      clear IH. revert acc. induction servers as [|s1 servers IH]; intros acc.
      - apply lookup_insert_eq.
      - apply not_elem_of_cons in Hnin as [Hne Hnin]. cbn [foldl].
        rewrite insert_insert_ne by done. by apply IH. }
    split.
    + intros s Hin. rewrite H by done. eauto.
    + intros s Hin _. by apply H.
Qed.

(** ** Strings *)

Lemma sapp_nil_l s : EmptyString +:+ s = s.
Proof. reflexivity. Qed.

Lemma sapp_cons c s t : String c s +:+ t = String c (s +:+ t).
Proof. reflexivity. Qed.

Lemma sapp_nil_r s : s +:+ EmptyString = s.
Proof. induction s as [|c s IH]; [done|]. by rewrite sapp_cons, IH. Qed.

Lemma sapp_assoc s t u : (s +:+ t) +:+ u = s +:+ (t +:+ u).
Proof. induction s as [|c s IH]; [done|]. by rewrite !sapp_cons, IH. Qed.

Lemma length_sapp s t :
  String.length (s +:+ t) = (String.length s + String.length t)%nat.
Proof. induction s as [|c s IH]; [done|]. rewrite sapp_cons. simpl. lia. Qed.

Lemma last_char_some c s : is_Some (last_char (String c s)).
Proof.
  revert c. induction s as [|a s IH]; intros c; [by eexists|].
  change (last_char (String c (String a s))) with (last_char (String a s)).
  apply IH.
Qed.

Lemma prev_after_cons p c s :
  prev_after p (String c s) = prev_after (Some c) s.
Proof.
  unfold prev_after. destruct s as [|a s]; [done|].
  change (last_char (String c (String a s))) with (last_char (String a s)).
  by destruct (last_char_some a s) as [x ->].
Qed.

Lemma prev_after_nil p : prev_after p EmptyString = p.
Proof. done. Qed.

Lemma prev_after_app p s t :
  prev_after p (s +:+ t) = prev_after (prev_after p s) t.
Proof.
  revert p. induction s as [|c s IH]; intros p; [done|].
  by rewrite sapp_cons, !prev_after_cons, IH.
Qed.

Lemma take_sapp s t : Re.take (String.length s) (s +:+ t) = s.
Proof. induction s as [|c s IH]; [by destruct t|]. simpl. by rewrite IH. Qed.

Lemma consumed_sapp s t : Re.consumed (s +:+ t) t = s.
Proof.
  unfold Re.consumed. rewrite length_sapp.
  replace (String.length s + String.length t - String.length t)%nat
    with (String.length s) by lia.
  apply take_sapp.
Qed.

(** ** The matcher *)

(** A greedy repetition reads a run of characters of its class, of a
    length within its bounds. *)
Lemma reps_sound k lo hi p s p' s' :
  (p', s') ∈ Re.reps k lo hi p s →
  ∃ x, s = x +:+ s' ∧ all_in k x = true ∧ (lo ≤ String.length x)%nat ∧
       (∀ h, hi = Some h → (String.length x ≤ h)%nat) ∧
       p' = prev_after p x.
Proof.
  revert lo hi p. induction s as [|c s IH]; intros lo hi p.
  - cbn [Re.reps]. destruct lo; [|by intros ?%elem_of_nil].
    intros [= -> ->]%list_elem_of_singleton.
    exists EmptyString.
    split_and!; [done|done|simpl; lia|intros h _; simpl; lia|done].
  - cbn [Re.reps].
    assert (Hstop : (p', s') ∈ match lo with
                               | O => [(p, String c s)]
                               | S _ => []
                               end →
            ∃ x, String c s = x +:+ s' ∧ all_in k x = true ∧
                 (lo ≤ String.length x)%nat ∧
                 (∀ h, hi = Some h → (String.length x ≤ h)%nat) ∧
                 p' = prev_after p x).
    { destruct lo; [|by intros ?%elem_of_nil].
      intros [= -> ->]%list_elem_of_singleton.
      exists EmptyString.
      split_and!; [done|done|simpl; lia|intros h _; simpl; lia|done]. }
    destruct (Re.in_class k c && negb (bool_decide (hi = Some 0%nat))) eqn:E;
      [|exact Hstop].
    intros [Hin|Hin]%elem_of_app; [|by apply Hstop].
    apply andb_prop in E as [Hc Hhi].
    apply IH in Hin as (x & -> & Hall & Hlo & Hmax & ->).
    exists (String c x). rewrite sapp_cons. split; [done|].
    split; [by cbn; rewrite Hc|]. split; [simpl; lia|]. split.
    + intros h ->. destruct h as [|h].
      * by rewrite bool_decide_eq_true_2 in Hhi.
      * specialize (Hmax h eq_refl). simpl. lia.
    + by rewrite prev_after_cons.
Qed.

(** A run of characters of the class, of a length within the bounds, is
    among the repetitions the matcher tries. *)
Lemma reps_complete k lo hi p x s' :
  all_in k x = true → (lo ≤ String.length x)%nat →
  (∀ h, hi = Some h → (String.length x ≤ h)%nat) →
  (prev_after p x, s') ∈ Re.reps k lo hi p (x +:+ s').
Proof.
  revert lo hi p. induction x as [|c x IH]; intros lo hi p Hall Hlo Hhi.
  - rewrite sapp_nil_l, prev_after_nil. simpl in Hlo.
    assert (lo = 0%nat) as -> by lia.
    destruct s' as [|c s']; cbn [Re.reps]; [by left|].
    destruct (_ && _); [apply elem_of_app; right|]; by left.
  - rewrite sapp_cons, prev_after_cons. cbn [Re.reps].
    cbn [all_in] in Hall. apply andb_prop in Hall as [Hc Hall].
    rewrite Hc. cbn [andb].
    assert (hi ≠ Some 0%nat) as Hne.
    { intros ->. specialize (Hhi 0%nat eq_refl). simpl in Hhi. lia. }
    rewrite bool_decide_eq_false_2 by done. cbn [negb].
    apply elem_of_app. left. apply IH; [done|simpl in Hlo; lia|].
    intros h Hh. destruct hi as [[|h']|]; try done.
    cbn in Hh. injection Hh as <-. specialize (Hhi (S h') eq_refl).
    simpl in Hhi. lia.
Qed.

(** A case-sensitive literal matches exactly itself. *)
Lemma lit_sound l p s p' s' :
  Re.lit false l p s = Some (p', s') → s = l +:+ s' ∧ p' = prev_after p l.
Proof.
  revert p s. induction l as [|a l IH]; intros p s.
  - cbn. by intros [= -> ->].
  - cbn [Re.lit]. destruct s as [|b s]; [done|]. unfold Re.char_eq.
    destruct (Ascii.eqb a b) eqn:E; [|done]. apply Ascii.eqb_eq in E as ->.
    intros [-> ->]%IH. by rewrite sapp_cons, prev_after_cons.
Qed.

Lemma lit_complete l p s' :
  Re.lit false l p (l +:+ s') = Some (prev_after p l, s').
Proof.
  revert p. induction l as [|a l IH]; intros p; [done|].
  rewrite sapp_cons, prev_after_cons. cbn [Re.lit]. unfold Re.char_eq.
  by rewrite Ascii.eqb_refl.
Qed.

(** What a pattern matches is read from the cursor on: the text left is
    a suffix of the text before. *)
Lemma run_suffix ic r st st' :
  st' ∈ Re.run ic r st → ∃ x, Re.rest st = x +:+ Re.rest st'.
Proof.
  revert st st'. induction r as [l|k lo hi| |r1 IH1 r2 IH2|r1 IH1 r2 IH2|n r IH];
    intros st st'; cbn [Re.run].
  - destruct (Re.lit ic l (Re.prev st) (Re.rest st)) as [[p s]|] eqn:E;
      [|by intros ?%elem_of_nil].
    intros ->%list_elem_of_singleton. cbn.
    clear -E. revert E. generalize (Re.prev st) (Re.rest st).
    induction l as [|a l IH]; intros p0 s0.
    + cbn. intros [= _ <-]. by exists EmptyString.
    + cbn [Re.lit]. destruct s0 as [|b s0]; [done|].
      destruct (Re.char_eq ic a b); [|done].
      intros [x ->]%IH. by exists (String b x).
  - intros ([p s] & -> & Hin)%list_elem_of_fmap. cbn.
    apply reps_sound in Hin as (x & Hx & _). eauto.
  - destruct (Re.at_boundary _ _); [|by intros ?%elem_of_nil].
    intros ->%list_elem_of_singleton. by exists EmptyString.
  - intros (st1 & H2 & H1)%list_elem_of_bind.
    apply IH1 in H1 as [x1 ->]. apply IH2 in H2 as [x2 ->].
    exists (x1 +:+ x2). by rewrite sapp_assoc.
  - intros [H|H]%elem_of_app; [by apply IH1|by apply IH2].
  - intros (st1 & -> & H)%list_elem_of_fmap. cbn. by apply IH.
Qed.

Lemma head_is_Some {A} (l : list A) : is_Some (head l) ↔ ∃ x, x ∈ l.
Proof.
  destruct l as [|a l]; cbn.
  - split; [by intros [? ?]|by intros [? ?%elem_of_nil]].
  - split; [intros _; exists a; by left|by eexists].
Qed.

Lemma run_wordb ic st m :
  m ∈ Re.run ic Re.WordB st ↔
    m = st ∧ Re.at_boundary (Re.prev st) (Re.rest st) = true.
Proof.
  cbn [Re.run]. destruct (Re.at_boundary _ _).
  - rewrite list_elem_of_singleton. split; [by intros ->|by intros [-> _]].
  - split; [by intros ?%elem_of_nil|by intros [_ ?]].
Qed.

Lemma run_lit l st m :
  m ∈ Re.run false (Re.Lit l) st ↔
    Re.rest st = l +:+ Re.rest m ∧ Re.prev m = prev_after (Re.prev st) l ∧
    Re.caps m = Re.caps st.
Proof.
  cbn [Re.run]. split.
  - destruct (Re.lit false l _ _) as [[p s]|] eqn:E; [|by intros ?%elem_of_nil].
    intros ->%list_elem_of_singleton. cbn. by apply lit_sound in E as [-> ->].
  - destruct m as [p s caps]. cbn. intros (-> & -> & ->).
    rewrite lit_complete. by apply list_elem_of_singleton.
Qed.

Lemma run_rep ic k lo hi st m :
  m ∈ Re.run ic (Re.Rep k lo hi) st ↔
    ∃ x, Re.rest st = x +:+ Re.rest m ∧ all_in k x = true ∧
         (lo ≤ String.length x)%nat ∧
         (∀ h, hi = Some h → (String.length x ≤ h)%nat) ∧
         Re.prev m = prev_after (Re.prev st) x ∧ Re.caps m = Re.caps st.
Proof.
  cbn [Re.run]. rewrite list_elem_of_fmap. split.
  - intros ([p s] & -> & Hin). cbn.
    apply reps_sound in Hin as (x & Hx & Hall & Hlo & Hhi & ->).
    by exists x.
  - destruct m as [p s caps]. cbn. intros (x & -> & Hall & Hlo & Hhi & -> & ->).
    exists (prev_after (Re.prev st) x, s). split; [done|].
    by apply reps_complete.
Qed.

Lemma run_seq ic r1 r2 st m :
  m ∈ Re.run ic (Re.Seq r1 r2) st ↔
    ∃ st1, st1 ∈ Re.run ic r1 st ∧ m ∈ Re.run ic r2 st1.
Proof.
  cbn [Re.run]. rewrite list_elem_of_bind.
  split; intros (st1 & H1 & H2); by exists st1.
Qed.

Lemma run_group ic n r st m :
  m ∈ Re.run ic (Re.Group n r) st ↔
    ∃ st1, st1 ∈ Re.run ic r st ∧
           m = Re.MState (Re.prev st1) (Re.rest st1)
                 ((n, Re.consumed (Re.rest st) (Re.rest st1)) :: Re.caps st1).
Proof.
  cbn [Re.run]. rewrite list_elem_of_fmap.
  split; intros (st1 & H1 & H2); by exists st1.
Qed.

(** [re.search] finds a match exactly when the pattern matches at some
    position of the subject. *)
Lemma search_from_is_Some ic r p s :
  is_Some (Re.search_from ic r p s) ↔
    ∃ pre post, s = pre +:+ post ∧
                is_Some (Re.match_at ic r (prev_after p pre) post).
Proof.
  revert p. induction s as [|c s IH]; intros p; cbn [Re.search_from].
  - destruct (Re.match_at ic r p EmptyString) eqn:E.
    + split; [|by eexists]. intros _. exists EmptyString, EmptyString.
      by rewrite prev_after_nil, E.
    + split; [by intros [? ?]|].
      intros ([|] & [|] & Hs & Hm); try done.
      rewrite prev_after_nil, E in Hm. by destruct Hm.
  - destruct (Re.match_at ic r p (String c s)) eqn:E.
    + split; [|by eexists]. intros _. exists EmptyString, (String c s).
      by rewrite prev_after_nil, E.
    + rewrite IH. split.
      * intros (pre & post & -> & Hm). exists (String c pre), post.
        by rewrite prev_after_cons.
      * intros ([|c' pre] & post & Hs & Hm).
        -- rewrite sapp_nil_l in Hs. subst post.
           rewrite prev_after_nil, E in Hm. by destruct Hm.
        -- rewrite sapp_cons in Hs. injection Hs as <- ->.
           rewrite prev_after_cons in Hm. by exists pre, post.
Qed.

Lemma prev_after_nil' pre : prev_after None pre = last_char pre.
Proof. unfold prev_after. by destruct (last_char pre). Qed.

Lemma at_boundary_before_word p c s :
  Py.isword c = true → Re.at_boundary p (String c s) = negb (Re.oword p).
Proof.
  intros H. unfold Re.at_boundary. cbn [Re.next_char Re.oword]. rewrite H.
  by destruct (Re.oword p).
Qed.

Lemma at_boundary_after_word c s :
  Py.isword c = true →
  Re.at_boundary (Some c) s = negb (Re.oword (Re.next_char s)).
Proof. intros H. unfold Re.at_boundary. cbn [Re.oword]. by rewrite H. Qed.

Lemma dhcp_match_at p s :
  is_Some (Re.match_at false Lite.dhcp_re p s) ↔
    Re.oword p = false ∧
    ∃ post, (s = "DHCP" +:+ post ∨ s = "dhcp" +:+ post) ∧
            Re.oword (Re.next_char post) = false.
Proof.
  unfold Re.match_at. rewrite head_is_Some.
  unfold Lite.dhcp_re. cbn [Re.cat]. split.
  - intros (m & (st1 & [-> Hb1]%run_wordb & (st2 & Hg & [-> Hb2]%run_wordb)%run_seq)%run_seq).
    cbn [Re.run] in Hg. apply list_elem_of_fmap in Hg as (st3 & -> & Hg).
    cbn in Hb1, Hb2.
    apply elem_of_app in Hg as [(Hs & Hp & _)%run_lit|(Hs & Hp & _)%run_lit];
      cbn in Hs, Hp; subst s; rewrite Hp in Hb2; cbn in Hb1, Hb2;
      rewrite sapp_cons, at_boundary_before_word in Hb1 by done;
      rewrite at_boundary_after_word in Hb2 by done;
      apply negb_true_iff in Hb1, Hb2.
    + split; [done|]. exists (Re.rest st3). by split; [left|].
    + split; [done|]. exists (Re.rest st3). by split; [right|].
  - intros (Hp & post & Hs & Hpost).
    assert (Hend : ∀ c caps, Py.isword c = true →
              Re.MState (Some c) post caps
                ∈ Re.run false Re.WordB (Re.MState (Some c) post caps)).
    { intros c caps Hc. apply run_wordb. split; [done|]. cbn.
      by rewrite at_boundary_after_word, Hpost. }
    destruct Hs as [-> | ->]; eexists; apply run_seq;
      (eexists; split;
       [apply run_wordb; split; [done|];
        cbn; by rewrite sapp_cons, at_boundary_before_word, Hp|]);
      apply run_seq.
    + exists (Re.MState (Some "P"%char) post
                [(1%nat, Re.consumed ("DHCP" +:+ post) post)]).
      split; [|by apply Hend]. apply run_group.
      exists (Re.MState (Some "P"%char) post []). split; [|done].
      apply elem_of_app. left. by apply run_lit.
    + exists (Re.MState (Some "p"%char) post
                [(1%nat, Re.consumed ("dhcp" +:+ post) post)]).
      split; [|by apply Hend]. apply run_group.
      exists (Re.MState (Some "p"%char) post []). split; [|done].
      apply elem_of_app. right. by apply run_lit.
Qed.

(** The DHCP test of [get_dns_info]: the word [DHCP] or the word [dhcp]
    stands in the output. *)
Lemma dhcp_search out :
  is_Some (Re.search false Lite.dhcp_re out) ↔
    has_word "DHCP" out ∨ has_word "dhcp" out.
Proof.
  unfold Re.search. rewrite fmap_is_Some, search_from_is_Some. split.
  - intros (pre & post & -> & [Hp (rest & Hs & Hn)]%dhcp_match_at).
    rewrite prev_after_nil' in Hp.
    destruct Hs as [-> | ->]; [left|right]; by exists pre, rest.
  - intros [(pre & post & -> & Hp & Hn)|(pre & post & -> & Hp & Hn)].
    + exists pre, ("DHCP" +:+ post). split; [done|].
      apply dhcp_match_at. rewrite prev_after_nil'. split; [done|].
      exists post. by split; [left|].
    + exists pre, ("dhcp" +:+ post). split; [done|].
      apply dhcp_match_at. rewrite prev_after_nil'. split; [done|].
      exists post. by split; [right|].
Qed.

(** ** Dotted quads *)

Lemma isdigit_isword c : Py.isdigit c = true → Py.isword c = true.
Proof. intros H. unfold Py.isword. by rewrite H. Qed.

Lemma octet_head x :
  octet x → ∃ c x', x = String c x' ∧ Py.isword c = true.
Proof.
  intros [Hall Hlen]. destruct x as [|c x']; [simpl in Hlen; lia|].
  cbn in Hall. apply andb_prop in Hall as [Hc _].
  exists c, x'. split; [done|]. by apply isdigit_isword.
Qed.

Lemma prev_after_nonempty p q x :
  x ≠ EmptyString → prev_after p x = prev_after q x.
Proof. destruct x as [|c x]; [done|]. intros _. by rewrite !prev_after_cons. Qed.

Lemma octet_nonempty x : octet x → x ≠ EmptyString.
Proof. intros [_ Hlen] ->. simpl in Hlen. lia. Qed.

Lemma digits_last p x :
  all_in Re.Digit x = true → x ≠ EmptyString →
  ∃ c, prev_after p x = Some c ∧ Py.isword c = true.
Proof.
  revert p. induction x as [|c x IH]; intros p Hall Hne; [done|].
  rewrite prev_after_cons. cbn in Hall. apply andb_prop in Hall as [Hc Hall].
  destruct x as [|c' x'].
  - exists c. split; [done|]. by apply isdigit_isword.
  - by apply IH.
Qed.

Lemma octet_last p x :
  octet x → ∃ c, prev_after p x = Some c ∧ Py.isword c = true.
Proof.
  intros [Hall Hlen]. apply digits_last; [done|].
  intros ->. simpl in Hlen. lia.
Qed.

Lemma run_octet ic st m :
  m ∈ Re.run ic (Re.Rep Re.Digit 1 (Some 3%nat)) st ↔
    ∃ x, Re.rest st = x +:+ Re.rest m ∧ octet x ∧
         Re.prev m = prev_after (Re.prev st) x ∧ Re.caps m = Re.caps st.
Proof.
  rewrite run_rep. unfold octet. split.
  - intros (x & Hs & Hall & Hlo & Hhi & Hp & Hc). exists x.
    specialize (Hhi 3%nat eq_refl). by split_and!.
  - intros (x & Hs & [Hall [Hlo Hhi]] & Hp & Hc). exists x.
    split_and!; try done. by intros h [= <-].
Qed.

Lemma run_dot_octet st m :
  m ∈ Re.run false dot_octet st ↔
    ∃ x, Re.rest st = "." +:+ x +:+ Re.rest m ∧ octet x ∧
         Re.prev m = prev_after (Some "."%char) x ∧ Re.caps m = Re.caps st.
Proof.
  unfold dot_octet. rewrite run_seq. split.
  - intros (st1 & (Hs1 & Hp1 & Hc1)%run_lit & (x & Hs & Hx & Hp & Hc)%run_octet).
    exists x. rewrite Hs1, Hs, Hp, Hp1, Hc, Hc1. done.
  - destruct m as [pm sm cm]. cbn [Re.rest Re.prev Re.caps].
    intros (x & Hs & Hx & -> & ->).
    exists (Re.MState (Some "."%char) (x +:+ sm) (Re.caps st)). split.
    + by apply run_lit.
    + apply run_octet. by exists x.
Qed.

(** The matches of the address pattern at a cursor are the dotted quads
    that stand there. *)
Lemma ipv4_run p s m :
  m ∈ Re.run false Lite.ipv4_re (Re.MState p s []) ↔
    ∃ w, token_at p s w (Re.rest m) ∧ Re.prev m = prev_after p w ∧
         Re.caps m = [].
Proof.
  unfold Lite.ipv4_re, Re.times. cbn [replicate Re.cat].
  fold dot_octet. split.
  - intros (st1 & [-> Hb1]%run_wordb & (st2 & (a & Hsa & Ha & Hpa & Hca)%run_octet
      & (st3 & (st4 & (b & Hsb & Hb & Hpb & Hcb)%run_dot_octet
          & (st5 & (c & Hsc & Hc & Hpc & Hcc)%run_dot_octet
             & (d & Hsd & Hd & Hpd & Hcd)%run_dot_octet)%run_seq)%run_seq
        & [-> Hb2]%run_wordb)%run_seq)%run_seq)%run_seq.
    cbn in Hb1, Hsa, Hpa, Hca.
    exists (a +:+ "." +:+ b +:+ "." +:+ c +:+ "." +:+ d).
    assert (Hs : s = (a +:+ "." +:+ b +:+ "." +:+ c +:+ "." +:+ d)
                       +:+ Re.rest st3).
    { rewrite Hsa, Hsb, Hsc, Hsd. by rewrite !sapp_assoc. }
    destruct (octet_head a Ha) as (ca & a' & -> & Hwa).
    destruct (octet_last (Some "."%char) d Hd) as (cd & Hld & Hwd).
    rewrite Hpd, Hld in Hb2.
    rewrite at_boundary_after_word in Hb2 by done.
    rewrite Hs in Hb1. rewrite !sapp_cons in Hb1.
    rewrite at_boundary_before_word in Hb1 by done.
    apply negb_true_iff in Hb1, Hb2.
    split; [|split].
    + split_and!; try done. by exists (String ca a'), b, c, d.
    + rewrite Hpd. rewrite <- !sapp_assoc. rewrite (prev_after_app p).
      by apply prev_after_nonempty, octet_nonempty.
    + by rewrite Hcd, Hcc, Hcb, Hca.
  - destruct m as [pm sm cm]. cbn [Re.rest Re.prev Re.caps].
    intros (w & (-> & (a & b & c & d & -> & Ha & Hb & Hc & Hd) & Hp & Hn) & -> & ->).
    destruct (octet_head a Ha) as (ca & a' & -> & Hwa).
    destruct (octet_last (Some "."%char) d Hd) as (cd & Hld & Hwd).
    set (a := String ca a') in *.
    assert (Hlast : prev_after p (a +:+ "." +:+ b +:+ "." +:+ c +:+ "." +:+ d)
                    = prev_after (Some "."%char) d).
    { rewrite <- !sapp_assoc. rewrite (prev_after_app p).
      by apply prev_after_nonempty, octet_nonempty. }
    rewrite Hlast.
    apply run_seq. exists (Re.MState p ((a +:+ "." +:+ b +:+ "." +:+ c +:+ "." +:+ d) +:+ sm) []).
    split.
    { apply run_wordb. split; [done|]. cbn. subst a. rewrite !sapp_cons.
      by rewrite at_boundary_before_word, Hp. }
    apply run_seq.
    exists (Re.MState (prev_after p a) ("." +:+ b +:+ "." +:+ c +:+ "." +:+ d +:+ sm) []).
    split.
    { apply run_octet. exists a. cbn. by rewrite !sapp_assoc. }
    apply run_seq. exists (Re.MState (prev_after (Some "."%char) d) sm []).
    split; [|apply run_wordb; split; [done|]; cbn;
             by rewrite Hld, at_boundary_after_word, Hn].
    apply run_seq.
    exists (Re.MState (prev_after (Some "."%char) b) ("." +:+ c +:+ "." +:+ d +:+ sm) []).
    split; [apply run_dot_octet; by exists b|].
    apply run_seq.
    exists (Re.MState (prev_after (Some "."%char) c) ("." +:+ d +:+ sm) []).
    split; [apply run_dot_octet; by exists c|].
    apply run_dot_octet. by exists d.
Qed.

Lemma dotted_quad_nonempty w : dotted_quad w → w ≠ EmptyString.
Proof.
  intros (a & b & c & d & -> & Ha & _).
  destruct (octet_head a Ha) as (ca & a' & -> & _). done.
Qed.

Lemma ipv4_match_at_Some p s m :
  Re.match_at false Lite.ipv4_re p s = Some m →
  ∃ w, token_at p s w (Re.rest m) ∧ Re.prev m = prev_after p w.
Proof.
  unfold Re.match_at. intros H.
  assert (Hin : m ∈ Re.run false Lite.ipv4_re (Re.MState p s [])).
  { destruct (Re.run _ _ _) as [|m' l]; [done|]. injection H as ->. by left. }
  apply ipv4_run in Hin as (w & Htok & Hp & _). eauto.
Qed.

Lemma ipv4_match_at_None p s :
  Re.match_at false Lite.ipv4_re p s = None → ¬ quad_here p s.
Proof.
  unfold Re.match_at. intros H (w & post & Htok).
  assert (Hin : Re.MState (prev_after p w) post []
                  ∈ Re.run false Lite.ipv4_re (Re.MState p s [])).
  { apply ipv4_run. by exists w. }
  destruct (Re.run _ _ _); [by apply elem_of_nil in Hin|done].
Qed.

Lemma sdrop_sapp s t : sdrop (String.length s) (s +:+ t) = t.
Proof. induction s as [|c s IH]; [by destruct t|]. apply IH. Qed.

Lemma quads_of_shift p c s ws :
  ¬ quad_here p (String c s) → quads_of (Some c) s ws →
  quads_of p (String c s) ws.
Proof.
  intros Hno Hq. inversion Hq as [p0 s0 Hnone|p0 pre w post ws' Htok Hpre Hrest];
    subst.
  - apply quads_none. intros [|c' pre] post Hs.
    + rewrite sapp_nil_l in Hs. subst post. by rewrite prev_after_nil.
    + rewrite sapp_cons in Hs. injection Hs as <- ->.
      rewrite prev_after_cons. by apply Hnone.
  - change (String c (pre +:+ w +:+ post))
      with (String c pre +:+ w +:+ post).
    apply quads_next.
    + by rewrite prev_after_cons.
    + intros [|c1 pre1] pre2 Hsplit Hne.
      * rewrite sapp_nil_l in Hsplit. subst pre2.
        rewrite prev_after_nil. by rewrite sapp_cons.
      * rewrite sapp_cons in Hsplit. injection Hsplit as <- ->.
        rewrite prev_after_cons. by apply Hpre.
    + by rewrite sapp_cons, prev_after_cons.
Qed.

(** [re.findall] with the address pattern reads the dotted quads of the
    text from the left. *)
Lemma findall_go_quads s skip p :
  (skip ≤ String.length s)%nat →
  quads_of (prev_after p (Re.take skip s))
    (sdrop skip s) (Re.findall_go false Lite.ipv4_re skip p s).
Proof.
  revert skip p. induction s as [|c s IH]; intros skip p Hskip.
  - simpl in Hskip. assert (skip = 0%nat) as -> by lia.
    cbn [Re.findall_go Re.take sdrop]. rewrite prev_after_nil.
    destruct (Re.match_at false Lite.ipv4_re p EmptyString) as [m|] eqn:E.
    + apply ipv4_match_at_Some in E as (w & (Hs & Hq & _) & _).
      apply dotted_quad_nonempty in Hq. by destruct w.
    + apply quads_none. intros [|] [|] Hs; try done.
      rewrite prev_after_nil. by apply ipv4_match_at_None.
  - destruct skip as [|k].
    + cbn [Re.findall_go Re.take sdrop]. rewrite prev_after_nil.
      destruct (Re.match_at false Lite.ipv4_re p (String c s)) as [m|] eqn:E.
      * apply ipv4_match_at_Some in E as (w & Htok & Hp).
        pose proof Htok as (Hs & Hq & _).
        apply dotted_quad_nonempty in Hq.
        destruct w as [|c' w']; [done|].
        rewrite sapp_cons in Hs. injection Hs as <- Hs.
        assert (Hcons : Re.consumed (String c s) (Re.rest m) = String c w').
        { rewrite Hs. apply (consumed_sapp (String c w')). }
        rewrite Hcons. cbn [String.length].
        replace (S (String.length w') - 1)%nat with (String.length w') by lia.
        specialize (IH (String.length w') (Some c)).
        rewrite Hs in IH at 2 3. rewrite take_sapp, sdrop_sapp in IH.
        assert (Hgoal : quads_of p (EmptyString +:+ String c w' +:+ Re.rest m)
                  (String c w'
                     :: Re.findall_go false Lite.ipv4_re (String.length w')
                          (Some c) s)).
        { apply quads_next.
          - rewrite prev_after_nil. by rewrite Hs in Htok.
          - by intros [|] [|].
          - rewrite sapp_nil_l, prev_after_cons. apply IH.
            rewrite Hs, length_sapp. lia. }
        by rewrite sapp_nil_l, sapp_cons, <- Hs in Hgoal.
      * apply quads_of_shift; [by apply ipv4_match_at_None|].
        specialize (IH 0%nat (Some c)). cbn [Re.take sdrop] in IH.
        replace (Re.take 0 s) with EmptyString in IH by (by destruct s).
        replace (sdrop 0 s) with s in IH by (by destruct s).
        apply IH. lia.
    + cbn [Re.findall_go Re.take sdrop]. rewrite prev_after_cons.
      apply IH. simpl in Hskip. lia.
Qed.

Lemma findall_quads s :
  quads_of None s (Re.findall false Lite.ipv4_re s).
Proof.
  unfold Re.findall. pose proof (findall_go_quads s 0 None) as H.
  replace (Re.take 0 s) with EmptyString in H by (by destruct s).
  replace (sdrop 0 s) with s in H by (by destruct s).
  apply H. lia.
Qed.

Lemma quads_of_dotted p s ws : quads_of p s ws → Forall dotted_quad ws.
Proof.
  induction 1 as [|p pre w post ws (_ & Hq & _) _ _ IH]; [constructor|].
  by constructor.
Qed.

Lemma startswith_sapp w post : Py.startswith w (w +:+ post) = true.
Proof.
  induction w as [|c w IH]; [done|]. rewrite sapp_cons. cbn [Py.startswith].
  by rewrite Ascii.eqb_refl, IH.
Qed.

Lemma contains_sapp pre w post : Py.contains w (pre +:+ w +:+ post) = true.
Proof.
  induction pre as [|c pre IH].
  - rewrite sapp_nil_l. destruct (w +:+ post) eqn:E; cbn [Py.contains];
      by rewrite <- E, startswith_sapp.
  - rewrite sapp_cons. cbn [Py.contains]. rewrite IH. apply orb_true_r.
Qed.

Lemma has_word_contains word s : has_word word s → Py.contains word s = true.
Proof. intros (pre & post & -> & _). apply contains_sapp. Qed.

(** C8, the DNS probe.  On Windows, for the output of a usable query (code
    0 and some text), [get_dns_info] reports [dhcp=true] exactly when the
    word [DHCP] or the word [dhcp] stands in the output, and reports as
    servers the dotted quads of the output read from the left: the first
    quad that stands anywhere, then the first that stands after its end,
    and so on, each of them four groups of one to three digits between
    dots with no word character around.  When such an entry is restored
    with [dhcp=false], its first server is the one set as primary.  When
    the query is not usable the entry is [dhcp=false] without servers. *)
Theorem dns_probe_parsing (w : World) (iface : string) :
  windows w = true →
  ∃ info,
    Lite.get_dns_info iface w
      = (Ret info, record_cmd (Lite.show_dns_cmd iface) w) ∧
    let r := lite_outcome (shell w (issued w) (Lite.show_dns_cmd iface) 8) in
    (fst r = 0 → snd r ≠ EmptyString →
       (dhcp info = true ↔ has_word "DHCP" (snd r) ∨ has_word "dhcp" (snd r)) ∧
       quads_of None (snd r) (servers info) ∧
       Forall dotted_quad (servers info) ∧
       ∀ name s0 others,
         dhcp info = false → servers info = s0 :: others →
         head (dns_entry_cmds name info) = Some (Lite.dns_static_cmd name s0)) ∧
    (fst r ≠ 0 ∨ snd r = EmptyString → info = mkDns false []).
Proof.
  intros Hwin. exists (dns_of iface w).
  rewrite get_dns_info_eq. unfold query. rewrite Hwin. split; [done|].
  cbv zeta. unfold dns_of. rewrite Hwin.
  destruct (lite_outcome _) as [code out]. cbn [fst snd]. unfold usable.
  cbn [fst snd]. split.
  - intros -> Hout. assert (Py.truthy out = true) as -> by (by destruct out).
    cbn [Z.eqb negb orb dhcp servers]. split_and!.
    + rewrite bool_decide_eq_true. apply dhcp_search.
    + apply findall_quads.
    + eapply quads_of_dotted, findall_quads.
    + intros name s0 others Hd Hs. unfold dns_entry_cmds.
      cbn [dhcp servers]. by rewrite Hd, Hs.
  - intros [Hc | ->].
    + apply Z.eqb_neq in Hc. by rewrite Hc.
    + by rewrite orb_true_r.
Qed.

Lemma dns_probe_parsing_witness :
  windows fresh_host = true ∧
  ∃ info,
    Lite.get_dns_info "Ethernet" fresh_host
      = (Ret info, record_cmd (Lite.show_dns_cmd "Ethernet") fresh_host) ∧
    (dhcp info = true ↔
       has_word "DHCP" show_dns_text ∨ has_word "dhcp" show_dns_text) ∧
    quads_of None show_dns_text (servers info).
Proof.
  split; [reflexivity|].
  destruct (dns_probe_parsing fresh_host "Ethernet" eq_refl)
    as (info & Heq & Husable & _).
  exists info. split; [exact Heq|].
  destruct Husable as (Hd & Hq & _); [reflexivity|discriminate|].
  by split.
Defined.

(** C8 as stated fails: the output below holds no [DHCP] in capitals, and
    the probe reports [dhcp=true] for its lower-case [dhcp]. *)
Lemma dhcp_lowercase_detected :
  fst (Lite.get_dns_info "Ethernet" lowercase_host)
    = Ret (mkDns true ["192.168.1.1"]) ∧
  ¬ has_word "DHCP" "DNS servers configured through dhcp:  192.168.1.1".
Proof.
  split; [by vm_compute|].
  intros H%has_word_contains. vm_compute in H. discriminate.
Qed.

(** ** The wrapper of netsh and the DNS mode *)

Lemma netsh_full_is_netsh cmd : is_netsh (netsh_full cmd) = true.
Proof.
  unfold netsh_full, is_netsh.
  destruct (Py.startswith "netsh" (Py.lower (Py.strip cmd))) eqn:E; [done|].
  change ("netsh " +:+ cmd)
    with (String "n" (String "e" (String "t" (String "s" (String "h"
            (String " " cmd)))))).
  unfold Py.strip. cbn [Py.lstrip Py.isspace].
  do 5 (rewrite rstrip_cons_nonspace by reflexivity). reflexivity.
Qed.

Lemma netsh_full_idem cmd : netsh_full (netsh_full cmd) = netsh_full cmd.
Proof.
  pose proof (netsh_full_is_netsh cmd) as H. unfold is_netsh in H.
  unfold netsh_full at 1. by rewrite H.
Qed.

Lemma dns_entry_cmds_netsh iface info :
  Forall (fun c => Py.startswith "netsh " c = true) (dns_entry_cmds iface info).
Proof.
  unfold dns_entry_cmds. destruct (dhcp info).
  - by repeat constructor.
  - destruct (servers info) as [|s0 others]; [constructor|].
    constructor; [done|]. apply Forall_forall. intros c Hc.
    apply elem_of_lookup_imap in Hc as (i & s & -> & _). done.
Qed.

Lemma apply_dns_mode_eq enable iface w :
  windows w = true →
  let wb := after_backup (Some (dns_name iface)) w in
  Lite.apply_dns_mode enable iface w
    = (Ret (fst (dns_mode_outcome enable (dns_name iface) wb)),
       record_all (snd (dns_mode_outcome enable (dns_name iface) wb))
         (dns_mode_world enable wb)).
Proof.
  intros Hwin wb. unfold Lite.apply_dns_mode.
  erewrite bind_eq by reflexivity. rewrite Hwin. cbn [negb]. cbv zeta.
  fold (dns_name iface). set (name := dns_name iface) in *.
  unfold dns_mode_outcome, dns_mode_world. destruct enable.
  - eapply try_ret.
    erewrite bind_eq by apply backup_settings_eq.
    erewrite bind_eq by (apply run_netsh_id; reflexivity).
    erewrite bind_eq by (apply run_netsh_id; reflexivity).
    erewrite bind_eq by apply run_netsh_eq. reflexivity.
  - unfold file_exists. fold wb.
    assert (Hex : backup_exists wb
                  = (Ret (match backup_file wb with
                          | Missing => false | _ => true end), wb)) by done.
    destruct (backup_file wb) eqn:Hfile.
    { eapply try_ret.
      erewrite bind_eq by apply backup_settings_eq. fold wb.
      erewrite bind_eq by apply Hex.
      erewrite bind_eq by apply mret_eq. cbv beta iota.
      erewrite bind_eq by (apply run_netsh_id; reflexivity).
      erewrite bind_eq by apply run_netsh_eq. reflexivity. }
    all: rewrite <- Hfile.
    all: destruct (read_outcome wb) as [msg|d'] eqn:Hread;
      [|destruct (dict_get name (dns d')) as [info|] eqn:Hget].
    all: try (erewrite try_raise
                by (erewrite bind_eq by apply backup_settings_eq; fold wb;
                    erewrite bind_eq by apply Hex; cbv beta iota;
                    erewrite bind_raise
                      by (erewrite bind_raise
                            by (rewrite read_backup_eq, Hread; reflexivity);
                          reflexivity);
                    reflexivity);
              reflexivity).
    all: eapply try_ret.
    all: erewrite bind_eq by apply backup_settings_eq; fold wb.
    all: erewrite bind_eq by apply Hex.
    all: erewrite bind_eq
           by (erewrite bind_eq by (rewrite read_backup_eq, Hread; reflexivity);
               rewrite Hget; apply mret_eq).
    all: cbv beta iota.
    all: repeat first
           [ erewrite bind_eq by apply restore_dns_entry_eq
           | erewrite bind_eq by (apply run_netsh_id; reflexivity)
           | erewrite bind_eq by apply run_netsh_eq ].
    all: cbn [fst snd]; rewrite ?record_all_app; reflexivity.
Qed.

Lemma lower_char_blank c : Py.isspace c = true → Py.lower_char c = c.
Proof. destruct c as [[] [] [] [] [] [] [] []]; by vm_compute. Qed.

Lemma lower_sapp a b : Py.lower (a +:+ b) = Py.lower a +:+ Py.lower b.
Proof.
  induction a as [|c a IH]; [done|].
  rewrite sapp_cons. cbn [Py.lower]. by rewrite IH, sapp_cons.
Qed.

(** The blanks [rstrip] removes do not matter to a prefix without
    blanks. *)
Lemma startswith_lower_rstrip p s :
  no_blank p = true →
  Py.startswith p (Py.lower (Py.rstrip s)) = Py.startswith p (Py.lower s).
Proof.
  revert p. induction s as [|c s IH]; intros p Hp; [done|].
  destruct p as [|a p]; [done|].
  cbn [no_blank] in Hp. apply andb_true_iff in Hp as [Ha Hp].
  apply negb_true_iff in Ha. specialize (IH p Hp).
  cbn [Py.rstrip]. destruct (Py.rstrip s) as [|r0 r] eqn:Hr.
  - destruct (Py.isspace c) eqn:Hc.
    + cbn [Py.lower Py.startswith]. rewrite (lower_char_blank c Hc).
      destruct (Ascii.eqb a c) eqn:E; [|done].
      apply Ascii.eqb_eq in E. congruence.
    + cbn [Py.lower Py.startswith] in *. by rewrite IH.
  - cbn [Py.lower Py.startswith] in *. by rewrite IH.
Qed.

Lemma lstrip_blank_split c :
  ∃ sp, all_blank sp = true ∧ c = sp +:+ Py.lstrip c.
Proof.
  induction c as [|a c (sp & Hsp & Hc)]; [by exists EmptyString|].
  cbn [Py.lstrip]. destruct (Py.isspace a) eqn:Ha.
  - exists (String a sp). split; [cbn; by rewrite Ha|].
    by rewrite sapp_cons, <- Hc.
  - by exists EmptyString.
Qed.

Lemma lstrip_blanks sp s :
  all_blank sp = true → Py.lstrip (sp +:+ s) = Py.lstrip s.
Proof.
  induction sp as [|c sp IH]; intros Hsp; [done|].
  cbn in Hsp. apply andb_true_iff in Hsp as [Hc Hsp].
  rewrite sapp_cons. cbn [Py.lstrip]. rewrite Hc. by apply IH.
Qed.

Lemma startswith_netsh_lower s :
  Py.startswith "netsh" (Py.lower s) = true ↔
  ∃ n rest, s = n +:+ rest ∧ Py.lower n = "netsh".
Proof.
  split.
  - destruct s as [|c1 [|c2 [|c3 [|c4 [|c5 rest]]]]]; try done.
    + cbn [Py.lower Py.startswith]. by rewrite !andb_false_r.
    + cbn [Py.lower Py.startswith]. by rewrite !andb_false_r.
    + cbn [Py.lower Py.startswith]. by rewrite !andb_false_r.
    + cbn [Py.lower Py.startswith]. by rewrite !andb_false_r.
    + cbn [Py.lower Py.startswith]. rewrite !andb_true_iff.
      intros (H1 & H2 & H3 & H4 & H5 & _).
      apply Ascii.eqb_eq in H1, H2, H3, H4, H5.
      exists (String c1 (String c2 (String c3 (String c4
                (String c5 EmptyString))))), rest.
      split; [reflexivity|]. cbn [Py.lower]. congruence.
  - intros (n & rest & -> & Hn). rewrite lower_sapp, Hn.
    apply startswith_sapp.
Qed.

(** The test of [run_netsh] by the shape of the text. *)
Lemma is_netsh_prefixed c : is_netsh c = true ↔ netsh_prefixed c.
Proof.
  unfold is_netsh, Py.strip, netsh_prefixed.
  rewrite startswith_lower_rstrip by reflexivity.
  rewrite startswith_netsh_lower. split.
  - intros (n & rest & Hl & Hn).
    destruct (lstrip_blank_split c) as (sp & Hsp & Hc).
    exists sp, n, rest. by rewrite <- Hl.
  - intros (sp & n & rest & -> & Hsp & Hn).
    exists n, rest. split; [|done]. rewrite lstrip_blanks by done.
    destruct n as [|c1 n]; [done|]. rewrite sapp_cons. cbn [Py.lstrip].
    destruct (Py.isspace c1) eqn:Hc1; [|done].
    cbn [Py.lower] in Hn. rewrite (lower_char_blank c1 Hc1) in Hn.
    injection Hn as -> _. discriminate Hc1.
Qed.

(** X1. The guard of [run_netsh] tests letters, not words.  [run_netsh]
    runs exactly one command, with a timeout of 8 seconds.  A text that,
    after its leading blanks, begins with the five letters of netsh in any
    case is run as it is, whatever follows these letters: a text such as
    [netshell x] is run unchanged, and so is a text with leading blanks or
    capitals.  Any other text is run with the word netsh and a blank in
    front.  The command run has therefore the five letters after its
    leading blanks, and wrapping a second time changes nothing. *)
Theorem run_netsh_prefix_guard (cmd : string) (w : World) :
  ∃ full,
    Lite.run_netsh cmd w
      = (Ret (lite_outcome (shell w (issued w) full 8)), record_cmd full w) ∧
    (netsh_prefixed cmd → full = cmd) ∧
    (¬ netsh_prefixed cmd → full = "netsh " +:+ cmd) ∧
    netsh_prefixed full ∧
    Lite.run_netsh full w = Lite.run_netsh cmd w ∧
    (∀ rest,
       netsh_prefixed ("netsh" +:+ rest) ∧
       Lite.run_netsh ("netsh" +:+ rest) w
         = (Ret (lite_outcome (shell w (issued w) ("netsh" +:+ rest) 8)),
            record_cmd ("netsh" +:+ rest) w)).
Proof.
  assert (Hany : ∀ rest, netsh_prefixed ("netsh" +:+ rest))
    by (intros rest; by exists EmptyString, "netsh", rest).
  exists (netsh_full cmd). split_and!.
  - apply run_netsh_eq.
  - intros H%is_netsh_prefixed. unfold is_netsh in H.
    unfold netsh_full. by rewrite H.
  - intros H. destruct (is_netsh cmd) eqn:E.
    + by apply is_netsh_prefixed in E.
    + unfold is_netsh in E. unfold netsh_full. by rewrite E.
  - apply is_netsh_prefixed, netsh_full_is_netsh.
  - by rewrite !run_netsh_eq, netsh_full_idem.
  - intros rest. split; [apply Hany|].
    rewrite run_netsh_eq. unfold netsh_full.
    pose proof (proj2 (is_netsh_prefixed _) (Hany rest)) as H.
    unfold is_netsh in H. by rewrite H.
Qed.

Lemma backup_queries_not_flush iface w :
  "ipconfig /flushdns" ∉ backup_queries iface w.
Proof.
  unfold backup_queries, query. intros H.
  rewrite !elem_of_app in H.
  destruct (windows w); destruct H as [H | [H | H]];
    try (by apply elem_of_nil in H);
    apply list_elem_of_singleton in H; discriminate H.
Qed.

(** X2. On Windows [apply_dns_mode] first captures the settings of the
    interface ([Ethernet] when the name is empty) and then issues netsh
    commands only: the cache flush itself goes through the netsh wrapper, so
    the last command of a call that returns status 0 is
    [netsh ipconfig /flushdns], and [ipconfig /flushdns] is never run.
    Turning the mode on sets 8.8.8.8 as the primary server and 8.8.4.4 at
    index 2 and returns status 0 whatever netsh answers; a call that
    returns another status has issued nothing after its capture. *)
Theorem dns_mode_commands (enable : bool) (iface : string) (w : World) :
  windows w = true →
  ∃ r w' cmds,
    Lite.apply_dns_mode enable iface w = (Ret r, w') ∧
    issued w' = issued w ++ backup_queries (Some (dns_name iface)) w ++ cmds ∧
    Forall (fun c => Py.startswith "netsh " c = true) cmds ∧
    ("ipconfig /flushdns"
       ∉ backup_queries (Some (dns_name iface)) w ++ cmds) ∧
    (fst r = 0 → last cmds = Some "netsh ipconfig /flushdns") ∧
    (fst r ≠ 0 → cmds = []) ∧
    (enable = true →
     r = (0, "DNS mode applied") ∧
     cmds = [ Lite.dns_static_cmd (dns_name iface) "8.8.8.8";
              Lite.dns_add_cmd (dns_name iface) "8.8.4.4" 2;
              "netsh ipconfig /flushdns" ]).
Proof.
  intros Hwin. rewrite apply_dns_mode_eq by done. cbv zeta.
  set (name := dns_name iface). set (wb := after_backup (Some name) w).
  set (o := dns_mode_outcome enable name wb).
  assert (Hnetsh : Forall (fun c => Py.startswith "netsh " c = true) (snd o)).
  { subst o. unfold dns_mode_outcome, flush_cmd.
    repeat case_match; cbn [snd]; try constructor;
      rewrite ?Forall_app; repeat split;
      try apply dns_entry_cmds_netsh; by repeat constructor. }
  exists (fst o), (record_all (snd o) (dns_mode_world enable wb)), (snd o).
  split_and!.
  - reflexivity.
  - rewrite issued_record_all.
    assert (issued (dns_mode_world enable wb) = issued wb) as ->.
    { unfold dns_mode_world. by repeat case_match. }
    subst wb. by rewrite issued_after_backup, <- app_assoc.
  - exact Hnetsh.
  - intros [H | H]%elem_of_app.
    + by apply backup_queries_not_flush in H.
    + eapply Forall_forall in Hnetsh; [|exact H]. discriminate Hnetsh.
  - subst o. unfold dns_mode_outcome, flush_cmd.
    repeat case_match; cbn [fst snd]; try done; intros _;
      by rewrite ?last_snoc.
  - subst o. unfold dns_mode_outcome.
    repeat case_match; cbn [fst snd]; done.
  - intros ->. done.
Qed.

Lemma dns_mode_commands_witness :
  windows fresh_host = true ∧
  ∃ r w' cmds,
    Lite.apply_dns_mode true EmptyString fresh_host = (Ret r, w') ∧
    r = (0, "DNS mode applied") ∧
    issued w' = issued fresh_host
                  ++ backup_queries (Some "Ethernet") fresh_host ++ cmds ∧
    last cmds = Some "netsh ipconfig /flushdns".
Proof.
  split; [reflexivity|].
  destruct (dns_mode_commands true EmptyString fresh_host eq_refl)
    as (r & w' & cmds & Hrun & Hiss & _ & _ & Hlast & _ & Hon).
  exists r, w', cmds. destruct (Hon eq_refl) as [Hr _].
  split; [exact Hrun|]. split; [exact Hr|]. split; [exact Hiss|].
  apply Hlast. by rewrite Hr.
Defined.

(** ** The low latency mode *)

Lemma maybe_netsh (b : bool) cmd w :
  Py.startswith "netsh " cmd = true →
  (if b then Lite.run_netsh cmd;; mret tt else mret tt : M unit) w
    = (Ret tt, record_all (if b then [cmd] else []) w).
Proof.
  intros H. destruct b; [|reflexivity].
  erewrite bind_eq by (by apply run_netsh_id). reflexivity.
Qed.

Lemma set_low_latency_mode_eq enable backup w :
  windows w = true →
  let wb := after_capture backup w in
  Lite.set_low_latency_mode enable backup w
    = (Ret (fst (latency_outcome enable wb)),
       record_all (snd (latency_outcome enable wb))
         (dns_mode_world enable wb)).
Proof.
  intros Hwin wb. unfold Lite.set_low_latency_mode.
  erewrite bind_eq by reflexivity. rewrite Hwin. cbn [negb].
  assert (Hcap : (if backup then Lite.backup_settings None;; mret tt
                  else mret tt : M unit) w = (Ret tt, wb)).
  { subst wb. unfold after_capture. destruct backup; [|reflexivity].
    erewrite bind_eq by apply backup_settings_eq. reflexivity. }
  assert (Hex : backup_exists wb = (Ret (file_exists wb), wb)) by done.
  unfold latency_outcome, dns_mode_world. destruct enable.
  - eapply try_ret. erewrite bind_eq by apply Hcap.
    erewrite bind_eq by (apply run_netsh_id; reflexivity).
    erewrite bind_eq by (apply run_netsh_id; reflexivity). reflexivity.
  - destruct (file_exists wb) eqn:Hfile.
    + destruct (read_outcome wb) as [msg|d] eqn:Hread.
      * erewrite try_raise
          by (erewrite bind_eq by apply Hcap;
              erewrite bind_eq by apply Hex; cbv beta iota;
              erewrite bind_raise by (rewrite read_backup_eq, Hread; reflexivity);
              reflexivity).
        reflexivity.
      * eapply try_ret. erewrite bind_eq by apply Hcap.
        erewrite bind_eq by apply Hex. cbv beta iota.
        erewrite bind_eq by (rewrite read_backup_eq, Hread; reflexivity).
        cbv zeta. unfold latency_restore_cmds, key_restore_cmd.
        cbn [omap list_omap]. cbv zeta.
        erewrite bind_eq by (apply maybe_netsh; reflexivity).
        erewrite bind_eq by (apply maybe_netsh; reflexivity).
        rewrite <- record_all_app.
        destruct (Py.otruthy (mjoin (dict_get "congestionprovider"
                                       (tcp_globals d))));
          destruct (Py.otruthy (mjoin (dict_get "timestamps" (tcp_globals d))));
          reflexivity.
    + eapply try_ret. erewrite bind_eq by apply Hcap.
      erewrite bind_eq by apply Hex. cbv beta iota.
      erewrite bind_eq by (apply run_netsh_id; reflexivity).
      erewrite bind_eq by (apply run_netsh_id; reflexivity). reflexivity.
Qed.

Lemma backup_file_record_all cmds w :
  backup_file (record_all cmds w) = backup_file w.
Proof. by rewrite record_all_fields. Qed.

Lemma io_script_record_all cmds w :
  io_script (record_all cmds w) = io_script w.
Proof. by rewrite record_all_fields. Qed.

Lemma windows_record_all cmds w : windows (record_all cmds w) = windows w.
Proof. by rewrite record_all_fields. Qed.

Lemma shell_record_all cmds w : shell (record_all cmds w) = shell w.
Proof. by rewrite record_all_fields. Qed.

Lemma key_restore_cmd_elem d c :
  c ∈ latency_restore_cmds d →
  ∃ k v, k ∈ ["congestionprovider"; "timestamps"] ∧
         dict_get k (tcp_globals d) = Some (Some v) ∧ v ≠ EmptyString ∧
         c = Lite.set_global k v.
Proof.
  unfold latency_restore_cmds. intros (k & Hk & Hc)%list_elem_of_omap.
  unfold key_restore_cmd in Hc. cbv zeta in Hc.
  destruct (dict_get k (tcp_globals d)) as [[v|]|] eqn:Hget;
    cbn [mjoin option_join option_bind Py.otruthy] in Hc; try discriminate Hc.
  cbn in Hc. destruct v; [discriminate Hc|].
  apply (inj Some) in Hc as <-. by exists k, (String a v).
Qed.

(** X3. The paths of [set_low_latency_mode] on Windows.  Turning the mode
    on issues the CTCP provider and disabled timestamps and returns status
    0 whatever netsh answers.  Turning it off without a capture issues the
    defaults [none] and [enabled] while no snapshot file exists; with a
    readable snapshot it issues one command for each of the two keys
    [congestionprovider] and [timestamps] for which the snapshot holds a
    non-empty value, and no other; with a snapshot file that cannot be read
    it returns status 1 with the message of the error and issues nothing,
    where [apply_tcp_tweaks] in the same state falls back to its defaults
    and returns status 0. *)
Theorem low_latency_paths (w : World) :
  windows w = true →
  (∀ backup,
     Lite.set_low_latency_mode true backup w
       = (Ret (0, "Low latency applied"),
          record_all latency_on_cmds (after_capture backup w))) ∧
  (backup_file w = Missing →
   Lite.set_low_latency_mode false false w
     = (Ret (0, "Low latency applied"), record_all latency_off_cmds w)) ∧
  (∀ d, readable w d →
     ∃ w' cmds,
       Lite.set_low_latency_mode false false w
         = (Ret (0, "Low latency settings restored"), w') ∧
       issued w' = issued w ++ cmds ∧ backup_file w' = backup_file w ∧
       cmds = omap (key_restore_cmd d) ["congestionprovider"; "timestamps"] ∧
       ∀ c, c ∈ cmds →
         ∃ k v, k ∈ ["congestionprovider"; "timestamps"] ∧
                dict_get k (tcp_globals d) = Some (Some v) ∧
                v ≠ EmptyString ∧ c = Lite.set_global k v) ∧
  (∀ msg, backup_file w ≠ Missing → read_outcome w = inl msg →
     (∃ w', Lite.set_low_latency_mode false false w = (Ret (1, msg), w') ∧
            issued w' = issued w) ∧
     ∃ w', Lite.apply_tcp_tweaks false false w
             = (Ret (0, "TCP tweaks applied"), w') ∧
           issued w' = issued w ++ Lite.tcp_off_cmds).
Proof.
  intros Hwin. split_and!.
  - intros backup. by rewrite set_low_latency_mode_eq.
  - intros Hmiss. rewrite set_low_latency_mode_eq by done. cbv zeta.
    unfold latency_outcome, dns_mode_world, after_capture, file_exists.
    by rewrite Hmiss.
  - intros d Hr. pose proof Hr as [Hfile _].
    apply readable_outcome in Hr as [Hread _].
    rewrite set_low_latency_mode_eq by done. cbv zeta.
    unfold latency_outcome, dns_mode_world, after_capture, file_exists.
    rewrite Hfile, Hread. cbn [fst snd].
    exists (record_all (latency_restore_cmds d)
              (set_file (Holds d) (tail (io_script w)) w)),
      (latency_restore_cmds d).
    split_and!; [reflexivity| | |reflexivity|].
    + by rewrite issued_record_all, issued_set_file.
    + by rewrite backup_file_record_all.
    + apply key_restore_cmd_elem.
  - intros msg Hfile Hread. split.
    + rewrite set_low_latency_mode_eq by done. cbv zeta.
      unfold latency_outcome, dns_mode_world, after_capture, file_exists.
      rewrite Hread. destruct (backup_file w); [done| |];
        (eexists; split; [reflexivity|]);
        by rewrite issued_record_all, issued_set_file, app_nil_r.
    + rewrite apply_tcp_tweaks_eq by done. cbv zeta.
      unfold after_capture.
      assert (restorable w = false) as Hres.
      { unfold restorable. rewrite Hread. by destruct (backup_file w). }
      rewrite Hres. eexists. split; [reflexivity|].
      by rewrite issued_record_all, issued_after_attempt.
Qed.

Lemma low_latency_paths_witness :
  windows damaged_host = true ∧
  (∃ w', Lite.set_low_latency_mode false false damaged_host
           = (Ret (1, "Expecting value"), w') ∧
         issued w' = issued damaged_host) ∧
  ∃ w', Lite.apply_tcp_tweaks false false damaged_host
          = (Ret (0, "TCP tweaks applied"), w') ∧
        issued w' = issued damaged_host ++ Lite.tcp_off_cmds.
Proof.
  split; [reflexivity|].
  destruct (low_latency_paths damaged_host eq_refl) as (_ & _ & _ & H).
  apply (H "Expecting value"); [discriminate|reflexivity].
Defined.

(** X4. The default call that turns the low latency mode off undoes
    nothing.  With [backup=True] the capture runs first; when it has
    written the snapshot and the file is read back, the call restores from
    that snapshot: the values it sets for the provider and the timestamps
    are the ones netsh reported at the start of this very call, and the
    defaults are not issued. *)
Theorem low_latency_default_off (w : World) :
  windows w = true →
  head (io_script w) = None ∨ head (io_script w) = Some IoOk →
  head (tail (io_script w)) = None ∨ head (tail (io_script w)) = Some IoOk →
  ∃ w',
    Lite.set_low_latency_mode false true w
      = (Ret (0, "Low latency settings restored"), w') ∧
    issued w' = issued w ++ backup_queries None w
                  ++ latency_restore_cmds (backup_data None w) ∧
    tcp_globals (backup_data None w) = tcp_of w ∧
    backup_file w' = Holds (backup_data None w).
Proof.
  intros Hwin Hio1 Hio2.
  destruct (backup_readable None w Hio1 Hio2) as [_ Hr].
  pose proof Hr as [Hfile _]. apply readable_outcome in Hr as [Hread _].
  rewrite set_low_latency_mode_eq by done. cbv zeta.
  unfold latency_outcome, dns_mode_world, after_capture, file_exists.
  rewrite Hfile, Hread. cbn [fst snd].
  eexists. split_and!; [reflexivity| |reflexivity|].
  - by rewrite issued_record_all, issued_set_file, issued_after_backup,
      <- app_assoc.
  - by rewrite backup_file_record_all.
Qed.

Lemma low_latency_default_off_witness :
  windows fresh_host = true ∧
  ∃ w',
    Lite.set_low_latency_mode false true fresh_host
      = (Ret (0, "Low latency settings restored"), w') ∧
    issued w' = issued fresh_host ++ backup_queries None fresh_host
                  ++ latency_restore_cmds (backup_data None fresh_host) ∧
    latency_restore_cmds (backup_data None fresh_host)
      = [ "netsh interface tcp set global congestionprovider=none";
          "netsh interface tcp set global timestamps=disabled" ].
Proof.
  split; [reflexivity|].
  destruct (low_latency_default_off fresh_host eq_refl)
    as (w' & Hrun & Hiss & _); [by left|by left|].
  exists w'. split; [exact Hrun|]. split; [exact Hiss|]. by vm_compute.
Defined.

(** ** The power plan *)

Lemma set_power_plan_eq high_perf w :
  windows w = true →
  let wb := after_backup None w in
  Lite.set_power_plan high_perf w
    = (Ret (power_result
              (lite_outcome (shell wb (issued wb) (power_cmd high_perf) 6))),
       record_cmd (power_cmd high_perf) wb).
Proof.
  intros Hwin wb. unfold Lite.set_power_plan.
  erewrite bind_eq by reflexivity. rewrite Hwin. cbn [negb].
  eapply try_ret.
  erewrite bind_eq by apply backup_settings_eq. fold wb. cbv zeta.
  fold (power_cmd high_perf).
  erewrite bind_eq by apply lite_run_cmd_eq.
  unfold power_result.
  destruct (lite_outcome _) as [code out]. cbn [fst snd].
  by destruct (code =? 0).
Qed.

(** X5. [set_power_plan] captures the settings first and then runs one
    [powercfg /setactive] command, for the high performance plan or for
    the balanced one, with a timeout of 6 seconds.  Unlike the other
    operations it reports what the command did: the status is 0, with the
    message [Power plan set], exactly when the command exits with code 0;
    otherwise the status is 1 with the output of the command, the empty
    text when it timed out. *)
Theorem set_power_plan_reports (high_perf : bool) (w : World) :
  windows w = true →
  ∃ cmd r w',
    Lite.set_power_plan high_perf w = (Ret r, w') ∧
    cmd = (if high_perf
           then "powercfg /setactive 8c5e7fda-e8bf-4a96-9a85-a6e23a8c635c"
           else "powercfg /setactive 381b4222-f694-41f0-9685-ff5bb260df2e") ∧
    issued w' = issued w ++ backup_queries None w ++ [cmd] ∧
    match shell w (issued w ++ backup_queries None w) cmd 6 with
    | Exited code out err =>
        if code =? 0 then r = (0, "Power plan set")
        else r = (1, if Py.truthy (Py.strip out) then Py.strip out
                     else Py.strip err)
    | TimedOut => r = (1, EmptyString)
    | SpawnError msg => r = (1, msg)
    end.
Proof.
  intros Hwin. rewrite set_power_plan_eq by done. cbv zeta.
  eexists _, _, _. split; [reflexivity|]. split; [reflexivity|].
  split.
  - cbn [record_cmd issued]. rewrite issued_after_backup.
    rewrite <- app_assoc. by destruct high_perf.
  - rewrite shell_after_backup, issued_after_backup.
    replace (power_cmd high_perf)
      with (if high_perf
            then "powercfg /setactive 8c5e7fda-e8bf-4a96-9a85-a6e23a8c635c"
            else "powercfg /setactive 381b4222-f694-41f0-9685-ff5bb260df2e")
      by (by destruct high_perf).
    destruct (shell w _ _ 6) as [code out err| |msg];
      unfold power_result; cbn [lite_outcome fst snd]; try done.
    by destruct (code =? 0).
Qed.

Lemma set_power_plan_reports_witness :
  windows hung_world = true ∧
  ∃ w', Lite.set_power_plan true hung_world = (Ret (1, EmptyString), w') ∧
        issued w' = [ "netsh interface tcp show global";
                      "netsh interface ipv4 show dns name="
                        +:+ dq +:+ "Ethernet" +:+ dq;
                      "powercfg /getactivescheme";
                      "powercfg /setactive 8c5e7fda-e8bf-4a96-9a85-a6e23a8c635c" ].
Proof.
  split; [reflexivity|].
  destruct (set_power_plan_reports true hung_world eq_refl)
    as (cmd & r & w' & Hrun & -> & Hiss & Hr).
  exists w'. cbn in Hr. subst r. split; [exact Hrun|]. exact Hiss.
Defined.

Lemma search_from_Some ic r p s m :
  Re.search_from ic r p s = Some m →
  ∃ pre post, s = pre +:+ post ∧
              Re.match_at ic r (prev_after p pre) post = Some m.
Proof.
  revert p. induction s as [|c s IH]; intros p; cbn [Re.search_from].
  - destruct (Re.match_at ic r p EmptyString) eqn:E; [|done].
    intros [= <-]. exists EmptyString, EmptyString.
    by rewrite prev_after_nil.
  - destruct (Re.match_at ic r p (String c s)) eqn:E.
    + intros [= <-]. exists EmptyString, (String c s).
      by rewrite prev_after_nil.
    + intros (pre & post & -> & Hm)%IH. exists (String c pre), post.
      by rewrite prev_after_cons.
Qed.

Lemma head_elem {A} (l : list A) x : head l = Some x → x ∈ l.
Proof. destruct l; [done|]. intros [= ->]. by left. Qed.

Lemma run_exactly ic k n st m :
  m ∈ Re.run ic (Re.Exactly k n) st →
  ∃ x, Re.rest st = x +:+ Re.rest m ∧ all_in k x = true ∧
       String.length x = n ∧ Re.caps m = Re.caps st.
Proof.
  unfold Re.Exactly. intros (x & Hs & Hx & Hlo & Hhi & _ & Hc)%run_rep.
  exists x. split_and!; try done. specialize (Hhi n eq_refl). lia.
Qed.

Lemma guid_run p s m :
  m ∈ Re.run false Lite.guid_re (Re.MState p s []) →
  ∃ g, well_formed_guid g ∧ s = g +:+ Re.rest m ∧ Re.caps m = [(1%nat, g)].
Proof.
  unfold Lite.guid_re. cbn [Re.cat].
  intros (st & (s1 & (a & Hsa & Ha & Hla & Hca)%run_exactly
    & (s2 & (Hs2 & _ & Hc2)%run_lit
    & (s3 & (b & Hsb & Hb & Hlb & Hcb)%run_exactly
    & (s4 & (Hs4 & _ & Hc4)%run_lit
    & (s5 & (c & Hsc & Hc & Hlc & Hcc)%run_exactly
    & (s6 & (Hs6 & _ & Hc6)%run_lit
    & (s7 & (d & Hsd & Hd & Hld & Hcd)%run_exactly
    & (s8 & (Hs8 & _ & Hc8)%run_lit
    & (e & Hse & He & Hle & Hce)%run_exactly)%run_seq)%run_seq)%run_seq)%run_seq
      )%run_seq)%run_seq)%run_seq)%run_seq & ->)%run_group.
  cbn [Re.rest Re.caps Re.prev] in *.
  set (g := a +:+ "-" +:+ b +:+ "-" +:+ c +:+ "-" +:+ d +:+ "-" +:+ e).
  assert (Hs : s = g +:+ Re.rest st).
  { subst g. rewrite Hsa, Hs2, Hsb, Hs4, Hsc, Hs6, Hsd, Hs8, Hse.
    by rewrite !sapp_assoc. }
  exists g. split; [by exists a, b, c, d, e|]. split; [exact Hs|].
  rewrite Hs at 1. rewrite consumed_sapp.
  by rewrite Hce, Hc8, Hcd, Hc6, Hcc, Hc4, Hcb, Hc2, Hca.
Qed.

Lemma guid_search out g :
  (match Re.search false Lite.guid_re out with
   | Some gs => mjoin (head gs)
   | None => None
   end) = Some g →
  well_formed_guid g ∧ ∃ pre post, out = pre +:+ g +:+ post.
Proof.
  unfold Re.search.
  destruct (Re.search_from false Lite.guid_re None out) as [m|] eqn:E;
    [|done].
  apply search_from_Some in E as (pre & post & -> & Hm).
  unfold Re.match_at in Hm.
  assert (Hin : m ∈ Re.run false Lite.guid_re
                      (Re.MState (prev_after None pre) post [])).
  { by apply head_elem. }
  apply guid_run in Hin as (g' & Hwf & -> & Hcaps).
  cbn [fmap option_fmap option_map]. unfold Re.groups.
  change (Re.ngroups Lite.guid_re) with 1%nat. cbn [seq fmap list_fmap].
  unfold Re.group. rewrite Hcaps. cbn.
  intros [= <-]. split; [done|]. by exists pre, (Re.rest m).
Qed.

Lemma hex_block_length n x : hex_block n x → String.length x = n.
Proof. by intros [_ ?]. Qed.

Lemma well_formed_guid_length g :
  well_formed_guid g → String.length g = 36%nat.
Proof.
  intros (a & b & c & d & e & -> & Ha & Hb & Hc & Hd & He).
  rewrite !length_sapp. cbn [String.length].
  apply hex_block_length in Ha, Hb, Hc, Hd, He. lia.
Qed.

Lemma well_formed_guid_truthy g : well_formed_guid g → Py.truthy g = true.
Proof.
  intros H%well_formed_guid_length. by destruct g.
Qed.

Lemma guid_of_shape w g :
  guid_of w = Some g →
  well_formed_guid g ∧
  ∃ pre post,
    snd (lite_outcome (shell w (issued w) get_scheme_cmd 4))
      = pre +:+ g +:+ post.
Proof.
  unfold guid_of. cbv zeta. destruct (usable _); [|done]. apply guid_search.
Qed.

(** X6. The identifier [get_active_power_guid] returns, when it returns
    one, is a well-formed GUID: five blocks of 8, 4, 4, 4 and 12 hexadecimal
    digits separated by hyphens, 36 characters in all, and it is cut out of
    the output of [powercfg /getactivescheme] without any change.  The
    query is the only command run. *)
Theorem power_guid_shape (w : World) (g : string) (w' : World) :
  Lite.get_active_power_guid w = (Ret (Some g), w') →
  well_formed_guid g ∧ String.length g = 36%nat ∧
  issued w' = issued w ++ ["powercfg /getactivescheme"] ∧
  ∃ pre post,
    snd (lite_outcome (shell w (issued w) "powercfg /getactivescheme" 4))
      = pre +:+ g +:+ post.
Proof.
  rewrite get_active_power_guid_eq. intros [= Hg <-].
  apply guid_of_shape in Hg as [Hwf Hcut].
  split; [done|]. split; [by apply well_formed_guid_length|].
  split; [done|]. exact Hcut.
Qed.

Lemma power_guid_shape_witness :
  Lite.get_active_power_guid fresh_host
    = (Ret (Some "381b4222-f694-41f0-9685-ff5bb260df2e"),
       record_cmd get_scheme_cmd fresh_host) ∧
  well_formed_guid "381b4222-f694-41f0-9685-ff5bb260df2e".
Proof.
  assert (H : Lite.get_active_power_guid fresh_host
              = (Ret (Some "381b4222-f694-41f0-9685-ff5bb260df2e"),
                 record_cmd get_scheme_cmd fresh_host)) by by vm_compute.
  split; [exact H|]. exact (proj1 (power_guid_shape _ _ _ H)).
Defined.

Lemma io_script_after_backup iface w :
  io_script (after_backup iface w) = tail (io_script w).
Proof. done. Qed.

Lemma backup_file_record_cmd c w :
  backup_file (record_cmd c w) = backup_file w.
Proof. done. Qed.

(** X7. The power plan survives a round trip.  [set_power_plan] captures
    before it changes the plan, so on a host where the snapshot file is
    written and read without fault a restore that follows succeeds and
    ends by activating the plan [powercfg /getactivescheme] reported
    before the change; the replayed commands before it are netsh commands.
    When the query gave no GUID, the restore runs no [powercfg] command at
    all and the plan stays as [set_power_plan] left it. *)
Theorem power_plan_round_trip (high_perf : bool) (w : World) :
  windows w = true → io_script w = [] →
  ∃ r w1 w2 cmds,
    Lite.set_power_plan high_perf w = (Ret r, w1) ∧
    Lite.restore_from_backup w1 = (Ret true, w2) ∧
    issued w2 = issued w1 ++ cmds ∧
    match power (backup_data None w) with
    | Some g =>
        well_formed_guid g ∧
        ∃ netsh_cmds,
          cmds = netsh_cmds ++ ["powercfg /setactive " +:+ g] ∧
          Forall (fun c => Py.startswith "netsh " c = true) netsh_cmds
    | None => Forall (fun c => Py.startswith "netsh " c = true) cmds
    end.
Proof.
  intros Hwin Hio.
  destruct (backup_readable None w) as [_ Hr]; [rewrite Hio; by left..|].
  rewrite set_power_plan_eq by done. cbv zeta.
  set (d := backup_data None w) in *.
  set (w1 := record_cmd _ _).
  assert (Hr1 : readable w1 d).
  { destruct Hr as [Hfile Hhead]. split; [exact Hfile|exact Hhead]. }
  destruct (restore_readable w1 d Hr1) as (w2 & Hres & Hiss & _).
  exists (power_result (lite_outcome
            (shell (after_backup None w) (issued (after_backup None w))
               (power_cmd high_perf) 6))), w1, w2,
    (tcp_restore_cmds (tcp_globals d) ++ dns_restore_cmds (dns d)
       ++ power_restore_cmds (power d)).
  split; [reflexivity|]. split; [exact Hres|]. split; [exact Hiss|].
  assert (Hnetsh : Forall (fun c => Py.startswith "netsh " c = true)
                     (tcp_restore_cmds (tcp_globals d)
                        ++ dns_restore_cmds (dns d))).
  { apply Forall_app. split.
    - apply Forall_forall. intros c (kv & _ & Hc)%list_elem_of_omap.
      unfold tcp_restore_cmd in Hc. destruct (Py.otruthy (snd kv)); [|done].
      destruct (Lite.mapping (fst kv)) as [cmd|] eqn:Hmap; [|done].
      injection Hc as <-. by eapply mapping_netsh.
    - apply Forall_forall. intros c (e & Hc & _)%list_elem_of_bind.
      destruct (Py.truthy (fst e)); [|by apply elem_of_nil in Hc].
      eapply Forall_forall in Hc; [exact Hc|apply dns_entry_cmds_netsh]. }
  destruct (power d) as [g|] eqn:Hg.
  - assert (Hwf : well_formed_guid g).
    { subst d. unfold backup_data in Hg. cbn [power] in Hg.
      by apply guid_of_shape in Hg as [? _]. }
    split; [exact Hwf|]. eexists. split; [|exact Hnetsh].
    unfold power_restore_cmds. cbn [Py.otruthy default].
    rewrite well_formed_guid_truthy by done. by rewrite app_assoc.
  - unfold power_restore_cmds. cbn [Py.otruthy]. by rewrite app_nil_r.
Qed.

Lemma power_plan_round_trip_witness :
  windows fresh_host = true ∧ io_script fresh_host = [] ∧
  ∃ r w1 w2 cmds,
    Lite.set_power_plan true fresh_host = (Ret r, w1) ∧
    Lite.restore_from_backup w1 = (Ret true, w2) ∧
    issued w2 = issued w1 ++ cmds ∧
    last cmds
      = Some "powercfg /setactive 381b4222-f694-41f0-9685-ff5bb260df2e".
Proof.
  split; [reflexivity|]. split; [reflexivity|].
  destruct (power_plan_round_trip true fresh_host eq_refl eq_refl)
    as (r & w1 & w2 & cmds & Hset & Hres & Hiss & Hpow).
  exists r, w1, w2, cmds. split; [exact Hset|]. split; [exact Hres|].
  split; [exact Hiss|].
  change (power (backup_data None fresh_host))
    with (Some "381b4222-f694-41f0-9685-ff5bb260df2e") in Hpow.
  destruct Hpow as (_ & netsh_cmds & -> & _). apply last_snoc.
Defined.

(** ** The verdict of the restore *)

(** X8. The verdict of [restore_from_backup] says whether the snapshot
    was read, not whether the settings were restored: it is [True] exactly
    when the file holds a snapshot and is read without fault, whatever the
    commands of the replay do, on any shell.  When the verdict is [False]
    no command has been run, the file is what it was, and one line has
    been logged. *)
Theorem restore_verdict (w : World) :
  ∃ b w',
    Lite.restore_from_backup w = (Ret b, w') ∧
    (b = true ↔ ∃ d, readable w d) ∧
    (∀ sh, fst (Lite.restore_from_backup (with_shell sh w)) = Ret b) ∧
    (b = false →
     issued w' = issued w ∧ backup_file w' = backup_file w ∧
     ∃ ev, logged w' = logged w ++ [ev] ∧
           (ev = LogNoBackup ∨ ∃ msg, ev = LogRestoreFailed msg)).
Proof.
  exists (restorable w), (after_restore w).
  split; [apply restore_from_backup_eq|]. split_and!.
  - unfold restorable, readable, read_outcome. split.
    + destruct (backup_file w) as [|d|] eqn:Hf; [done| |].
      * intros H. exists d. split; [done|].
        destruct (head (io_script w)) as [[| |]|]; try done;
          first [by left | by right].
      * by destruct (head (io_script w)) as [[| |]|].
    + intros (d & -> & [-> | ->]); done.
  - intros sh. by rewrite restore_from_backup_eq.
  - intros Hres. rewrite issued_after_restore, Hres, app_nil_r.
    split; [done|]. unfold after_restore, restorable in *.
    destruct (backup_file w) eqn:Hf.
    + split; [done|]. exists LogNoBackup. split; [done|by left].
    + destruct (read_outcome w) as [msg|] eqn:Hread; [|done].
      split; [done|]. exists (LogRestoreFailed msg).
      split; [done|right; by exists msg].
    + destruct (read_outcome w) as [msg|] eqn:Hread; [|done].
      split; [done|]. exists (LogRestoreFailed msg).
      split; [done|right; by exists msg].
Qed.

(** ** The round trip *)

(** A probed record with every field present is replayed by six commands,
    one for each parameter in the order of the probe. *)
Lemma replay_all_present w :
  all_present (tcp_of w) →
  omap replay (tcp_of w)
    = (fun k => Lite.set_global k (captured (tcp_of w) k)) <$> tcp_keys.
Proof.
  intros Hall. unfold tcp_of in *.
  assert (Hrss : "rss" ∈ tcp_keys) by (apply (bool_decide_unpack _); by vm_compute).
  destruct (windows w); [|by destruct (Hall "rss" Hrss)].
  cbv zeta in *. destruct (usable _); [|by destruct (Hall "rss" Hrss)].
  rewrite parse_all_present at 1 by done.
  unfold tcp_keys. reflexivity.
Qed.

Lemma power_restore_cmds_guid w :
  power_restore_cmds (guid_of w)
    = match guid_of w with
      | Some g => ["powercfg /setactive " +:+ g]
      | None => []
      end.
Proof.
  destruct (guid_of w) as [g|] eqn:Hg; [|done].
  apply guid_of_shape in Hg as [Hg%well_formed_guid_truthy _].
  unfold power_restore_cmds. cbn [Py.otruthy default]. by rewrite Hg.
Qed.

(** C1, the round trip.  On a Windows host whose files are sound the
    capture succeeds, [apply_tcp_tweaks(False)] returns, and the restore
    that follows succeeds and replays the snapshot [d] that is on file when
    it starts, which is the one of the last capture.  It issues, for each
    field of the TCP record of [d] in order, the set command of its key with
    the captured value, character for character, when the field is present,
    and nothing when it is absent; then the commands of the DNS entry of
    [d], none when the name of the interface is empty; then the activation
    of the power scheme of [d] when a GUID was captured.  When every field
    of the record is present the TCP commands are the six set commands, in
    the order of the probe.  With [backup=False] the snapshot is the one of
    the capture, and its record is the one just probed.  With
    [backup=True] the applier has captured again and overwritten the file:
    the record replayed is the one of this second probe; it is the record
    of the first capture when the TCP query answers the second time as it
    did the first. *)
Theorem round_trip_restore (w : World) (iface : option string) (bk : bool) :
  windows w = true → io_script w = [] →
  ∃ w1 res w2 w3 d,
    d = last_capture iface bk w ∧
    Lite.backup_settings iface w = (Ret true, w1) ∧
    backup_file w1 = Holds (backup_data iface w) ∧
    tcp_globals (backup_data iface w) = tcp_of w ∧
    Lite.apply_tcp_tweaks false bk w1 = (Ret res, w2) ∧
    backup_file w2 = Holds d ∧
    Lite.restore_from_backup w2 = (Ret true, w3) ∧
    issued w3 = issued w2 ++ omap replay (tcp_globals d)
                  ++ dns_restore_cmds (dns d)
                  ++ power_restore_cmds (power d) ∧
    (∀ k v, k ∈ tcp_keys →
       dict_get k (tcp_globals d) = Some None ∨
       dict_get k (tcp_globals d) = None →
       Lite.set_global k v
         ∉ omap replay (tcp_globals d) ++ dns_restore_cmds (dns d)
             ++ power_restore_cmds (power d)) ∧
    (all_present (tcp_globals d) →
     omap replay (tcp_globals d)
       = (fun k => Lite.set_global k (captured (tcp_globals d) k))
           <$> tcp_keys) ∧
    (∃ n info,
       dns d = [(n, info)] ∧
       n = backup_iface (if bk then None else iface) w ∧
       dns_restore_cmds (dns d)
         = if Py.truthy n then dns_entry_cmds n info else []) ∧
    power_restore_cmds (power d)
      = match power d with
        | Some g => ["powercfg /setactive " +:+ g]
        | None => []
        end ∧
    (bk = false ∨
     shell w (issued w ++ backup_queries iface w) show_global_cmd 8
       = shell w (issued w) show_global_cmd 8 →
     tcp_globals d = tcp_of w).
Proof.
  intros Hwin Hio.
  (* the capture *)
  destruct (backup_readable iface w) as [Hb1 Hr1]; [rewrite Hio; by left..|].
  set (w1 := after_backup iface w) in *.
  assert (Hwin1 : windows w1 = true)
    by (subst w1; by rewrite windows_after_backup).
  assert (Hsh1 : shell w1 = shell w) by apply shell_after_backup.
  assert (Hio1 : io_script w1 = []) by (subst w1; cbn; by rewrite Hio).
  assert (Hif1 : iface_var w1 = iface_var w).
  { subst w1. unfold after_backup, add_log, set_file; simpl.
    by rewrite record_all_fields. }
  (* the world in which the off path looks for the snapshot *)
  set (wb := after_capture bk w1).
  set (d := last_capture iface bk w).
  assert (Hwb : readable wb d ∧ windows wb = true ∧ io_script wb = []).
  { subst wb d. unfold last_capture. fold w1. destruct bk; cbn [after_capture].
    - destruct (backup_readable None w1) as [_ Hr]; [rewrite Hio1; by left..|].
      split; [done|]. split; [by rewrite windows_after_backup|].
      change (io_script (after_backup None w1)) with (tail (io_script w1)).
      by rewrite Hio1.
    - split; [exact Hr1|]. by split. }
  destruct Hwb as (Hrb & Hwinb & Hiob).
  destruct (restore_readable wb d Hrb)
    as (w2 & Heq2 & Hiss2 & Hfile2 & Hio2 & Hwin2 & Hsh2).
  assert (Hres : restorable wb = true) by (by apply (readable_outcome wb d)).
  assert (Happ : Lite.apply_tcp_tweaks false bk w1
                 = (Ret (0, "TCP tweaks restored from backup"), w2)).
  { rewrite apply_tcp_tweaks_eq by done. cbv zeta. fold wb. rewrite Hres.
    rewrite restore_from_backup_eq in Heq2. by injection Heq2 as _ <-. }
  (* the restore *)
  assert (Hr2 : readable w2 d).
  { destruct Hrb as [Hf _]. split; [by rewrite Hfile2|].
    rewrite Hio2, Hiob. by left. }
  destruct (restore_readable w2 d Hr2) as (w3 & Heq3 & Hiss3 & _).
  assert (Htcp : ∃ w', tcp_globals d = tcp_of w').
  { subst d. unfold last_capture. destruct bk; eexists; reflexivity. }
  assert (Hpow : ∃ w', power d = guid_of w').
  { subst d. unfold last_capture. destruct bk; eexists; reflexivity. }
  assert (Hprobed : probed (tcp_globals d)).
  { subst d. unfold last_capture. destruct bk; apply tcp_of_probed. }
  assert (Hrest : Forall (fun c => is_tcp_cmd c = false)
                    (dns_restore_cmds (dns d)
                       ++ power_restore_cmds (power d))).
  { apply Forall_app. split.
    - apply dns_restore_cmds_not_tcp.
    - apply power_restore_cmds_not_tcp. }
  exists w1, (0, "TCP tweaks restored from backup"), w2, w3, d.
  split_and!.
  - reflexivity.
  - exact Hb1.
  - by destruct Hr1.
  - reflexivity.
  - exact Happ.
  - destruct Hrb as [Hf _]. by rewrite Hfile2.
  - exact Heq3.
  - rewrite Hiss3. by rewrite tcp_restore_cmds_replay.
  - intros k v Hk Habs [Hin|Hin]%elem_of_app.
    + by eapply absent_not_replayed.
    + rewrite Forall_forall in Hrest. by specialize (Hrest _ Hin).
  - destruct Htcp as (w' & ->). apply replay_all_present.
  - subst d. unfold last_capture. fold w1.
    destruct bk; cbn [dns backup_data]; eexists _, _;
      (split; [reflexivity|]); (split; [|]).
    + unfold backup_iface. cbn [Py.otruthy]. by rewrite Hif1.
    + unfold dns_restore_cmds. cbn [mbind list_bind fst snd].
      by rewrite app_nil_r.
    + reflexivity.
    + unfold dns_restore_cmds. cbn [mbind list_bind fst snd].
      by rewrite app_nil_r.
  - destruct Hpow as (w' & ->). apply power_restore_cmds_guid.
  - intros Hsame. subst d. unfold last_capture. fold w1.
    destruct bk; [|reflexivity].
    destruct Hsame as [Hbk|Hsame]; [done|].
    change (tcp_globals (backup_data None w1)) with (tcp_of w1).
    unfold tcp_of. rewrite Hwin1, Hwin, Hsh1. subst w1.
    by rewrite issued_after_backup, Hsame.
Qed.

Lemma round_trip_restore_witness :
  windows fresh_host = true ∧ io_script fresh_host = [] ∧
  all_present (tcp_of fresh_host) ∧
  ∃ w1 res w2 w3,
    Lite.backup_settings (Some "Ethernet") fresh_host = (Ret true, w1) ∧
    Lite.apply_tcp_tweaks false true w1 = (Ret res, w2) ∧
    Lite.restore_from_backup w2 = (Ret true, w3) ∧
    issued w3 = issued w2
      ++ [ "netsh interface tcp set global autotuninglevel=normal";
           "netsh interface tcp set global ecncapability=disabled";
           "netsh interface tcp set global rss=enabled";
           "netsh interface tcp set global chimney=disabled";
           "netsh interface tcp set global congestionprovider=none";
           "netsh interface tcp set global timestamps=disabled";
           "netsh interface ipv4 set dns name=" +:+ dq +:+ "Ethernet" +:+ dq
             +:+ " source=dhcp";
           "powercfg /setactive 381b4222-f694-41f0-9685-ff5bb260df2e" ].
Proof.
  assert (Hall : all_present (tcp_of fresh_host)).
  { intros k Hk. unfold tcp_keys in Hk.
    repeat (apply elem_of_cons in Hk as [-> | Hk];
            [eexists; vm_compute; reflexivity|]).
    by apply elem_of_nil in Hk. }
  split_and!; try done.
  destruct (round_trip_restore fresh_host (Some "Ethernet") true
              eq_refl eq_refl)
    as (w1 & res & w2 & w3 & d & Hd & H1 & _ & _ & H2 & _ & H3 & Hiss & _
        & Hsix & _ & _ & Hsame).
  exists w1, res, w2, w3.
  split; [exact H1|]. split; [exact H2|]. split; [exact H3|].
  assert (Htcp : tcp_globals d = tcp_of fresh_host)
    by (apply Hsame; right; reflexivity).
  rewrite Htcp in Hsix. rewrite Hiss, Htcp, (Hsix Hall). subst d.
  by vm_compute.
Defined.

(** C1 as stated fails in two ways.  First, the default call
    [apply_tcp_tweaks(False)] captures again before it restores: on a host
    whose TCP query answers the first time, with every field present, and
    times out afterwards, the second capture overwrites the snapshot with
    an empty TCP record, and the restore at the end of the round trip sets
    none of the six fields that were captured; with [backup=False] it sets
    the six.  Second, on a host whose chosen interface has the empty name,
    the two static DNS servers that were captured are not restored: the
    restore issues no DNS command. *)
Lemma recapture_breaks_round_trip :
  (tcp_of flaky_host
     = [ ("autotuninglevel", Some "normal"); ("ecncapability", Some "disabled");
         ("rss", Some "enabled"); ("chimney", Some "disabled");
         ("congestionprovider", Some "none"); ("timestamps", Some "disabled") ] ∧
   fst (Lite.backup_settings None flaky_host) = Ret true ∧
   let w1 := snd (Lite.backup_settings None flaky_host) in
   tcp_globals (backup_data None flaky_host) = tcp_of flaky_host ∧
   backup_file w1 = Holds (backup_data None flaky_host) ∧
   (let w2 := snd (Lite.apply_tcp_tweaks false true w1) in
    fst (Lite.apply_tcp_tweaks false true w1)
      = Ret (0, "TCP tweaks restored from backup") ∧
    fst (Lite.restore_from_backup w2) = Ret true ∧
    drop (length (issued w2)) (issued (snd (Lite.restore_from_backup w2)))
      = [ "netsh interface ipv4 set dns name=" +:+ dq +:+ "Ethernet" +:+ dq
            +:+ " source=dhcp";
          "powercfg /setactive 381b4222-f694-41f0-9685-ff5bb260df2e" ]) ∧
   (let w2 := snd (Lite.apply_tcp_tweaks false false w1) in
    fst (Lite.restore_from_backup w2) = Ret true ∧
    drop (length (issued w2)) (issued (snd (Lite.restore_from_backup w2)))
      = [ "netsh interface tcp set global autotuninglevel=normal";
          "netsh interface tcp set global ecncapability=disabled";
          "netsh interface tcp set global rss=enabled";
          "netsh interface tcp set global chimney=disabled";
          "netsh interface tcp set global congestionprovider=none";
          "netsh interface tcp set global timestamps=disabled";
          "netsh interface ipv4 set dns name=" +:+ dq +:+ "Ethernet" +:+ dq
            +:+ " source=dhcp";
          "powercfg /setactive 381b4222-f694-41f0-9685-ff5bb260df2e" ])) ∧
  (dns (backup_data None unnamed_host)
     = [(EmptyString, mkDns false ["8.8.8.8"; "8.8.4.4"])] ∧
   fst (Lite.backup_settings None unnamed_host) = Ret true ∧
   let w1 := snd (Lite.backup_settings None unnamed_host) in
   let w2 := snd (Lite.apply_tcp_tweaks false false w1) in
   backup_file w1 = Holds (backup_data None unnamed_host) ∧
   fst (Lite.restore_from_backup w2) = Ret true ∧
   drop (length (issued w2)) (issued (snd (Lite.restore_from_backup w2)))
     = [ "netsh interface tcp set global autotuninglevel=normal";
         "netsh interface tcp set global ecncapability=disabled";
         "netsh interface tcp set global rss=enabled";
         "netsh interface tcp set global chimney=disabled";
         "netsh interface tcp set global congestionprovider=none";
         "netsh interface tcp set global timestamps=disabled";
         "powercfg /setactive 381b4222-f694-41f0-9685-ff5bb260df2e" ]).
Proof. vm_compute. split_and!; reflexivity. Qed.

(** ** The handlers *)

Lemma same_host_refl w : same_host w w.
Proof. done. Qed.

Lemma same_host_trans w1 w2 w3 :
  same_host w1 w2 → same_host w2 w3 → same_host w1 w3.
Proof.
  intros (? & ? & ? & ?) (? & ? & ? & ?). split_and!; congruence.
Qed.

Lemma same_host_record_all cmds w : same_host w (record_all cmds w).
Proof. by rewrite record_all_fields. Qed.

Lemma same_host_record_cmd c w : same_host w (record_cmd c w).
Proof. done. Qed.

Lemma same_host_set_file f sc w : same_host w (set_file f sc w).
Proof. done. Qed.

Lemma same_host_after_backup iface w : same_host w (after_backup iface w).
Proof.
  unfold after_backup, add_log, set_file. cbn.
  by rewrite record_all_fields.
Qed.

Lemma same_host_dns_mode_world enable w : same_host w (dns_mode_world enable w).
Proof. unfold dns_mode_world. by repeat case_match. Qed.

Lemma io_script_dns_mode_world enable w :
  io_script w = [] → io_script (dns_mode_world enable w) = [].
Proof.
  unfold dns_mode_world. intros H. repeat case_match; try done.
  cbn. by rewrite H.
Qed.

Lemma backup_file_dns_mode_world enable w :
  backup_file (dns_mode_world enable w) = backup_file w.
Proof. unfold dns_mode_world. by repeat case_match. Qed.

Lemma backup_file_after_backup iface w :
  io_script w = [] →
  backup_file (after_backup iface w) = Holds (backup_data iface w).
Proof. intros H. unfold after_backup, backup_outcome. by rewrite H. Qed.

Lemma iface_var_get_eq w i :
  iface_var w = Some i → Lite.iface_var_get w = (Ret i, w).
Proof. unfold Lite.iface_var_get. by intros ->. Qed.

Lemma reset_all_readable w d :
  readable w d →
  Lite.reset_all w
    = (Ret (inr true), add_log LogRestored
                         (record_all (restore_cmds d)
                            (set_file (backup_file w) (tail (io_script w)) w))).
Proof.
  intros Hr. pose proof Hr as [Hfile _].
  apply readable_outcome in Hr as [Hread Hres].
  unfold Lite.reset_all. eapply try_ret.
  erewrite bind_eq by (unfold backup_exists; rewrite Hfile; reflexivity).
  erewrite bind_eq by apply restore_from_backup_eq.
  rewrite Hres. unfold after_restore. by rewrite Hread, Hfile.
Qed.

(** X9. Applying overwrites the snapshot it started with.  On a Windows
    host with a chosen interface and no file fault, [apply_all] returns its
    four results, and the snapshot file it leaves is the capture taken by
    its last operation, [set_power_plan]: the TCP settings in it were
    probed after the four tweak commands had been issued.  A reset that
    follows restores from that snapshot, so it replays the settings as
    they were after the tweaks, not as they were before Apply. *)
Theorem apply_all_overwrites_snapshot (low_latency dns_mode power_high : bool)
    (w : World) (i : string) :
  windows w = true → io_script w = [] → iface_var w = Some i →
  ∃ rs w1 w4 mid w2,
    Lite.apply_all low_latency dns_mode power_high w = (Ret (inr rs), w1) ∧
    length rs = 4%nat ∧
    backup_file w1 = Holds (backup_data None w4) ∧
    tcp_globals (backup_data None w4) = tcp_of w4 ∧
    shell w4 = shell w ∧ windows w4 = true ∧
    issued w4
      = issued w ++ backup_queries (Some i) w ++ Lite.tcp_on_cmds ++ mid ∧
    Lite.reset_all w1 = (Ret (inr true), w2) ∧
    issued w2 = issued w1 ++ restore_cmds (backup_data None w4).
Proof.
  intros Hwin Hio Hif.
  set (wa := after_backup (Some i) w).
  assert (Ha : same_host w wa) by apply same_host_after_backup.
  assert (Hioa : io_script wa = []) by (subst wa; cbn; by rewrite Hio).
  assert (Hfa : backup_file wa = Holds (backup_data (Some i) w))
    by by apply backup_file_after_backup.
  set (wb := record_all Lite.tcp_on_cmds wa).
  assert (Hb : same_host w wb)
    by (eapply same_host_trans; [exact Ha|apply same_host_record_all]).
  assert (Hiob : io_script wb = [])
    by (subst wb; by rewrite io_script_record_all).
  set (wc := record_all (snd (latency_outcome low_latency wb))
               (dns_mode_world low_latency wb)).
  assert (Hc : same_host w wc).
  { eapply same_host_trans; [exact Hb|].
    eapply same_host_trans;
      [apply same_host_dns_mode_world|apply same_host_record_all]. }
  assert (Hioc : io_script wc = []).
  { subst wc. rewrite io_script_record_all.
    by apply io_script_dns_mode_world. }
  set (wd0 := after_backup (Some (dns_name i)) wc).
  set (wd := record_all (snd (dns_mode_outcome dns_mode (dns_name i) wd0))
               (dns_mode_world dns_mode wd0)).
  assert (Hd0 : same_host w wd0)
    by (eapply same_host_trans; [exact Hc|apply same_host_after_backup]).
  assert (Hiod0 : io_script wd0 = []) by (subst wd0; cbn; by rewrite Hioc).
  assert (Hd : same_host w wd).
  { eapply same_host_trans; [exact Hd0|].
    eapply same_host_trans;
      [apply same_host_dns_mode_world|apply same_host_record_all]. }
  assert (Hiod : io_script wd = []).
  { subst wd. rewrite io_script_record_all.
    by apply io_script_dns_mode_world. }
  set (we := record_cmd (power_cmd power_high) (after_backup None wd)).
  assert (Hfe : backup_file we = Holds (backup_data None wd))
    by by apply backup_file_after_backup.
  assert (Hwinb : windows wb = true) by (destruct Hb as [-> _]; done).
  assert (Hwinc : windows wc = true) by (destruct Hc as [-> _]; done).
  assert (Hwind : windows wd = true) by (destruct Hd as [-> _]; done).
  assert (Hwina : windows wa = true) by (destruct Ha as [-> _]; done).
  assert (Hrun : ∃ rs,
    Lite.apply_all low_latency dns_mode power_high w = (Ret (inr rs), we) ∧
    length rs = 4%nat).
  { eexists. split.
    - unfold Lite.apply_all. eapply try_ret.
      erewrite bind_eq by (by apply iface_var_get_eq).
      erewrite bind_eq by apply backup_settings_eq. fold wa.
      erewrite bind_eq by (rewrite apply_tcp_tweaks_eq by done; reflexivity).
      change (after_capture false wa) with wa. fold wb.
      erewrite bind_eq
        by (rewrite set_low_latency_mode_eq by done; reflexivity).
      change (after_capture false wb) with wb. fold wc.
      erewrite bind_eq
        by (apply iface_var_get_eq; destruct Hc as (_ & _ & -> & _); done).
      erewrite bind_eq by (rewrite apply_dns_mode_eq by done; reflexivity).
      fold wd0 wd.
      erewrite bind_eq by (rewrite set_power_plan_eq by done; reflexivity).
      reflexivity.
    - reflexivity. }
  destruct Hrun as (rs & Hrun & Hlen).
  assert (Hre : readable we (backup_data None wd)).
  { split; [exact Hfe|]. left. subst we. cbn. by rewrite Hiod. }
  exists rs, we, wd,
    (snd (latency_outcome low_latency wb)
       ++ backup_queries (Some (dns_name i)) wc
       ++ snd (dns_mode_outcome dns_mode (dns_name i) wd0)),
    (add_log LogRestored
       (record_all (restore_cmds (backup_data None wd))
          (set_file (backup_file we) (tail (io_script we)) we))).
  split_and!; try done.
  - by destruct Hd as (_ & -> & _).
  - subst wd. rewrite issued_record_all.
    assert (∀ en w0, issued (dns_mode_world en w0) = issued w0) as Hdm.
    { intros en w0. unfold dns_mode_world. by repeat case_match. }
    rewrite Hdm. subst wd0. rewrite issued_after_backup.
    subst wc. rewrite issued_record_all, Hdm.
    subst wb. rewrite issued_record_all.
    subst wa. rewrite issued_after_backup.
    by rewrite <- !app_assoc.
  - by apply reset_all_readable.
  - by rewrite issued_add_log, issued_record_all, issued_set_file.
Qed.

Lemma apply_all_overwrites_snapshot_witness :
  windows tracking_host = true ∧ io_script tracking_host = [] ∧
  iface_var tracking_host = Some "Ethernet" ∧
  tcp_restore_cmds (tcp_of tracking_host)
    = [ "netsh interface tcp set global autotuninglevel=disabled";
        "netsh interface tcp set global ecncapability=disabled";
        "netsh interface tcp set global rss=disabled";
        "netsh interface tcp set global chimney=enabled";
        "netsh interface tcp set global congestionprovider=none";
        "netsh interface tcp set global timestamps=enabled" ] ∧
  ∃ rs w1 w4 w2,
    Lite.apply_all false false false tracking_host = (Ret (inr rs), w1) ∧
    backup_file w1 = Holds (backup_data None w4) ∧
    Lite.reset_all w1 = (Ret (inr true), w2) ∧
    issued w2 = issued w1 ++ restore_cmds (backup_data None w4) ∧
    tcp_restore_cmds (tcp_globals (backup_data None w4))
      = [ "netsh interface tcp set global autotuninglevel=normal";
          "netsh interface tcp set global ecncapability=enabled";
          "netsh interface tcp set global rss=enabled";
          "netsh interface tcp set global chimney=disabled";
          "netsh interface tcp set global congestionprovider=none";
          "netsh interface tcp set global timestamps=enabled" ].
Proof.
  split; [reflexivity|]. split; [reflexivity|]. split; [reflexivity|].
  split; [by vm_compute|].
  destruct (apply_all_overwrites_snapshot false false false tracking_host
              "Ethernet" eq_refl eq_refl eq_refl)
    as (rs & w1 & w4 & mid & w2 & Hrun & _ & Hfile & _ & _ & _ & _
        & Hreset & Hiss).
  exists rs, w1, w4, w2.
  split; [exact Hrun|]. split; [exact Hfile|]. split; [exact Hreset|].
  split; [exact Hiss|].
  assert (Hc : match backup_file
                       (snd (Lite.apply_all false false false tracking_host))
               with
               | Holds d =>
                   tcp_restore_cmds (tcp_globals d)
                   = [ "netsh interface tcp set global autotuninglevel=normal";
                       "netsh interface tcp set global ecncapability=enabled";
                       "netsh interface tcp set global rss=enabled";
                       "netsh interface tcp set global chimney=disabled";
                       "netsh interface tcp set global congestionprovider=none";
                       "netsh interface tcp set global timestamps=enabled" ]
               | _ => False
               end) by by vm_compute.
  rewrite Hrun in Hc. cbn [snd] in Hc. by rewrite Hfile in Hc.
Defined.

Lemma backup_queries_same_host iface w w' :
  same_host w w' → backup_queries iface w' = backup_queries iface w.
Proof.
  intros (Hw & _ & Hi & _). unfold backup_queries, query, backup_iface.
  by rewrite Hw, Hi.
Qed.

(** X10. The two paths of [reset_all].  With a readable snapshot the
    reset replays the snapshot and does nothing else: none of the
    defaults is applied.  On a Windows host without a snapshot file the
    reset applies the defaults in this order: the four TCP defaults, the
    provider [none] and the timestamps [enabled], then, after a capture
    of its own, the DNS configuration it has just captured and the cache
    flush, and last, after one more capture, the balanced power plan.  The
    DNS configuration is the one probed after the six default commands.
    It leaves a snapshot file behind that was taken after the TCP defaults
    were set. *)
Theorem reset_all_paths (w : World) :
  (∀ d, readable w d →
     ∃ w', Lite.reset_all w = (Ret (inr true), w') ∧
           issued w' = issued w ++ restore_cmds d) ∧
  (∀ i, windows w = true → backup_file w = Missing → io_script w = [] →
        iface_var w = Some i →
     ∃ w' w3 info,
       Lite.reset_all w = (Ret (inr false), w') ∧
       issued w' = issued w3 ++ backup_queries None w
                     ++ ["powercfg /setactive 381b4222-f694-41f0-9685-ff5bb260df2e"] ∧
       issued w3 = issued w ++ Lite.tcp_off_cmds ++ latency_off_cmds
                     ++ backup_queries (Some (dns_name i)) w
                     ++ dns_entry_cmds (dns_name i) info
                     ++ ["netsh ipconfig /flushdns"] ∧
       dns (backup_data (Some (dns_name i))
              (record_all latency_off_cmds (record_all Lite.tcp_off_cmds w)))
         = [(dns_name i, info)] ∧
       backup_file w' = Holds (backup_data None w3)).
Proof.
  split.
  - intros d Hr. rewrite (reset_all_readable w d Hr). eexists.
    split; [reflexivity|].
    by rewrite issued_add_log, issued_record_all, issued_set_file.
  - intros i Hwin Hmiss Hio Hif.
    set (w1 := record_all Lite.tcp_off_cmds w).
    assert (H1 : same_host w w1) by apply same_host_record_all.
    assert (Hf1 : backup_file w1 = Missing)
      by (subst w1; by rewrite backup_file_record_all).
    assert (Hio1 : io_script w1 = [])
      by (subst w1; by rewrite io_script_record_all).
    set (w2 := record_all latency_off_cmds w1).
    assert (H2 : same_host w w2)
      by (eapply same_host_trans; [exact H1|apply same_host_record_all]).
    assert (Hio2 : io_script w2 = [])
      by (subst w2; by rewrite io_script_record_all).
    set (name := dns_name i).
    set (wb := after_backup (Some name) w2).
    assert (Hfb : backup_file wb = Holds (backup_data (Some name) w2))
      by by apply backup_file_after_backup.
    assert (Hiob : io_script wb = [])
      by (subst wb; by rewrite io_script_after_backup, Hio2).
    assert (Hreadb : read_outcome wb = inr (backup_data (Some name) w2)).
    { unfold read_outcome. by rewrite Hiob, Hfb. }
    assert (Hname : backup_iface (Some name) w2 = name).
    { unfold backup_iface. cbn [Py.otruthy]. subst name.
      by rewrite dns_name_truthy. }
    set (info := dns_of name (record_all (query show_global_cmd w2) w2)).
    assert (Hout : dns_mode_outcome false name wb
                   = ((0, "DNS restored from backup"),
                      dns_entry_cmds name info ++ [flush_cmd])).
    { unfold dns_mode_outcome, file_exists. rewrite Hfb, Hreadb.
      unfold backup_data. cbn [dns]. rewrite Hname.
      by rewrite dict_get_head. }
    set (w3 := record_all (dns_entry_cmds name info ++ [flush_cmd])
                 (dns_mode_world false wb)).
    assert (H3 : same_host w w3).
    { eapply same_host_trans; [exact H2|].
      eapply same_host_trans; [apply same_host_after_backup|].
      eapply same_host_trans;
        [apply same_host_dns_mode_world|apply same_host_record_all]. }
    assert (Hio3 : io_script w3 = []).
    { subst w3. rewrite io_script_record_all.
      by apply io_script_dns_mode_world. }
    set (w4 := record_cmd (power_cmd false) (after_backup None w3)).
    assert (Hwin1 : windows w1 = true) by (destruct H1 as [-> _]; done).
    assert (Hwin2 : windows w2 = true) by (destruct H2 as [-> _]; done).
    assert (Hwin3 : windows w3 = true) by (destruct H3 as [-> _]; done).
    assert (Hif2 : iface_var w2 = Some i)
      by (destruct H2 as (_ & _ & -> & _); done).
    exists w4, w3, info. split_and!.
    + unfold Lite.reset_all. eapply try_ret.
      erewrite bind_eq by (unfold backup_exists; rewrite Hmiss; reflexivity).
      erewrite bind_eq by apply mret_eq. cbv beta iota.
      assert (Htw : Lite.apply_tcp_tweaks false false w
                    = (Ret (0, "TCP tweaks applied"), w1)).
      { rewrite apply_tcp_tweaks_eq by done. cbv zeta.
        unfold after_capture, restorable, after_attempt, file_exists.
        by rewrite Hmiss. }
      erewrite bind_eq by apply Htw.
      assert (Hll : Lite.set_low_latency_mode false false w1
                    = (Ret (0, "Low latency applied"), w2)).
      { rewrite set_low_latency_mode_eq by done. cbv zeta.
        unfold after_capture, latency_outcome, dns_mode_world, file_exists.
        by rewrite Hf1. }
      erewrite bind_eq by apply Hll.
      erewrite bind_eq by (by apply iface_var_get_eq).
      erewrite bind_eq by (rewrite apply_dns_mode_eq by done; reflexivity).
      fold name wb. rewrite Hout. cbn [snd]. fold w3.
      erewrite bind_eq by (rewrite set_power_plan_eq by done; reflexivity).
      reflexivity.
    + subst w4. cbn [record_cmd issued]. rewrite issued_after_backup.
      rewrite (backup_queries_same_host None w w3) by done.
      by rewrite <- app_assoc.
    + subst w3. rewrite issued_record_all.
      assert (issued (dns_mode_world false wb) = issued wb) as ->
        by (unfold dns_mode_world; by repeat case_match).
      subst wb. rewrite issued_after_backup.
      subst w2. rewrite issued_record_all.
      subst w1. rewrite issued_record_all.
      rewrite (backup_queries_same_host _ w (record_all _ (record_all _ w)))
        by done.
      by rewrite <- !app_assoc.
    + fold w1 w2. unfold backup_data. cbn [dns]. by rewrite Hname.
    + subst w4. rewrite backup_file_record_cmd.
      by apply backup_file_after_backup.
Qed.

Lemma reset_all_paths_witness :
  windows fresh_host = true ∧ backup_file fresh_host = Missing ∧
  io_script fresh_host = [] ∧ iface_var fresh_host = Some "Ethernet" ∧
  ∃ w', Lite.reset_all fresh_host = (Ret (inr false), w') ∧
        last (issued w')
          = Some "powercfg /setactive 381b4222-f694-41f0-9685-ff5bb260df2e".
Proof.
  split; [reflexivity|]. split; [reflexivity|]. split; [reflexivity|].
  split; [reflexivity|].
  destruct (proj2 (reset_all_paths fresh_host) "Ethernet"
              eq_refl eq_refl eq_refl eq_refl)
    as (w' & w3 & info & Hrun & Hiss & _).
  exists w'. split; [exact Hrun|]. rewrite Hiss, app_assoc. apply last_snoc.
Defined.

(** ** The list of interfaces *)

Lemma name_runs_head n s :
  one_line s = true → (3 ≤ n + String.length s)%nat →
  ∃ l, Lite.name_runs n s = EmptyString :: l.
Proof.
  revert n. induction s as [|c s IH]; intros n Hs Hn; cbn [Lite.name_runs].
  - cbn in Hn. destruct (3 <=? n)%nat eqn:E; [by eexists|].
    apply Nat.leb_gt in E. lia.
  - cbn in Hs. apply andb_true_iff in Hs as [-> Hs].
    destruct (IH (S n) Hs) as [l ->]; [cbn in Hn; lia|]. by eexists.
Qed.

Lemma name_runs_short n s :
  (n + String.length s < 3)%nat → Lite.name_runs n s = [].
Proof.
  revert n. induction s as [|c s IH]; intros n Hn; cbn [Lite.name_runs].
  - cbn in Hn. destruct (3 <=? n)%nat eqn:E; [|done].
    apply Nat.leb_le in E. lia.
  - cbn in Hn. rewrite IH by lia.
    destruct (3 <=? n)%nat eqn:E; [apply Nat.leb_le in E; lia|].
    by destruct (Lite.name_char c).
Qed.

Lemma consumed_nil s : Re.consumed s EmptyString = s.
Proof. by rewrite <- (sapp_nil_r s) at 1; rewrite consumed_sapp. Qed.

Lemma name_at_boundary p s :
  Re.at_boundary p s = true → one_line s = true →
  (3 ≤ String.length s)%nat → Lite.name_at p s = Some s.
Proof.
  intros Hb Hs Hn. unfold Lite.name_at. rewrite Hb.
  destruct (name_runs_head 0 s Hs) as [l ->]; [lia|].
  cbn. by rewrite consumed_nil.
Qed.

Lemma name_at_no_boundary p s :
  Re.at_boundary p s = false → Lite.name_at p s = None.
Proof. unfold Lite.name_at. by intros ->. Qed.

(** The pattern of [list_interfaces] on a line without CR and LF: the
    match starts at the first word character of the line and runs to its
    end. *)
Lemma name_search_first_word p pre c s :
  Re.oword p = false → no_word pre = true → Py.isword c = true →
  one_line (String c s) = true → (3 ≤ String.length (String c s))%nat →
  Lite.name_search p (pre +:+ String c s) = Some (String c s).
Proof.
  revert p. induction pre as [|a pre IH]; intros p Hp Hpre Hc Hs Hn.
  - rewrite sapp_nil_l. cbn [Lite.name_search].
    rewrite name_at_boundary; try done.
    by rewrite at_boundary_before_word, Hp.
  - rewrite sapp_cons. cbn [Lite.name_search].
    cbn in Hpre. apply andb_true_iff in Hpre as [Ha Hpre].
    apply negb_true_iff in Ha.
    rewrite name_at_no_boundary.
    + by apply IH.
    + unfold Re.at_boundary. rewrite Hp. cbn. by rewrite Ha.
Qed.

Lemma name_search_short p s :
  (String.length s < 3)%nat → Lite.name_search p s = None.
Proof.
  revert p. induction s as [|c s IH]; intros p Hn; cbn [Lite.name_search].
  - unfold Lite.name_at. rewrite name_runs_short by (cbn; lia).
    by destruct (Re.at_boundary p EmptyString).
  - unfold Lite.name_at. rewrite name_runs_short by (cbn in *; lia).
    destruct (Re.at_boundary p (String c s)); cbn; apply IH; cbn in Hn; lia.
Qed.

Lemma one_line_app s t :
  one_line (s +:+ t) = one_line s && one_line t.
Proof.
  induction s as [|c s IH]; [done|]. rewrite sapp_cons. cbn.
  by rewrite IH, andb_assoc.
Qed.

Lemma one_line_rev_app s t :
  one_line (String.rev_app s t) = one_line s && one_line t.
Proof.
  revert t. induction s as [|c s IH]; intros t; [done|].
  cbn [String.rev_app]. rewrite IH. cbn.
  by rewrite andb_assoc, (andb_comm (one_line s)).
Qed.

Lemma one_line_rev s : one_line (String.rev s) = one_line s.
Proof. unfold String.rev. by rewrite one_line_rev_app, andb_true_r. Qed.

Lemma linebreak_name_char c :
  Py.islinebreak c = false → Lite.name_char c = true.
Proof.
  unfold Lite.name_char. intros H.
  destruct (Ascii.eqb_spec c "013"); [by subst|].
  destruct (Ascii.eqb_spec c "010"); [by subst|]. done.
Qed.

Lemma splitlines_go_one_line n s cur line :
  (String.length s ≤ n)%nat →
  one_line (default EmptyString cur) = true →
  line ∈ Py.splitlines_go cur s → one_line line = true.
Proof.
  revert s cur. induction n as [|n IH]; intros s cur Hn Hcur.
  - destruct s; [|cbn in Hn; lia]. cbn [Py.splitlines_go].
    destruct cur as [x|]; cbn; [|by intros ?%elem_of_nil].
    intros ->%list_elem_of_singleton. by rewrite one_line_rev.
  - destruct s as [|c s]; cbn [Py.splitlines_go].
    { destruct cur as [x|]; cbn; [|by intros ?%elem_of_nil].
      intros ->%list_elem_of_singleton. by rewrite one_line_rev. }
    cbn in Hn.
    destruct (Py.islinebreak c) eqn:Hc.
    + intros [-> | H]%elem_of_cons; [by rewrite one_line_rev|].
      assert (Hcases :
        line ∈ Py.splitlines_go None s ∨
        ∃ s'', s = String "010" s'' ∧ line ∈ Py.splitlines_go None s'').
      { destruct c as [[] [] [] [] [] [] [] []]; try (by left);
          destruct s as [|c' s']; try (by left).
        destruct c' as [[] [] [] [] [] [] [] []]; try (by left).
        right. by eexists. }
      destruct Hcases as [H' | (s'' & -> & H')].
      * eapply (IH s None); [lia|done|done].
      * eapply (IH s'' None); [cbn in Hn; lia|done|done].
    + apply IH; [lia|]. cbn. by rewrite Hcur, linebreak_name_char.
Qed.

Lemma splitlines_one_line out line :
  line ∈ Py.splitlines out → one_line line = true.
Proof.
  by apply (splitlines_go_one_line (String.length out) out None).
Qed.

Lemma one_line_lstrip s : one_line s = true → one_line (Py.lstrip s) = true.
Proof.
  induction s as [|c s IH]; [done|]. cbn [Py.lstrip].
  destruct (Py.isspace c); [|done].
  cbn. intros [_ H]%andb_true_iff. by apply IH.
Qed.

Lemma one_line_rstrip s : one_line s = true → one_line (Py.rstrip s) = true.
Proof.
  induction s as [|c s IH]; [done|]. cbn [Py.rstrip one_line].
  intros [Hc H]%andb_true_iff. specialize (IH H).
  destruct (Py.rstrip s); [|by cbn in *; rewrite Hc].
  destruct (Py.isspace c); [done|]. cbn. by rewrite Hc.
Qed.

Lemma one_line_strip s : one_line s = true → one_line (Py.strip s) = true.
Proof. intros H. by apply one_line_rstrip, one_line_lstrip. Qed.

Lemma rstrip_idem s : Py.rstrip (Py.rstrip s) = Py.rstrip s.
Proof.
  induction s as [|c s IH]; [done|]. cbn [Py.rstrip].
  destruct (Py.rstrip s) as [|c' r] eqn:E.
  - destruct (Py.isspace c) eqn:Hc; [done|]. cbn. by rewrite Hc.
  - cbn [Py.rstrip]. cbn [Py.rstrip] in IH. by rewrite IH.
Qed.

Lemma isword_not_space c : Py.isword c = true → Py.isspace c = false.
Proof. by destruct c as [[] [] [] [] [] [] [] []]. Qed.

(** A stripped line that begins with a word character is its own
    strip. *)
Lemma strip_stripped line c s :
  Py.strip line = String c s → Py.isword c = true →
  Py.strip (String c s) = String c s.
Proof.
  intros Hl Hc. unfold Py.strip at 1. cbn [Py.lstrip].
  rewrite isword_not_space by done. rewrite <- Hl. apply rstrip_idem.
Qed.

Lemma scan_interface_mono names line n :
  n ∈ names → n ∈ Lite.scan_interface names line.
Proof.
  intros H. unfold Lite.scan_interface. cbv zeta.
  repeat case_match; try done. apply elem_of_app. by left.
Qed.

Lemma parse_interfaces_mono lines names n :
  n ∈ names → n ∈ fold_left Lite.scan_interface lines names.
Proof.
  revert names. induction lines as [|l lines IH]; intros names H; [done|].
  cbn [fold_left]. by apply IH, scan_interface_mono.
Qed.

Lemma scan_interface_clean names line :
  clean_names names → clean_names (Lite.scan_interface names line).
Proof.
  intros [Hnd Hh]. unfold Lite.scan_interface. cbv zeta.
  destruct (negb _); [done|].
  destruct (Lite.name_search None _) as [g|]; [|done].
  destruct (bool_decide _) eqn:E1; [done|].
  destruct (bool_decide (Py.strip g ∈ names)) eqn:E2; [done|].
  apply bool_decide_eq_false in E1, E2. split.
  - apply NoDup_app. split_and!; [done| |apply NoDup_singleton].
    intros x Hx ->%list_elem_of_singleton. done.
  - intros n [H | ->%list_elem_of_singleton]%elem_of_app; [by apply Hh|done].
Qed.

Lemma parse_interfaces_clean lines names :
  clean_names names → clean_names (fold_left Lite.scan_interface lines names).
Proof.
  revert names. induction lines as [|l lines IH]; intros names H; [done|].
  cbn [fold_left]. by apply IH, scan_interface_clean.
Qed.

Lemma scan_interface_row names line c s :
  one_line line = true →
  Py.strip line = String c s → Py.isword c = true →
  (3 ≤ String.length (String c s))%nat →
  Py.lower (String c s) ∉ Lite.headers →
  String c s ∈ Lite.scan_interface names line.
Proof.
  intros Hone Hl Hc Hn Hh. unfold Lite.scan_interface. cbv zeta.
  rewrite Hl. cbn [Py.truthy negb].
  assert (Hs : Lite.name_search None (String c s) = Some (String c s)).
  { apply (name_search_first_word None EmptyString c s); try done.
    rewrite <- Hl. by apply one_line_strip. }
  rewrite Hs, (strip_stripped line c s) by done.
  rewrite bool_decide_eq_false_2 by done.
  destruct (bool_decide _) eqn:E.
  - by apply bool_decide_eq_true in E.
  - apply elem_of_app. right. by apply list_elem_of_singleton.
Qed.

Lemma parse_interfaces_row out line c s :
  line ∈ Py.splitlines out →
  Py.strip line = String c s → Py.isword c = true →
  (3 ≤ String.length (String c s))%nat →
  Py.lower (String c s) ∉ Lite.headers →
  String c s ∈ Lite.parse_interfaces out.
Proof.
  intros Hin Hl Hc Hn Hh. unfold Lite.parse_interfaces.
  pose proof (splitlines_one_line out line Hin) as Hone.
  apply list_elem_of_split in Hin as (l1 & l2 & ->).
  rewrite fold_left_app. cbn [fold_left].
  by apply parse_interfaces_mono, scan_interface_row.
Qed.

(** X11. [list_interfaces] returns whole rows, not interface names.  When
    the first query succeeds with some output, it is the only command
    run; the list returned has no entry twice and none that is one of the
    five header words; and every line of the report that, once stripped,
    begins with a word character and is at least three characters long is
    returned whole, with all its columns, unless the whole line is a
    header word.  So the table header and each row of the table are
    listed as interfaces. *)
Theorem list_interfaces_rows (w : World) (out : string) :
  windows w = true →
  lite_outcome (shell w (issued w) "netsh interface show interface" 8)
    = (0, out) →
  out ≠ EmptyString →
  ∃ names,
    Lite.list_interfaces w
      = (Ret names, record_cmd "netsh interface show interface" w) ∧
    NoDup names ∧
    (∀ n, n ∈ names → Py.lower n ∉ Lite.headers) ∧
    (∀ line c s,
       line ∈ Py.splitlines out →
       Py.strip line = String c s → Py.isword c = true →
       (3 ≤ String.length (String c s))%nat →
       Py.lower (String c s) ∉ Lite.headers →
       String c s ∈ names).
Proof.
  intros Hwin Hout Hne. exists (Lite.parse_interfaces out).
  split_and!.
  - unfold Lite.list_interfaces.
    erewrite bind_eq by reflexivity. rewrite Hwin. cbn [negb].
    erewrite bind_eq by apply run_netsh_eq.
    change (netsh_full "interface show interface")
      with "netsh interface show interface".
    rewrite Hout. cbn [negb Z.eqb orb].
    destruct out; [done|]. reflexivity.
  - apply (parse_interfaces_clean _ []). split; [constructor|].
    by intros n ?%elem_of_nil.
  - apply (parse_interfaces_clean _ []). split; [constructor|].
    by intros n ?%elem_of_nil.
  - intros line c s. apply parse_interfaces_row.
Qed.

Lemma list_interfaces_rows_witness :
  windows adapter_host = true ∧
  lite_outcome (shell adapter_host (issued adapter_host)
                  "netsh interface show interface" 8)
    = (0, Py.strip show_interface_text) ∧
  fst (Lite.list_interfaces adapter_host)
    = Ret [ "Admin State    State          Type             Interface Name";
            "Enabled        Connected      Dedicated        Ethernet" ] ∧
  ∃ names,
    Lite.list_interfaces adapter_host
      = (Ret names, record_cmd "netsh interface show interface" adapter_host) ∧
    "Enabled        Connected      Dedicated        Ethernet" ∈ names.
Proof.
  split; [reflexivity|]. split; [by vm_compute|]. split; [by vm_compute|].
  destruct (list_interfaces_rows adapter_host (Py.strip show_interface_text))
    as (names & Hrun & _ & _ & Hrows);
    [reflexivity|by vm_compute|by vm_compute|].
  exists names. split; [exact Hrun|].
  apply (Hrows "Enabled        Connected      Dedicated        Ethernet").
  - apply (bool_decide_unpack _). by vm_compute.
  - by vm_compute.
  - reflexivity.
  - cbn. lia.
  - apply (bool_decide_unpack _). by vm_compute.
Defined.

(** ** Off Windows *)

(** X21. Off Windows the four operations of the Lite program and the
    listing of the interfaces do nothing: each operation returns status 1
    with the message [Unsupported], the listing is empty, no command is
    run and no file is touched.  The capture has no such guard: it still
    runs [powercfg /getactivescheme], its only command there, and, when
    the file can be written, stores a snapshot with an empty TCP record
    and a DNS entry without servers. *)
Theorem lite_off_windows (w : World) :
  windows w = false →
  (∀ enable backup,
     Lite.apply_tcp_tweaks enable backup w = (Ret (1, "Unsupported"), w)) ∧
  (∀ enable backup,
     Lite.set_low_latency_mode enable backup w
       = (Ret (1, "Unsupported"), w)) ∧
  (∀ enable iface,
     Lite.apply_dns_mode enable iface w = (Ret (1, "Unsupported"), w)) ∧
  (∀ high_perf,
     Lite.set_power_plan high_perf w = (Ret (1, "Unsupported"), w)) ∧
  Lite.list_interfaces w = (Ret [], w) ∧
  (∀ iface,
     ∃ b w',
       Lite.backup_settings iface w = (Ret b, w') ∧
       issued w' = issued w ++ ["powercfg /getactivescheme"] ∧
       (head (io_script w) = None ∨ head (io_script w) = Some IoOk →
        b = true ∧
        ∃ p, backup_file w'
             = Holds (mkSnapshot [] [(backup_iface iface w, mkDns false [])]
                        p (log_mtime w)))).
Proof.
  intros Hwin.
  unfold Lite.apply_tcp_tweaks, Lite.set_low_latency_mode,
    Lite.apply_dns_mode, Lite.set_power_plan, Lite.list_interfaces.
  split_and!; intros;
    try (erewrite bind_eq by reflexivity; by rewrite Hwin).
  rewrite backup_settings_eq. eexists _, _. split; [reflexivity|].
  split.
  - rewrite issued_after_backup. unfold backup_queries, query.
    by rewrite Hwin.
  - intros Hio. unfold after_backup, backup_outcome, backup_data.
    unfold tcp_of, dns_of, query. rewrite Hwin. cbn [record_all fold_left].
    rewrite Hwin.
    destruct Hio as [-> | ->]; cbn; split; try done; by eexists.
Qed.

Lemma lite_off_windows_witness :
  windows linux_host = false ∧
  Lite.apply_dns_mode true "eth0" linux_host
    = (Ret (1, "Unsupported"), linux_host) ∧
  ∃ w', Lite.backup_settings None linux_host = (Ret true, w') ∧
        issued w' = ["powercfg /getactivescheme"] ∧
        backup_file w'
          = Holds (mkSnapshot [] [("Ethernet", mkDns false [])] None None).
Proof.
  split; [reflexivity|].
  destruct (lite_off_windows linux_host eq_refl)
    as (_ & _ & Hdns & _ & _ & Hcap).
  split; [apply Hdns|].
  destruct (Hcap None) as (b & w' & Hrun & Hiss & Hfile).
  destruct Hfile as [-> (p & Hp)]; [by left|].
  exists w'. split; [exact Hrun|]. split; [exact Hiss|].
  assert (Hc : backup_file (snd (Lite.backup_settings None linux_host))
               = Holds (mkSnapshot [] [("Ethernet", mkDns false [])]
                          None None)) by by vm_compute.
  by rewrite Hrun in Hc.
Defined.

(** ** The operations of the Premium program *)

Lemma is_admin_eq token w :
  Premium.is_admin token w = (Ret (windows w && elevated token), w).
Proof.
  unfold Premium.is_admin. erewrite bind_eq by reflexivity.
  destruct (windows w); [|done]. by destruct token.
Qed.

Lemma repair_loop_eq cmds results w :
  Premium.repair_loop cmds results w
    = (Ret (results ++ repair_entries (shell w) (issued w) cmds),
       record_all cmds w).
Proof.
  revert results w. induction cmds as [|c cmds IH]; intros results w.
  - cbn. by rewrite app_nil_r.
  - cbn [Premium.repair_loop repair_entries].
    erewrite bind_eq by apply premium_run_cmd_eq.
    destruct (premium_outcome _) as [code out] eqn:E.
    rewrite IH. cbn [record_cmd issued fst snd].
    by rewrite <- app_assoc.
Qed.

Lemma set_dns_interface_eq token adapter primary secondary w :
  windows w = true → elevated token = true →
  let c1 := Premium.set_dns_cmd adapter primary in
  let o1 := premium_outcome (shell w (issued w) c1 20) in
  Premium.set_dns_interface token adapter primary secondary w =
    if Py.otruthy secondary then
      let c2 := Premium.add_dns_cmd adapter (default EmptyString secondary) in
      let o2 := premium_outcome (shell w (issued w ++ [c1]) c2 20) in
      (Ret (if fst o1 =? 0 then fst o2 else fst o1,
            snd o1 +:+ String "010" (snd o2)),
       record_all [c1; c2] w)
    else (Ret o1, record_cmd c1 w).
Proof.
  intros Hwin Hadm. cbv zeta. unfold Premium.set_dns_interface.
  erewrite bind_eq by reflexivity. rewrite Hwin. cbn [negb].
  erewrite bind_eq by apply is_admin_eq. rewrite Hwin, Hadm. cbn [negb andb].
  erewrite bind_eq by apply premium_run_cmd_eq.
  destruct (premium_outcome _) as [code out] eqn:E1. cbn [fst snd].
  destruct (Py.otruthy secondary); [|done].
  erewrite bind_eq by apply premium_run_cmd_eq.
  cbn [record_cmd issued shell].
  destruct (premium_outcome (shell w (issued w ++ _) _ 20)) as [c2 o2].
  reflexivity.
Qed.

(** X12. [set_dns_interface] on Windows with administrator rights.
    Without a secondary server it runs the one command that sets the
    primary and returns its status and output.  With a secondary server it
    runs the second command whatever the first one did, and the status it
    returns is the first status that is not 0: it is 0 exactly when both
    commands returned 0, and a failure of the first command hides the
    status of the second.  The output is the two outputs joined by a line
    feed. *)
Theorem set_dns_interface_status (token : option Z)
    (adapter primary : string) (secondary : option string) (w : World) :
  windows w = true → elevated token = true →
  ∃ code out w' c1 o1,
    Premium.set_dns_interface token adapter primary secondary w
      = (Ret (code, out), w') ∧
    c1 = "netsh interface ip set dns name=" +:+ dq +:+ adapter +:+ dq
           +:+ " static " +:+ primary +:+ " validate=no" ∧
    o1 = premium_outcome (shell w (issued w) c1 20) ∧
    match secondary with
    | None | Some EmptyString =>
        issued w' = issued w ++ [c1] ∧ (code, out) = o1
    | Some s =>
        ∃ c2 o2,
          c2 = "netsh interface ip add dns name=" +:+ dq +:+ adapter +:+ dq
                 +:+ " " +:+ s +:+ " index=2" ∧
          o2 = premium_outcome (shell w (issued w ++ [c1]) c2 20) ∧
          issued w' = issued w ++ [c1; c2] ∧
          (code = 0 ↔ fst o1 = 0 ∧ fst o2 = 0) ∧
          (fst o1 ≠ 0 → code = fst o1) ∧
          (fst o1 = 0 → code = fst o2) ∧
          out = snd o1 +:+ String "010" (snd o2)
    end.
Proof.
  intros Hwin Hadm. rewrite set_dns_interface_eq by done. cbv zeta.
  set (c1 := Premium.set_dns_cmd adapter primary).
  set (o1 := premium_outcome (shell w (issued w) c1 20)).
  destruct secondary as [[|a s]|]; cbn [Py.otruthy Py.truthy default].
  - exists (fst o1), (snd o1), (record_cmd c1 w), c1, o1.
    split; [by destruct o1|]. split_and!; try done. by destruct o1.
  - set (c2 := Premium.add_dns_cmd adapter (String a s)).
    set (o2 := premium_outcome (shell w (issued w ++ [c1]) c2 20)).
    eexists _, _, _, c1, o1. split; [reflexivity|]. split_and!; try done.
    exists c2, o2. split_and!; try done.
    + by rewrite issued_record_all.
    + destruct (fst o1 =? 0) eqn:E.
      * apply Z.eqb_eq in E. by split; [|intros [_ ?]].
      * apply Z.eqb_neq in E. split; [done|]. by intros [? _].
    + intros H. apply Z.eqb_neq in H. by rewrite H.
    + intros H. apply Z.eqb_eq in H. by rewrite H.
  - exists (fst o1), (snd o1), (record_cmd c1 w), c1, o1.
    split; [by destruct o1|]. split_and!; try done. by destruct o1.
Qed.

Lemma set_dns_interface_status_witness :
  windows refusing_host = true ∧ elevated (Some 1) = true ∧
  ∃ w', Premium.set_dns_interface (Some 1) "Wi-Fi" "1.1.1.1" (Some "1.0.0.1")
          refusing_host
        = (Ret (1, "The requested operation requires elevation."
                     +:+ String "010"
                           "The requested operation requires elevation."),
           w') ∧
        length (issued w') = 2%nat.
Proof.
  split; [reflexivity|]. split; [reflexivity|].
  destruct (set_dns_interface_status (Some 1) "Wi-Fi" "1.1.1.1"
              (Some "1.0.0.1") refusing_host eq_refl eq_refl)
    as (code & out & w' & c1 & o1 & Hrun & -> & -> & c2 & o2 & -> & ->
        & Hiss & _ & Hcode & _ & ->).
  exists w'. rewrite Hrun, Hiss. split; [|reflexivity].
  by rewrite Hcode.
Defined.

(** X13. [repair_network_stack] never reports a failure.  On Windows with
    administrator rights it runs its four commands in order, each with a
    timeout of 20 seconds and whatever the one before did, and returns
    status 0 with one entry for each command, in order, holding the
    command, its status and its output; the status is 0 even when every
    command failed or timed out. *)
Theorem repair_always_reports_success (token : option Z) (w : World) :
  windows w = true → elevated token = true →
  ∃ results w',
    Premium.repair_network_stack token w = (Ret (0, inr results), w') ∧
    issued w' = issued w ++ [ "netsh int ip reset"; "netsh winsock reset";
                              "ipconfig /release"; "ipconfig /renew" ] ∧
    length results = 4%nat ∧
    ∀ i c code out,
      results !! i = Some (c, code, out) →
      Premium.repair_cmds !! i = Some c ∧
      (code, out)
        = premium_outcome
            (shell w (issued w ++ take i Premium.repair_cmds) c 20).
Proof.
  intros Hwin Hadm. unfold Premium.repair_network_stack.
  erewrite bind_eq by reflexivity. rewrite Hwin. cbn [negb].
  erewrite bind_eq by apply is_admin_eq. rewrite Hwin, Hadm. cbn [negb andb].
  erewrite bind_eq by apply repair_loop_eq. rewrite app_nil_l.
  eexists _, _. split; [reflexivity|]. split; [by rewrite issued_record_all|].
  split; [reflexivity|].
  intros i c code out Hi. unfold Premium.repair_cmds in *.
  cbn [repair_entries] in Hi.
  destruct i as [|[|[|[|i]]]]; cbn in Hi; try discriminate Hi;
    injection Hi as <- <- <-; cbn [take]; rewrite ?app_nil_r, <- ?app_assoc;
    split; try reflexivity; by destruct (premium_outcome _).
Qed.

Lemma repair_always_reports_success_witness :
  windows hung_world = true ∧ elevated (Some 1) = true ∧
  ∃ w', Premium.repair_network_stack (Some 1) hung_world
        = (Ret (0, inr [ ("netsh int ip reset", 1, "Timed out");
                         ("netsh winsock reset", 1, "Timed out");
                         ("ipconfig /release", 1, "Timed out");
                         ("ipconfig /renew", 1, "Timed out") ]), w').
Proof.
  split; [reflexivity|]. split; [reflexivity|].
  destruct (repair_always_reports_success (Some 1) hung_world eq_refl eq_refl)
    as (results & w' & Hrun & _).
  exists w'.
  assert (Hc : fst (Premium.repair_network_stack (Some 1) hung_world)
               = Ret (0, inr [ ("netsh int ip reset", 1, "Timed out");
                               ("netsh winsock reset", 1, "Timed out");
                               ("ipconfig /release", 1, "Timed out");
                               ("ipconfig /renew", 1, "Timed out") ]))
    by by vm_compute.
  rewrite Hrun in Hc. cbn [fst] in Hc. by rewrite Hrun, Hc.
Defined.

(** X14. The guards of the Premium operations.  Off Windows each of the
    five operations returns status 1 with the message [Unsupported] and
    runs nothing, whatever the rights.  On Windows without administrator
    rights (the system call answers 0, or raises) the three operations
    that change the adapter or the stack return status 2 with the message
    [Admin required] and run nothing, while [dns_flush] and
    [set_power_plan_high] do not look at the rights and run their
    command. *)
Theorem premium_guards (token : option Z) (w : World) :
  (windows w = false →
   (∀ a p s, Premium.set_dns_interface token a p s w
               = (Ret (1, "Unsupported"), w)) ∧
   (∀ a m, Premium.apply_mtu token a m w = (Ret (1, "Unsupported"), w)) ∧
   Premium.repair_network_stack token w = (Ret (1, inl "Unsupported"), w) ∧
   Premium.dns_flush w = (Ret (1, "Unsupported"), w) ∧
   Premium.set_power_plan_high w = (Ret (1, "Unsupported"), w)) ∧
  (windows w = true → token = None ∨ token = Some 0 →
   (∀ a p s, Premium.set_dns_interface token a p s w
               = (Ret (2, "Admin required"), w)) ∧
   (∀ a m, Premium.apply_mtu token a m w = (Ret (2, "Admin required"), w)) ∧
   Premium.repair_network_stack token w
     = (Ret (2, inl "Admin required"), w) ∧
   issued (snd (Premium.dns_flush w)) = issued w ++ ["ipconfig /flushdns"] ∧
   issued (snd (Premium.set_power_plan_high w))
     = issued w ++ ["powercfg /setactive SCHEME_MIN"]).
Proof.
  split.
  - intros Hwin.
    unfold Premium.set_dns_interface, Premium.apply_mtu,
      Premium.repair_network_stack, Premium.dns_flush,
      Premium.set_power_plan_high.
    split_and!; intros; erewrite bind_eq by reflexivity; by rewrite Hwin.
  - intros Hwin Htok.
    assert (Hadm : elevated token = false) by (by destruct Htok as [-> | ->]).
    unfold Premium.set_dns_interface, Premium.apply_mtu,
      Premium.repair_network_stack, Premium.dns_flush,
      Premium.set_power_plan_high.
    split_and!; intros; erewrite bind_eq by reflexivity; rewrite Hwin;
      cbn [negb];
      try (erewrite bind_eq by apply is_admin_eq; by rewrite Hwin, Hadm);
      by rewrite premium_run_cmd_eq.
Qed.

Lemma premium_guards_witness :
  (windows linux_host = false ∧
   Premium.dns_flush linux_host = (Ret (1, "Unsupported"), linux_host)) ∧
  windows fresh_host = true ∧
  Premium.apply_mtu (Some 0) "Ethernet" 1480 fresh_host
    = (Ret (2, "Admin required"), fresh_host) ∧
  issued (snd (Premium.dns_flush fresh_host)) = ["ipconfig /flushdns"].
Proof.
  split.
  { split; [reflexivity|].
    by destruct (proj1 (premium_guards None linux_host) eq_refl)
      as (_ & _ & _ & Hflush & _). }
  split; [reflexivity|].
  destruct (proj2 (premium_guards (Some 0) fresh_host) eq_refl)
    as (_ & Hmtu & _ & Hflush & _); [by right|].
  split; [apply Hmtu|exact Hflush].
Defined.

(** ** The descent of the MTU probe *)

(** X15. The descent of [probe_mtu] for any bounds.  On Windows the
    probes are those of the candidates [start], [start - 10], and so on,
    in this order, each a ping with the don't-fragment flag and a payload
    of the candidate minus 28 bytes.  A suggestion is the first candidate
    whose ping is answered: it lies between [min_mtu] and [start] and
    differs from [start] by a multiple of 10.  No suggestion is made only
    after every candidate down to [min_mtu] has been probed without
    answer.  When [start] is below [min_mtu] no ping is sent. *)
Theorem probe_mtu_bounds (target : string) (start min_mtu : Z) (w : World) :
  windows w = true →
  ∃ (n : nat) (r : option Z),
    Premium.probe_mtu target start min_mtu w
      = (Ret r, record_all (probes target start n) w) ∧
    (start < min_mtu → n = 0%nat ∧ r = None) ∧
    (∀ i, (i < n)%nat → min_mtu ≤ start - 10 * Z.of_nat i) ∧
    match r with
    | Some c =>
        (1 ≤ n)%nat ∧ c = start - 10 * Z.of_nat (n - 1) ∧
        min_mtu ≤ c ≤ start ∧
        answer w target start (n - 1) = true ∧
        ∀ i, (i < n - 1)%nat → answer w target start i = false
    | None =>
        (∀ i, (i < n)%nat → answer w target start i = false) ∧
        start - 10 * Z.of_nat n < min_mtu
    end.
Proof.
  intros Hwin. unfold Premium.probe_mtu. rewrite Hwin. cbn [negb].
  destruct (probe_loop_spec (S (Premium.probe_turns start min_mtu))
              target start min_mtu w)
    as (n & r & Hrun & Hfuel & Hturns & Hbefore & Hr).
  assert (Hin : ∀ i, (i < n)%nat → min_mtu ≤ start - 10 * Z.of_nat i).
  { intros i Hi. unfold Premium.probe_turns in Hturns.
    assert (0 < (start - min_mtu) / 10 + 1) as Hpos by lia.
    assert (Z.of_nat i < (start - min_mtu) / 10 + 1) as Hlt by lia.
    pose proof (Z.mul_div_le (start - min_mtu) 10 eq_refl). lia. }
  exists n, r. split; [exact Hrun|]. split; [|split; [exact Hin|]].
  - intros Hlt. rewrite probe_turns_0 in Hturns by done.
    assert (n = 0%nat) as -> by lia. split; [done|].
    destruct r as [c|]; [|done]. destruct Hr as (? & _). lia.
  - destruct r as [c|].
    + destruct Hr as (Hn & -> & Hans). unfold candidate.
      split_and!; try done.
      * apply (Hin (n - 1)%nat). lia.
      * lia.
    + destruct Hr as [Hall ->]. split; [exact Hall|].
      rewrite Nat.min_r by lia. unfold Premium.probe_turns.
      pose proof (Z.mul_succ_div_gt (start - min_mtu) 10 eq_refl).
      lia.
Qed.

Lemma probe_mtu_bounds_witness :
  windows responder_world = true ∧
  ∃ n, Premium.probe_mtu "1.1.1.1" 1495 1300 responder_world
         = (Ret (Some 1475),
            record_all (probes "1.1.1.1" 1495 n) responder_world).
Proof.
  split; [reflexivity|].
  destruct (probe_mtu_bounds "1.1.1.1" 1495 1300 responder_world eq_refl)
    as (n & r & Hrun & _).
  exists n.
  assert (Hc : fst (Premium.probe_mtu "1.1.1.1" 1495 1300 responder_world)
               = Ret (Some 1475)) by by vm_compute.
  rewrite Hrun in Hc. cbn [fst] in Hc. by rewrite Hrun, Hc.
Defined.

(** ** The averages of the benchmark *)

Lemma fold_scan_line lines acc :
  fold_left Premium.scan_line lines acc
    = match last (filter (fun l => Py.contains "Average" l = true) lines) with
      | Some l => line_value l
      | None => acc
      end.
Proof.
  revert acc. induction lines as [|l lines IH]; intros acc; [done|].
  cbn [fold_left]. rewrite IH, scan_line_eq, filter_cons.
  destruct (decide (Py.contains "Average" l = true)) as [H|H].
  - rewrite H, last_cons. by destruct (last _).
  - apply not_true_is_false in H. by rewrite H.
Qed.

(** X16. The average [dns_benchmark] reads off a ping report is decided
    by the last line of the report that mentions [Average], and by that
    line alone: it is the number read on that line, and it is [None] when
    that line carries no number, even if an earlier line did.  A report
    that never mentions [Average] gives [None]. *)
Theorem parse_average_last_mention (out : string) :
  Premium.parse_average out
    = match last (mentions out) with
      | Some l => line_value l
      | None => None
      end.
Proof. unfold Premium.parse_average, mentions. apply fold_scan_line. Qed.

Lemma bench_loop_eq count timeout servers results w :
  Premium.bench_loop count timeout servers results w
    = (Ret (bench_results (shell w) count timeout (issued w) servers results),
       record_all (Premium.bench_cmd count timeout <$> servers) w).
Proof.
  revert results w. induction servers as [|s servers IH]; intros results w.
  - reflexivity.
  - cbn [Premium.bench_loop bench_results fmap list_fmap].
    set (out := snd (premium_outcome
                       (shell w (issued w)
                          (Premium.bench_cmd count timeout s) 10))).
    assert (Havg :
      try_except
        ('(code, out) ← Premium.run_cmd (Premium.bench_cmd count timeout s) 10;
         mret (Premium.parse_average out))
        (fun _ => mret None) w
      = (Ret (Premium.parse_average out),
         record_cmd (Premium.bench_cmd count timeout s) w)).
    { eapply try_ret. erewrite bind_eq by apply premium_run_cmd_eq.
      subst out. by destruct (premium_outcome _). }
    erewrite bind_eq by apply Havg. by rewrite IH.
Qed.

Lemma bench_results_notin sh count timeout hist servers results s :
  s ∉ servers →
  bench_results sh count timeout hist servers results !! s = results !! s.
Proof.
  revert hist results. induction servers as [|s' servers IH];
    intros hist results Hs; [done|].
  cbn [bench_results]. apply not_elem_of_cons in Hs as [Hne Hs].
  rewrite IH by done. by rewrite lookup_insert_ne.
Qed.

Lemma bench_results_at sh count timeout hist servers results i s :
  servers !! i = Some s → s ∉ drop (S i) servers →
  bench_results sh count timeout hist servers results !! s
    = Some (Premium.parse_average
              (snd (premium_outcome
                      (sh (hist ++ (Premium.bench_cmd count timeout
                                      <$> take i servers))
                          (Premium.bench_cmd count timeout s) 10)))).
Proof.
  revert hist results i. induction servers as [|s' servers IH];
    intros hist results i Hi Hs; [done|].
  cbn [bench_results]. destruct i as [|i].
  - injection Hi as ->. cbn [drop] in Hs.
    rewrite bench_results_notin by done.
    cbn [take fmap list_fmap]. by rewrite lookup_insert_eq, app_nil_r.
  - cbn in Hi. cbn [drop] in Hs. rewrite (IH _ _ i) by done.
    cbn [take fmap list_fmap]. by rewrite <- app_assoc.
Qed.

(** X17. The table of [dns_benchmark].  On Windows it runs one ping for
    each server of the list, in the order of the list, duplicates
    included; the table has an entry for the servers of the list and for
    no other key; and the entry of a server is the average read off the
    report of its last ping.  Off Windows nothing is run and every server
    of the list is mapped to [None]. *)
Theorem dns_benchmark_table (servers : list string) (timeout count : Z)
    (w : World) :
  ∃ results w',
    Premium.dns_benchmark servers timeout count w = (Ret results, w') ∧
    issued w' = issued w ++ (if windows w
                             then Premium.bench_cmd count timeout <$> servers
                             else []) ∧
    (∀ s, s ∉ servers → results !! s = None) ∧
    (∀ i s, servers !! i = Some s → s ∉ drop (S i) servers →
       results !! s
         = Some (if windows w
                 then Premium.parse_average
                        (report w (issued w ++ (Premium.bench_cmd count timeout
                                                  <$> take i servers))
                           count timeout s)
                 else None)).
Proof.
  unfold Premium.dns_benchmark. destruct (windows w) eqn:Hwin; cbn [negb].
  - rewrite bench_loop_eq. eexists _, _. split; [reflexivity|]. split_and!.
    + by rewrite issued_record_all.
    + intros s Hs. by rewrite bench_results_notin.
    + intros i s Hi Hs. by apply bench_results_at.
  - eexists _, _. split; [reflexivity|]. split_and!.
    + by rewrite app_nil_r.
    + intros s. induction servers as [|s' servers IH] using rev_ind; [done|].
      intros [Hs Hne]%not_elem_of_app. rewrite foldl_snoc.
      apply not_elem_of_cons in Hne as [Hne _].
      rewrite lookup_insert_ne by done. by apply IH.
    + intros i s Hi Hs.
      assert (Hin : s ∈ servers) by by eapply list_elem_of_lookup_2.
      clear Hi Hs. induction servers as [|s' servers IH] using rev_ind.
      { by apply elem_of_nil in Hin. }
      rewrite foldl_snoc. destruct (decide (s' = s)) as [->|Hne].
      * by rewrite lookup_insert_eq.
      * rewrite lookup_insert_ne by done. apply IH.
        apply elem_of_app in Hin as [?|Hin]; [done|].
        by apply list_elem_of_singleton in Hin.
Qed.

(** ** The numeral of an average *)

Lemma remove_space_cons c s :
  Py.remove " " (String c s)
    = if Ascii.eqb " " c then Py.remove " " s
      else String c (Py.remove " " s).
Proof.
  unfold Py.remove. cbn [Py.remove_go Py.startswith String.length Nat.sub].
  by rewrite andb_true_r.
Qed.

Lemma remove_space_app s t :
  Py.remove " " (s +:+ t) = Py.remove " " s +:+ Py.remove " " t.
Proof.
  induction s as [|c s IH]; [done|].
  rewrite sapp_cons, !remove_space_cons, IH.
  by destruct (Ascii.eqb " " c).
Qed.

Lemma digit_not_space c : Py.isdigit c = true → Ascii.eqb " " c = false.
Proof. by destruct c as [[] [] [] [] [] [] [] []]. Qed.

Lemma remove_space_digits d :
  all_in Re.Digit d = true → Py.remove " " d = d.
Proof.
  induction d as [|c d IH]; [done|]. cbn [all_in Re.in_class].
  intros [Hc Hd]%andb_true_iff.
  by rewrite remove_space_cons, digit_not_space, IH.
Qed.

Lemma contains_cons p c s :
  Py.contains p (String c s) = Py.startswith p (String c s) || Py.contains p s.
Proof. done. Qed.

Lemma last_field_none t :
  Py.contains "=" t = false → Py.last_field "=" t = t.
Proof.
  destruct t as [|c t]; [done|]. rewrite contains_cons.
  intros [Hc Ht]%orb_false_iff. cbn [Py.last_field].
  cbn [Py.startswith] in Hc. rewrite andb_true_r in Hc.
  rewrite Ascii.eqb_sym, Hc. by rewrite Ht.
Qed.

Lemma last_field_after pre t :
  Py.contains "=" t = false → Py.last_field "=" (pre +:+ String "=" t) = t.
Proof.
  intros Ht. induction pre as [|c pre IH].
  - rewrite sapp_nil_l. cbn [Py.last_field]. rewrite Ascii.eqb_refl.
    by apply last_field_none.
  - rewrite sapp_cons. cbn [Py.last_field].
    destruct (Ascii.eqb c "="); [exact IH|].
    change (String "=" t) with ("=" +:+ t). by rewrite contains_sapp.
Qed.

Lemma digit_not_eq_sign c : Py.isdigit c = true → Ascii.eqb "=" c = false.
Proof. by destruct c as [[] [] [] [] [] [] [] []]. Qed.

Lemma digit_not_m c : Py.isdigit c = true → Ascii.eqb "m" c = false.
Proof. by destruct c as [[] [] [] [] [] [] [] []]. Qed.

Lemma digits_ms_no_eq d :
  all_in Re.Digit d = true → Py.contains "=" (d +:+ "ms") = false.
Proof.
  induction d as [|c d IH]; [done|]. cbn [all_in Re.in_class].
  intros [Hc Hd]%andb_true_iff. rewrite sapp_cons, contains_cons.
  cbn [Py.startswith]. by rewrite digit_not_eq_sign, IH.
Qed.

Lemma remove_ms_digits d :
  all_in Re.Digit d = true → Py.remove "ms" (d +:+ "ms") = d.
Proof.
  unfold Py.remove. induction d as [|c d IH]; [done|].
  cbn [all_in Re.in_class]. intros [Hc Hd]%andb_true_iff.
  rewrite sapp_cons. cbn [Py.remove_go Py.startswith].
  by rewrite digit_not_m, IH.
Qed.

Lemma int_lstrip_digits d : all_in Re.Digit d = true → Premium.int_lstrip d = d.
Proof.
  destruct d as [|c d]; [done|]. cbn [all_in Re.in_class].
  intros [Hc _]%andb_true_iff. cbn [Premium.int_lstrip].
  assert (Premium.int_space c = false) as ->; [|done].
  revert Hc. by destruct c as [[] [] [] [] [] [] [] []].
Qed.

Lemma int_rstrip_digits d : all_in Re.Digit d = true → Premium.int_rstrip d = d.
Proof.
  induction d as [|c d IH]; [done|]. cbn [all_in Re.in_class].
  intros [Hc Hd]%andb_true_iff. cbn [Premium.int_rstrip]. rewrite IH by done.
  destruct d; [|done].
  assert (Premium.int_space c = false) as ->; [|done].
  revert Hc. by destruct c as [[] [] [] [] [] [] [] []].
Qed.

(** [int] of a text made of digits reads its digits. *)
Lemma py_int_digits d :
  all_in Re.Digit d = true → Premium.py_int d = Premium.digits 0 true d.
Proof.
  intros Hd. unfold Premium.py_int.
  rewrite int_lstrip_digits, int_rstrip_digits by done.
  destruct d as [|c d]; [done|]. cbn [all_in Re.in_class] in Hd.
  apply andb_true_iff in Hd as [Hc _]. revert Hc.
  by destruct c as [[] [] [] [] [] [] [] []].
Qed.

Lemma pretty_N_char_digit m :
  (m < 10)%N →
  Py.isdigit (pretty_N_char m) = true ∧
  Premium.digit_value (pretty_N_char m) = Z.of_N m.
Proof.
  intros H.
  assert (m = 0 ∨ m = 1 ∨ m = 2 ∨ m = 3 ∨ m = 4 ∨ m = 5 ∨ m = 6 ∨ m = 7
          ∨ m = 8 ∨ m = 9)%N as Hm by lia.
  by repeat destruct Hm as [-> | Hm]; [..|subst m].
Qed.

Lemma digits_pretty_go x :
  (0 < x)%N →
  ∃ k, ∀ s acc sep,
    Premium.digits acc sep (pretty_N_go x s)
      = Premium.digits (acc * k + Z.of_N x) false s.
Proof.
  induction (N.lt_wf_0 x) as [x _ IH]. intros Hx.
  destruct (pretty_N_char_digit (x `mod` 10)) as [Hd Hv];
    [by apply N.mod_lt|].
  destruct (decide (x `div` 10 = 0)%N) as [H0|Hne].
  - exists 10. intros s acc sep. rewrite pretty_N_go_step, H0 by done.
    rewrite pretty_N_go_0. cbn [Premium.digits]. rewrite Hd, Hv.
    f_equal. pose proof (N.div_mod x 10). lia.
  - destruct (IH (x `div` 10)%N) as [k Hk];
      [by apply N.div_lt|by apply N.neq_0_lt_0|].
    exists (k * 10). intros s acc sep.
    rewrite pretty_N_go_step, Hk by done. cbn [Premium.digits].
    rewrite Hd, Hv. f_equal. pose proof (N.div_mod x 10). lia.
Qed.

Lemma all_digit_pretty_go x s :
  all_in Re.Digit s = true → all_in Re.Digit (pretty_N_go x s) = true.
Proof.
  revert s. induction (N.lt_wf_0 x) as [x _ IH]. intros s Hs.
  destruct (decide (x = 0)%N) as [->|Hne]; [by rewrite pretty_N_go_0|].
  rewrite pretty_N_go_step by lia. apply IH; [apply N.div_lt; lia|].
  cbn [all_in Re.in_class]. rewrite Hs, andb_true_r.
  apply pretty_N_char_digit. by apply N.mod_lt.
Qed.

(** The decimal numeral of a natural number is made of digits, and [int]
    reads the number back. *)
Lemma pretty_digits (n : Z) :
  0 ≤ n →
  all_in Re.Digit (pretty n) = true ∧ Premium.py_int (pretty n) = Some n.
Proof.
  intros Hn. destruct n as [|p|p]; [done| |lia].
  change (pretty (Z.pos p)) with (pretty_N_go (N.pos p) EmptyString).
  assert (Hall : all_in Re.Digit (pretty_N_go (N.pos p) EmptyString) = true)
    by by apply all_digit_pretty_go.
  split; [exact Hall|]. rewrite py_int_digits by done.
  destruct (digits_pretty_go (N.pos p)) as [k Hk]; [lia|].
  rewrite Hk. cbn [Premium.digits]. f_equal.
Qed.

(** X18. A summary line is read back.  A line that mentions [Average]
    and in which the text after the last equals sign is, blanks aside, the
    decimal numeral of a number [n], not negative, followed by [ms] gives
    the average [n], whatever was read before: the summary line of the
    ping of Windows, which ends with the average in this form, is read
    back to the number it prints. *)
Theorem summary_line_read_back (avg : option Z) (pre rest : string) (n : Z) :
  0 ≤ n →
  Py.contains "Average" (pre +:+ "=" +:+ rest) = true →
  Py.remove " " rest = pretty n +:+ "ms" →
  Premium.scan_line avg (pre +:+ "=" +:+ rest) = Some n.
Proof.
  intros Hn Hav Hrest. rewrite scan_line_eq, Hav. unfold line_value.
  destruct (pretty_digits n Hn) as [Hall Hint].
  rewrite !remove_space_app, Hrest.
  change (Py.remove " " "=") with "=".
  change ("=" +:+ pretty n +:+ "ms") with (String "=" (pretty n +:+ "ms")).
  rewrite last_field_after by by apply digits_ms_no_eq.
  by rewrite remove_ms_digits.
Qed.

Lemma summary_line_read_back_witness :
  0 ≤ 23 ∧
  Premium.scan_line None
    "    Minimum = 20ms, Maximum = 31ms, Average = 23ms" = Some 23.
Proof.
  split; [lia|].
  apply (summary_line_read_back None
           "    Minimum = 20ms, Maximum = 31ms, Average " " 23ms" 23);
    [lia|reflexivity|reflexivity].
Defined.

(** ** The games *)

Lemma dict_get_set_eq {V} k (v : V) d : dict_get k (dict_set k v d) = Some v.
Proof.
  induction d as [|[k' v'] d IH]; cbn [dict_set dict_get].
  - by rewrite String.eqb_refl.
  - destruct (String.eqb k k') eqn:E; cbn [dict_get].
    + by rewrite String.eqb_refl.
    + by rewrite E.
Qed.

Lemma dict_get_set_ne {V} k k' (v : V) d :
  k' ≠ k → dict_get k' (dict_set k v d) = dict_get k' d.
Proof.
  intros Hne. induction d as [|[k0 v0] d IH]; cbn [dict_set dict_get].
  - by apply String.eqb_neq in Hne as ->.
  - destruct (String.eqb k k0) eqn:E; cbn [dict_get].
    + apply String.eqb_eq in E as <-. by apply String.eqb_neq in Hne as ->.
    + by rewrite IH.
Qed.

Lemma pids_of_append game pid found g :
  pids_of g (Premium.setdefault_append game pid found)
    = pids_of g found ++ (if decide (g = game) then [pid] else []).
Proof.
  unfold pids_of, Premium.setdefault_append.
  destruct (decide (g = game)) as [->|Hne].
  - by rewrite dict_get_set_eq.
  - by rewrite dict_get_set_ne, app_nil_r.
Qed.

Lemma no_empty_append game pid found :
  no_empty_entry found →
  no_empty_entry (Premium.setdefault_append game pid found).
Proof.
  intros H g. unfold Premium.setdefault_append.
  destruct (decide (g = game)) as [->|Hne].
  - rewrite dict_get_set_eq. intros [= Hnil]. by destruct (default _ _).
  - rewrite dict_get_set_ne by done. apply H.
Qed.

Lemma scan_names game pid name names found :
  let found' :=
    fold_left
      (fun found p =>
         if String.eqb (Py.lower p) name
         then Premium.setdefault_append game pid found
         else found)
      names found in
  (no_empty_entry found → no_empty_entry found') ∧
  ∀ g, pids_of g found'
       = pids_of g found
           ++ (if decide (g = game) then replicate (hits name names) pid
               else []).
Proof.
  cbv zeta. revert found. induction names as [|p names IH]; intros found.
  - split; [done|]. intros g. destruct (decide (g = game)); by rewrite app_nil_r.
  - cbn [fold_left]. unfold hits. rewrite filter_cons.
    destruct (String.eqb_spec (Py.lower p) name) as [Heq|Hne].
    + destruct (IH (Premium.setdefault_append game pid found)) as [Hne' Hp].
      split; [intros H; by apply Hne', no_empty_append|].
      intros g. rewrite Hp, pids_of_append.
      rewrite (decide_True (P := Py.lower p = name)) by done.
      cbn [length replicate].
      fold (hits name names). rewrite <- app_assoc.
      by destruct (decide (g = game)).
    + destruct (IH found) as [Hne' Hp]. split; [done|].
      intros g. rewrite Hp.
      by rewrite (decide_False (P := Py.lower p = name)).
Qed.

Lemma scan_games (games : list (string * list string)) pid name found :
  let found' :=
    fold_left
      (fun found gp =>
         fold_left
           (fun found p =>
              if String.eqb (Py.lower p) name
              then Premium.setdefault_append (fst gp) pid found
              else found)
           (snd gp) found)
      games found in
  (no_empty_entry found → no_empty_entry found') ∧
  ∀ g, pids_of g found'
       = pids_of g found
           ++ (games ≫= fun gp =>
                 if decide (g = fst gp)
                 then replicate (hits name (snd gp)) pid else []).
Proof.
  cbv zeta. revert found. induction games as [|gp games IH]; intros found.
  - split; [done|]. intros g. by rewrite app_nil_r.
  - cbn [fold_left].
    destruct (scan_names (fst gp) pid name (snd gp) found) as [Hne1 Hp1].
    cbv zeta in Hne1, Hp1.
    destruct (IH (fold_left
                    (fun found p =>
                       if String.eqb (Py.lower p) name
                       then Premium.setdefault_append (fst gp) pid found
                       else found)
                    (snd gp) found)) as [Hne2 Hp2].
    split; [intros H; by apply Hne2, Hne1|].
    intros g. rewrite Hp2, Hp1. cbn [mbind list_bind].
    by rewrite <- app_assoc.
Qed.

Lemma detect_games_pids procs found :
  let found' := fold_left Premium.scan_process procs found in
  (no_empty_entry found → no_empty_entry found') ∧
  ∀ g, pids_of g found'
       = pids_of g found ++ (procs ≫= proc_pids Premium.COMMON_GAMES g).
Proof.
  cbv zeta. revert found. induction procs as [|proc procs IH]; intros found.
  - split; [done|]. intros g. by rewrite app_nil_r.
  - cbn [fold_left]. unfold Premium.scan_process at 2 4. cbv zeta.
    destruct (scan_games Premium.COMMON_GAMES (snd proc)
                (Py.lower (default EmptyString (fst proc))) found)
      as [Hne1 Hp1].
    cbv zeta in Hne1, Hp1.
    destruct (IH (Premium.scan_process found proc)) as [Hne2 Hp2].
    split; [intros H; by apply Hne2, Hne1|].
    intros g. rewrite Hp2. unfold Premium.scan_process at 1. cbv zeta.
    rewrite Hp1. cbn [mbind list_bind]. by rewrite <- app_assoc.
Qed.

Lemma proc_pids_game g names procs :
  (g, names) ∈ Premium.COMMON_GAMES →
  procs ≫= proc_pids Premium.COMMON_GAMES g = game_pids names procs.
Proof.
  intros Hin. unfold game_pids. induction procs as [|proc procs IH]; [done|].
  cbn [mbind list_bind]. rewrite IH. f_equal.
  unfold proc_pids, Premium.COMMON_GAMES in *. cbn [mbind list_bind fst snd].
  repeat (apply elem_of_cons in Hin as [[= -> ->] | Hin];
          [by rewrite ?app_nil_r|]).
  by apply elem_of_nil in Hin.
Qed.

Lemma proc_pids_nil (games : list (string * list string)) g proc :
  g ∉ fst <$> games → proc_pids games g proc = [].
Proof.
  unfold proc_pids. induction games as [|gp gs IH]; [done|].
  cbn [fmap list_fmap]. intros [Hne Hg]%not_elem_of_cons.
  cbn [mbind list_bind]. rewrite decide_False by done. by apply IH.
Qed.

Lemma proc_pids_other g procs :
  g ∉ fst <$> Premium.COMMON_GAMES →
  procs ≫= proc_pids Premium.COMMON_GAMES g = [].
Proof.
  intros Hg. induction procs as [|proc procs IH]; [done|].
  cbn [mbind list_bind]. by rewrite IH, app_nil_r, proc_pids_nil.
Qed.

(** The entry of a key in the table of [detect_games]. *)
Lemma detect_games_get procs g :
  dict_get g (Premium.detect_games procs)
    = match procs ≫= proc_pids Premium.COMMON_GAMES g with
      | [] => None
      | pids => Some pids
      end.
Proof.
  destruct (detect_games_pids procs []) as [Hne Hp]. cbv zeta in Hne, Hp.
  fold (Premium.detect_games procs) in Hne, Hp.
  assert (Hne' : no_empty_entry (Premium.detect_games procs))
    by (apply Hne; by intros g').
  specialize (Hp g). specialize (Hne' g).
  unfold pids_of in Hp. cbn [dict_get default app] in Hp. rewrite <- Hp.
  by destruct (dict_get g (Premium.detect_games procs)) as [[|pid l]|].
Qed.

(** X19. What [detect_games] lists.  For each of the four games the table
    lists the pid of every running process once for each executable name
    of the game that equals the name of the process, case aside, in the
    order of the processes; a game without any such process has no entry,
    and the table has no entry for any other key.  A process without a
    name matches nothing. *)
Theorem detect_games_table (procs : list (option string * Z)) :
  (∀ game names,
     (game, names) ∈ Premium.COMMON_GAMES →
     dict_get game (Premium.detect_games procs)
       = match game_pids names procs with
         | [] => None
         | pids => Some pids
         end) ∧
  (∀ g, g ∉ fst <$> Premium.COMMON_GAMES →
     dict_get g (Premium.detect_games procs) = None).
Proof.
  split.
  - intros game names Hin.
    by rewrite detect_games_get, (proc_pids_game game names).
  - intros g Hg. by rewrite detect_games_get, proc_pids_other.
Qed.

Lemma detect_games_table_witness :
  dict_get "minecraft"
    (Premium.detect_games [(Some "explorer.exe", 4); (Some "Javaw.EXE", 812);
                           (None, 0); (Some "java.exe", 900)])
    = Some [812; 900].
Proof.
  destruct (detect_games_table [(Some "explorer.exe", 4);
                                (Some "Javaw.EXE", 812);
                                (None, 0); (Some "java.exe", 900)])
    as [H _].
  rewrite (H "minecraft" ["javaw.exe"; "java.exe"]).
  - by vm_compute.
  - apply (bool_decide_unpack _). by vm_compute.
Defined.

(** X20. Two flaws of the table of games.  The list of executables of
    [valorant] holds the name [VALORANT.exe] twice, up to case, and the
    name of another game: when every running process is called
    [valorant.exe], in any case, each pid is listed twice under
    [valorant], so that the count shown is twice the number of processes;
    and a process called [valheim.exe] is listed under [valorant]. *)
Theorem valorant_counted_twice (procs : list (option string * Z)) (pid : Z) :
  (procs ≠ [] →
   Forall (fun proc =>
             Py.lower (default EmptyString (fst proc)) = "valorant.exe")
     procs →
   dict_get "valorant" (Premium.detect_games procs)
     = Some (procs ≫= fun proc => [snd proc; snd proc])) ∧
  Premium.detect_games [(Some "valheim.exe", pid)] = [("valorant", [pid])].
Proof.
  split; [|reflexivity].
  intros Hne Hall.
  rewrite detect_games_get,
    (proc_pids_game "valorant"
       ["valheim.exe"; "VALORANT.exe"; "VALORANT-Win64-Shipping.exe";
        "Valorant.exe"])
    by (apply (bool_decide_unpack _); by vm_compute).
  assert (Hp : game_pids ["valheim.exe"; "VALORANT.exe";
                          "VALORANT-Win64-Shipping.exe"; "Valorant.exe"] procs
               = procs ≫= fun proc => [snd proc; snd proc]).
  { unfold game_pids. clear Hne.
    induction Hall as [|proc procs Hproc _ IH]; [done|].
    cbn [mbind list_bind]. rewrite IH, Hproc. reflexivity. }
  rewrite Hp. destruct procs as [|proc procs]; [done|]. reflexivity.
Qed.

Lemma valorant_counted_twice_witness :
  dict_get "valorant"
    (Premium.detect_games [(Some "VALORANT.exe", 4242)])
    = Some [4242; 4242].
Proof.
  destruct (valorant_counted_twice [(Some "VALORANT.exe", 4242)] 0)
    as [H _].
  rewrite H; [reflexivity|discriminate|].
  by repeat constructor.
Defined.

(** ** The suggested adapters *)

Lemma split_go_cons c s :
  Premium.split_go (String c s)
    = if Py.isspace c
      then (EmptyString, Premium.split s)
      else (String c (fst (Premium.split_go s)), snd (Premium.split_go s)).
Proof.
  cbn [Premium.split_go]. unfold Premium.split.
  by destruct (Premium.split_go s) as [f fs].
Qed.

Lemma split_cons_blank c s :
  Py.isspace c = true → Premium.split (String c s) = Premium.split s.
Proof.
  intros Hc. unfold Premium.split at 1. by rewrite split_go_cons, Hc.
Qed.

Lemma split_go_field f t :
  no_blank f = true →
  Premium.split_go (f +:+ t)
    = (f +:+ fst (Premium.split_go t), snd (Premium.split_go t)).
Proof.
  induction f as [|c f IH]; intros Hf.
  - rewrite !sapp_nil_l. by destruct (Premium.split_go t).
  - cbn in Hf. apply andb_true_iff in Hf as [Hc Hf].
    rewrite sapp_cons, split_go_cons, IH by done.
    apply negb_true_iff in Hc. by rewrite Hc.
Qed.

Lemma split_blanks sp t :
  all_blank sp = true → Premium.split (sp +:+ t) = Premium.split t.
Proof.
  induction sp as [|c sp IH]; intros Hsp.
  - by rewrite sapp_nil_l.
  - cbn in Hsp. apply andb_true_iff in Hsp as [Hc Hsp].
    rewrite sapp_cons, split_cons_blank by done. by apply IH.
Qed.

Lemma split_go_blanks sp t :
  blanks sp = true →
  Premium.split_go (sp +:+ t) = (EmptyString, Premium.split t).
Proof.
  unfold blanks. destruct sp as [|c sp]; [done|]. cbn [Py.truthy all_blank].
  rewrite andb_true_l. intros [Hc Hsp]%andb_true_iff.
  by rewrite sapp_cons, split_go_cons, Hc, split_blanks.
Qed.

(** A field followed by blanks is the first field of the text. *)
Lemma split_field f sp t :
  field f = true → blanks sp = true →
  Premium.split (f +:+ sp +:+ t) = f :: Premium.split t.
Proof.
  unfold field. intros [Hne Hf]%andb_true_iff Hsp.
  unfold Premium.split at 1.
  rewrite split_go_field, split_go_blanks by done. cbn [fst snd].
  rewrite sapp_nil_r. unfold Premium.cons_field. by rewrite Hne.
Qed.

Lemma split_go_fields s :
  no_blank (fst (Premium.split_go s)) = true ∧
  Forall (fun f => field f = true) (snd (Premium.split_go s)).
Proof.
  induction s as [|c s [IHf IHfs]]; [by split|].
  rewrite split_go_cons. destruct (Py.isspace c) eqn:Hc; cbn [fst snd].
  - split; [done|]. unfold Premium.split, Premium.cons_field.
    destruct (Premium.split_go s) as [f fs]. cbn [fst snd] in *.
    destruct (Py.truthy f) eqn:Hf; [|done].
    constructor; [|done]. unfold field. by rewrite Hf, IHf.
  - split; [|done]. cbn. by rewrite Hc, IHf.
Qed.

(** Every part [split] gives is a field. *)
Lemma split_fields s : Forall (fun f => field f = true) (Premium.split s).
Proof.
  destruct (split_go_fields s) as [Hf Hfs].
  unfold Premium.split, Premium.cons_field.
  destruct (Premium.split_go s) as [f fs]. cbn [fst snd] in *.
  destruct (Py.truthy f) eqn:Hne; [|done].
  constructor; [|done]. unfold field. by rewrite Hne, Hf.
Qed.

Lemma join_sp_sep f fs : Premium.join_sp (f :: fs) = f +:+ sep_join fs.
Proof.
  revert f. induction fs as [|g fs IH]; intros f.
  - cbn. by rewrite sapp_nil_r.
  - change (Premium.join_sp (f :: g :: fs))
      with (f +:+ String " " (Premium.join_sp (g :: fs))).
    by rewrite IH.
Qed.

Lemma single_spaced_go_field b f t :
  field f = true →
  single_spaced_go b (f +:+ t) = single_spaced_go false t.
Proof.
  unfold field. intros [Hne Hf]%andb_true_iff.
  revert b. induction f as [|c f IH]; intros b; [done|].
  cbn in Hf. apply andb_true_iff in Hf as [Hc Hf].
  apply negb_true_iff in Hc.
  rewrite sapp_cons. cbn [single_spaced_go]. rewrite Hc.
  destruct f as [|c' f]; [by rewrite sapp_nil_l|]. by apply IH.
Qed.

Lemma single_spaced_sep fs :
  Forall (fun f => field f = true) fs →
  single_spaced_go false (sep_join fs) = true.
Proof.
  induction 1 as [|f fs Hf _ IH]; [done|].
  cbn [sep_join single_spaced_go Py.isspace negb andb Ascii.eqb].
  change (Ascii.eqb " " " ") with true. cbn [andb].
  by rewrite single_spaced_go_field.
Qed.

(** Fields joined by single spaces form a name in which the words are
    separated by single spaces. *)
Lemma single_spaced_join fs :
  fs ≠ [] → Forall (fun f => field f = true) fs →
  single_spaced (Premium.join_sp fs) = true.
Proof.
  destruct fs as [|f fs]; [done|]. intros _ Hall.
  apply Forall_cons in Hall as [Hf Hfs].
  rewrite join_sp_sep. unfold single_spaced.
  rewrite single_spaced_go_field by done. by apply single_spaced_sep.
Qed.

Lemma single_spaced_go_true_head s :
  single_spaced_go true s = true →
  ∃ c s', s = String c s' ∧ Py.isspace c = false.
Proof.
  destruct s as [|c s']; [done|]. cbn [single_spaced_go].
  destruct (Py.isspace c) eqn:Hc; [done|]. by exists c, s'.
Qed.

Lemma single_spaced_split_go b s :
  single_spaced_go b s = true →
  s = fst (Premium.split_go s) +:+ sep_join (snd (Premium.split_go s)).
Proof.
  revert b. induction s as [|c s IH]; intros b Hs; [done|].
  rewrite split_go_cons. cbn [single_spaced_go] in Hs.
  destruct (Py.isspace c) eqn:Hc; cbn [fst snd].
  - apply andb_true_iff in Hs as [[_ Heq]%andb_true_iff Hs].
    apply Ascii.eqb_eq in Heq. subst c. rewrite sapp_nil_l.
    destruct (single_spaced_go_true_head s Hs) as (c' & s' & -> & Hc').
    pose proof (IH true Hs) as Hsplit.
    unfold Premium.split. rewrite split_go_cons, Hc' in Hsplit |- *.
    cbn [fst snd] in Hsplit. unfold Premium.cons_field. cbn [Py.truthy].
    cbn [sep_join]. by rewrite <- Hsplit.
  - rewrite sapp_cons. f_equal. by apply (IH false).
Qed.

(** A name in which the words are separated by single spaces is what its
    words joined give back. *)
Lemma join_split name :
  single_spaced name = true →
  Premium.join_sp (Premium.split name) = name.
Proof.
  intros Hs. unfold single_spaced in Hs.
  pose proof (single_spaced_split_go true name Hs) as Hsplit.
  destruct (single_spaced_go_true_head name Hs) as (c & s' & -> & Hc).
  unfold Premium.split. rewrite split_go_cons, Hc in Hsplit |- *.
  cbn [fst snd] in Hsplit. unfold Premium.cons_field. cbn [Py.truthy].
  by rewrite join_sp_sep.
Qed.

Lemma split_nonblank_head c s :
  Py.isspace c = false → Premium.split (String c s) ≠ [].
Proof.
  intros Hc. unfold Premium.split. rewrite split_go_cons, Hc. done.
Qed.

Lemma fold_scan_adapter lines names :
  fold_left Premium.scan_adapter lines names
    = names ++ omap adapter_name lines.
Proof.
  revert names. induction lines as [|l lines IH]; intros names.
  - by rewrite app_nil_r.
  - assert (Hstep : Premium.scan_adapter names l
                    = names ++ option_list (adapter_name l)).
    { unfold Premium.scan_adapter, adapter_name.
      repeat case_match; by rewrite ?app_nil_r. }
    cbn [fold_left]. rewrite IH, Hstep, <- app_assoc. f_equal.
    change (omap adapter_name (l :: lines))
      with (match adapter_name l with
            | Some y => y :: omap adapter_name lines
            | None => omap adapter_name lines
            end).
    by destruct (adapter_name l).
Qed.

Lemma suggest_adapters_local_eq w :
  windows w = true →
  Premium.suggest_adapters_local w
    = (let r := premium_outcome (shell w (issued w) show_interface_cmd 20) in
       Ret (if fst r =? 0 then omap adapter_name (Py.splitlines (snd r))
            else []),
       record_cmd show_interface_cmd w).
Proof.
  intros Hwin. unfold Premium.suggest_adapters_local.
  erewrite bind_eq by reflexivity. rewrite Hwin. cbn [negb].
  erewrite bind_eq by apply premium_run_cmd_eq.
  fold show_interface_cmd. cbv zeta.
  destruct (premium_outcome _) as [code out]. cbn [fst snd].
  by rewrite fold_scan_adapter.
Qed.

(** The name read off a row of four columns and more. *)
Lemma adapter_name_row line a s1 b s2 c s3 name :
  Py.strip line = a +:+ s1 +:+ b +:+ s2 +:+ c +:+ s3 +:+ name →
  Py.startswith "Admin" (Py.strip line) = false →
  field a = true → field b = true → field c = true →
  blanks s1 = true → blanks s2 = true → blanks s3 = true →
  Premium.split name ≠ [] →
  adapter_name line = Some (Premium.join_sp (Premium.split name)).
Proof.
  intros Hline Hadm Ha Hb Hc H1 H2 H3 Hname. unfold adapter_name.
  rewrite Hadm. rewrite Hline.
  assert (Hne : Py.truthy (a +:+ s1 +:+ b +:+ s2 +:+ c +:+ s3 +:+ name) = true).
  { destruct a; [done|]. by rewrite sapp_cons. }
  rewrite Hne. cbn [negb orb].
  rewrite !split_field by done.
  destruct (Premium.split name) as [|f fs]; [done|]. reflexivity.
Qed.

(** X22. [suggest_adapters_local] cuts the name column out of the table
    of interfaces.  On Windows, when the query succeeds, it is the only
    command run, with a timeout of 20 seconds.  Every name returned is a
    sequence of words separated by single spaces.  A row of the report
    that does not start with [Admin] and has three columns before the
    name gives the words of its name joined by single spaces: a name
    printed with single spaces is returned as it is, whatever the width of
    the gaps between the columns, while a run of blanks inside a name is
    replaced by one space.  A line of fewer than four columns gives
    nothing. *)
Theorem suggest_adapters_names (w : World) (out : string) :
  windows w = true →
  premium_outcome (shell w (issued w) "netsh interface show interface" 20)
    = (0, out) →
  ∃ names,
    Premium.suggest_adapters_local w
      = (Ret names, record_cmd "netsh interface show interface" w) ∧
    (∀ n, n ∈ names → single_spaced n = true) ∧
    (∀ line a s1 b s2 c s3 ch name,
       line ∈ Py.splitlines out →
       Py.strip line = a +:+ s1 +:+ b +:+ s2 +:+ c +:+ s3 +:+ String ch name →
       Py.startswith "Admin" (Py.strip line) = false →
       field a = true → field b = true → field c = true →
       blanks s1 = true → blanks s2 = true → blanks s3 = true →
       Py.isspace ch = false →
       Premium.join_sp (Premium.split (String ch name)) ∈ names ∧
       (single_spaced (String ch name) = true → String ch name ∈ names)) ∧
    (∀ n, n ∈ names →
       ∃ line, line ∈ Py.splitlines out ∧
               (4 ≤ length (Premium.split (Py.strip line)))%nat ∧
               n = Premium.join_sp (drop 3 (Premium.split (Py.strip line)))).
Proof.
  intros Hwin Hout. rewrite suggest_adapters_local_eq by done.
  fold show_interface_cmd in Hout. rewrite Hout. cbn [fst snd].
  change (0 =? 0) with true. cbv iota zeta.
  eexists. split; [reflexivity|].
  assert (Hsrc : ∀ n, n ∈ omap adapter_name (Py.splitlines out) →
            ∃ line, line ∈ Py.splitlines out ∧
                    (4 ≤ length (Premium.split (Py.strip line)))%nat ∧
                    n = Premium.join_sp
                          (drop 3 (Premium.split (Py.strip line)))).
  { intros n (line & Hline & Hn)%list_elem_of_omap.
    exists line. split; [done|]. unfold adapter_name in Hn.
    destruct (negb _ || _); [done|].
    destruct (4 <=? length (Premium.split (Py.strip line)))%nat eqn:Hlen;
      [|done].
    apply Nat.leb_le in Hlen. by inversion Hn. }
  split_and!.
  - intros n (line & _ & Hlen & ->)%Hsrc.
    apply single_spaced_join.
    + intros Hnil. apply (f_equal length) in Hnil.
      rewrite length_drop in Hnil. cbn in Hnil. lia.
    + apply Forall_drop, split_fields.
  - intros line a s1 b s2 c s3 ch name Hin Hline Hadm Ha Hb Hc H1 H2 H3 Hch.
    assert (Hrow : adapter_name line
                   = Some (Premium.join_sp (Premium.split (String ch name)))).
    { eapply adapter_name_row; try done. by apply split_nonblank_head. }
    assert (Hmem : Premium.join_sp (Premium.split (String ch name))
                     ∈ omap adapter_name (Py.splitlines out)).
    { apply list_elem_of_omap. by exists line. }
    split; [exact Hmem|]. intros Hss. by rewrite join_split in Hmem.
  - exact Hsrc.
Qed.

Lemma suggest_adapters_names_witness :
  windows adapter_host = true ∧
  premium_outcome (shell adapter_host (issued adapter_host)
                     "netsh interface show interface" 20)
    = (0, Py.strip show_interface_text) ∧
  ∃ names,
    Premium.suggest_adapters_local adapter_host
      = (Ret names, record_cmd "netsh interface show interface" adapter_host) ∧
    "Ethernet" ∈ names.
Proof.
  split; [reflexivity|]. split; [by vm_compute|].
  destruct (suggest_adapters_names adapter_host (Py.strip show_interface_text))
    as (names & Hrun & _ & Hrows & _); [reflexivity|by vm_compute|].
  exists names. split; [exact Hrun|].
  apply (Hrows "Enabled        Connected      Dedicated        Ethernet"
           "Enabled" "        " "Connected" "      " "Dedicated" "        "
           "E"%char "thernet").
  - apply (bool_decide_unpack _). by vm_compute.
  - by vm_compute.
  - by vm_compute.
  - reflexivity.
  - reflexivity.
  - reflexivity.
  - reflexivity.
  - reflexivity.
  - reflexivity.
  - reflexivity.
  - reflexivity.
Defined.
